(** * Natural Earth GeoJSON downloader and index generator

    A shallow embedding of the two scripts of the repository:

    - [src/data.py]: the catalog downloader ([download_geojson_files] and the
      [__main__] block around it);
    - [src/generate_index.py]: the index generator ([generate_index_html]).

    Both scripts are I/O glue, so the embedding threads an explicit state
    (file system, console, network log and the locals of the run) through a
    small state-and-exception monad, and takes the answers of the outside
    world (HTTP responses, operating-system refusals, the clock) from an
    environment record. *)

From Stdlib Require Import Ascii String List ZArith Lia Bool Sorting.Sorted Permutation.
From stdpp Require Import base decidable option list strings gmap sets pretty.

Local Open Scope string_scope.
Local Open Scope Z_scope.
Local Open Scope nat_scope.

(** ** Python strings and paths *)

Module PyStr.

(** [needle in hay] on Python strings. *)
Fixpoint contains (needle hay : string) : bool :=
  String.prefix needle hay ||
  match hay with
  | EmptyString => false
  | String _ rest => contains needle rest
  end.

(** [s.endswith(suffix)]. *)
Fixpoint endswith (s suffix : string) : bool :=
  String.eqb s suffix ||
  match s with
  | EmptyString => false
  | String _ rest => endswith rest suffix
  end.

(** [s.startswith(prefix)]. *)
Definition startswith (s prefix : string) : bool := String.prefix prefix s.

(** [s.replace(old, new)] for a one-character [old]. *)
Fixpoint replace_char (old : ascii) (new : string) (s : string) : string :=
  match s with
  | EmptyString => EmptyString
  | String c rest =>
      if Ascii.eqb c old then new ++ replace_char old new rest
      else String c (replace_char old new rest)
  end.

(** [posixpath.join(a, b)]: an absolute [b] wins; otherwise the parts are
    glued with exactly one separator. *)
Definition path_join (a b : string) : string :=
  if startswith b "/" then b
  else if String.eqb a "" || endswith a "/" then a ++ b
  else a ++ "/" ++ b.

(** The proper ancestors of a path: every non-empty prefix that stops right
    before a separator.  [os.makedirs] creates all of them. *)
Fixpoint ancestors_from (seen rest : string) : list string :=
  match rest with
  | EmptyString => []
  | String c rest' =>
      let here := if Ascii.eqb c "/" && negb (String.eqb seen "")
                  then [seen] else [] in
      here ++ ancestors_from (seen ++ String c EmptyString) rest'
  end.

Definition ancestors (path : string) : list string := ancestors_from "" path.

End PyStr.

(** ** Exceptions *)

(** The exception classes the scripts can meet.  [RequestException],
    [OSError] and [OtherException] derive from Python's [Exception];
    [KeyboardInterrupt] and [SystemExit] derive from [BaseException] only. *)
Inductive exn : Type :=
| RequestException (msg : string)
| OSError (msg : string)
| OtherException (msg : string)
| KeyboardInterrupt
| SystemExit (code : Z).

Definition is_Exception (e : exn) : bool :=
  match e with
  | RequestException _ | OSError _ | OtherException _ => true
  | KeyboardInterrupt | SystemExit _ => false
  end.

Definition exn_str (e : exn) : string :=
  match e with
  | RequestException msg | OSError msg | OtherException msg => msg
  | KeyboardInterrupt => ""
  | SystemExit code => pretty code
  end.

Inductive result (A : Type) : Type :=
| Ok (a : A)
| Raise (e : exn).
Arguments Ok {A} a.
Arguments Raise {A} e.

(** ** The catalog *)

Definition bytes := list Byte.byte.

(** One value of the [geojson_files] dictionary.  The key [should_overwrite]
    is optional in the source ([config.get] with a default). *)
Record Config : Type := mkConfig {
  download : bool;
  directory : string;
  save_as : string;
  cfg_should_overwrite : option bool;
}.

(** A Python dict in insertion order: source file name to configuration. *)
Abbreviation Catalog := (list (string * Config)).

(** ** The outside world *)

Record Response : Type := mkResponse {
  status_code : Z;
  reason : string;
  content : bytes;
}.

(** What [requests.get] does for a URL. *)
Inductive GetOutcome : Type :=
| Responded (r : Response)
| TransportFailure (msg : string)   (* a requests.RequestException *)
| Interrupted                       (* Ctrl+C while the call blocks *)
| Crashed (msg : string).           (* any other Exception *)

(** How writing a destination file can go wrong. *)
Inductive WriteFault : Type :=
| OpenFails (msg : string)                   (* [open] raises, file untouched *)
| WriteFails (written : nat) (msg : string). (* [f.write] raises mid-stream *)

(** The file system knows files and directories by name, and a path is a way
    to spell a name: [out/x], [./out/x], [out//x], [out/sub/../x] and, from
    the working directory [/work], [/work/out/x] all lead to the same file.
    [resolve] gives the name a path leads to; how it does so (links, letter
    case, the working directory) is left to the system. *)
Record Env : Type := mkEnv {
  cwd : string;
  http_get : string -> GetOutcome;
  mkdir_fault : string -> option string;
  write_fault : string -> option WriteFault;
  sleep_interrupted : nat -> bool;   (* Ctrl+C during the pause after n pauses *)
  resolve : string -> string;        (* the name a path leads to *)
}.

(** Console lines, one constructor per [print] of [data.py], carrying the
    values the f-string interpolates. *)
Inductive Category : Type :=
| Coastline | LandOcean | Administrative | WaterFeature | PlainFile.

Inductive Message : Type :=
| MsgStarting (n : nat)
| MsgBaseDirectory (dir : string)
| MsgOrganizedByCategory
| MsgCreatedDirectory (dir : string)
| MsgSkip (i n : nat) (filename : string)
| MsgDownloading (i n : nat) (filename : string)
| MsgSuccess (c : Category) (size : nat)
| MsgErrorDownload (e : string)
| MsgErrorSave (e : string)
| MsgDownloadComplete
| MsgSuccessCount (k n : nat)
| MsgFailedCount (k : nat)
| MsgFailedItem (name : string)
| MsgOrganizedUnder (dir : string)
| MsgDirectoryStructure
| MsgDirectoryLine (dir : string) (file_count : nat)
| MsgKeyCoastline
| MsgCoastlineSuccess (cf : string)
| MsgCoastlineMissing (cf : string)
| MsgComplete
| MsgAllFinished
| MsgProcessInterrupted
| MsgExiting
| MsgUnexpectedError (e : string)
| MsgInterruptedCtrlC
| MsgExitingGracefully.

(** ** State of a run *)

Record State : Type := mkState {
  (* file system: the names of the directories, and the regular files by name *)
  fs_dirs : gset string;
  fs_files : gmap string bytes;
  (* observable effects, oldest first *)
  stdout : list Message;
  requests : list string;
  opened : list string;
  slept : nat;
  (* locals of download_geojson_files *)
  success_count : nat;
  failed_files : list string;
  created_dirs : gset string;
}.

(** A state-and-exception monad: a raised exception keeps the effects made
    before it, as in Python. *)
Definition M (A : Type) : Type := State -> result A * State.

Definition ret {A} (a : A) : M A := fun s => (Ok a, s).
Definition raise {A} (e : exn) : M A := fun s => (Raise e, s).
Definition bind {A B} (m : M A) (k : A -> M B) : M B :=
  fun s => match m s with
           | (Ok a, s') => k a s'
           | (Raise e, s') => (Raise e, s')
           end.

Notation "x <- m ;; k" := (bind m (fun x => k))
  (at level 100, m at next level, right associativity).
Notation "m ;; k" := (bind m (fun _ => k))
  (at level 100, right associativity).

Definition get_state : M State := fun s => (Ok s, s).
Definition modify (f : State -> State) : M unit := fun s => (Ok tt, f s).

Fixpoint for_each {A} (body : A -> M unit) (l : list A) : M unit :=
  match l with
  | [] => ret tt
  | x :: l' => body x ;; for_each body l'
  end.

(** [try: body except C1: h1 except C2: h2 ...]: the first clause whose class
    matches handles the exception; what a handler raises is not offered to the
    clauses after it. *)
Fixpoint select_clause {A} (e : exn) (clauses : list ((exn -> bool) * (exn -> M A)))
    : option (M A) :=
  match clauses with
  | [] => None
  | (catches, handler) :: rest =>
      if catches e then Some (handler e) else select_clause e rest
  end.

Definition try_clauses {A} (body : M A)
    (clauses : list ((exn -> bool) * (exn -> M A))) : M A :=
  fun s => match body s with
           | (Raise e, s') =>
               match select_clause e clauses with
               | Some handler => handler s'
               | None => (Raise e, s')
               end
           | r => r
           end.

(** [enumerate(l, start)]. *)
Fixpoint enumerate {A} (start : nat) (l : list A) : list (nat * A) :=
  match l with
  | [] => []
  | x :: l' => (start, x) :: enumerate (S start) l'
  end.

(** ** State updates *)

Definition with_fs (d : gset string) (f : gmap string bytes) (s : State) : State :=
  mkState d f (stdout s) (requests s) (opened s) (slept s)
          (success_count s) (failed_files s) (created_dirs s).

Definition with_stdout (o : list Message) (s : State) : State :=
  mkState (fs_dirs s) (fs_files s) o (requests s) (opened s) (slept s)
          (success_count s) (failed_files s) (created_dirs s).

Definition with_requests (r : list string) (s : State) : State :=
  mkState (fs_dirs s) (fs_files s) (stdout s) r (opened s) (slept s)
          (success_count s) (failed_files s) (created_dirs s).

Definition with_opened (o : list string) (s : State) : State :=
  mkState (fs_dirs s) (fs_files s) (stdout s) (requests s) o (slept s)
          (success_count s) (failed_files s) (created_dirs s).

Definition with_slept (n : nat) (s : State) : State :=
  mkState (fs_dirs s) (fs_files s) (stdout s) (requests s) (opened s) n
          (success_count s) (failed_files s) (created_dirs s).

Definition with_locals (k : nat) (ff : list string) (cd : gset string)
    (s : State) : State :=
  mkState (fs_dirs s) (fs_files s) (stdout s) (requests s) (opened s) (slept s)
          k ff cd.

(** ** Primitives: console, file system, network, clock *)

Definition print (m : Message) : M unit :=
  modify (fun s => with_stdout (stdout s ++ [m]) s).

(** Whether the name [k] is that of a directory.  The working directory
    and the root are always there. *)
Definition dir_named (env : Env) (k : string) (s : State) : bool :=
  bool_decide (k ∈ fs_dirs s) || String.eqb k (resolve env ".") ||
  String.eqb k (resolve env "/").

(** The system follows a path from left to right: each prefix that stops
    before a separator must lead to a directory, and the empty path leads
    nowhere.  So [out/x/] is not found when [out/x] is a regular file, nor
    [out/sub/../x] when [out/sub] is missing. *)
Definition walkable (env : Env) (p : string) (s : State) : bool :=
  negb (String.eqb p "") &&
  forallb (fun a => dir_named env (resolve env a) s) (PyStr.ancestors p).

(** [os.path.isdir(p)]. *)
Definition is_dir (env : Env) (p : string) (s : State) : bool :=
  walkable env p s && dir_named env (resolve env p) s.

(** [os.path.exists(p)]. *)
Definition path_exists (env : Env) (p : string) (s : State) : bool :=
  walkable env p s &&
  (dir_named env (resolve env p) s ||
   bool_decide (resolve env p ∈ dom (fs_files s))).

Definition os_path_exists (env : Env) (p : string) : M bool :=
  fun s => (Ok (path_exists env p s), s).

(** [os.makedirs(d, exist_ok=True)]: nothing to do and no error when [d] is
    already a directory; an error when [d] or one of its ancestors is a
    regular file, or when the operating system refuses; otherwise [d] and its
    missing ancestors are created, each prefix of the path in turn. *)
Definition os_makedirs (env : Env) (d : string) : M unit :=
  fun s =>
    if is_dir env d s then (Ok tt, s)
    else if String.eqb d "" then (Raise (OSError "FileNotFoundError"), s)
    else if bool_decide (resolve env d ∈ dom (fs_files s)) then
      (Raise (OSError "FileExistsError"), s)
    else if existsb (fun a => bool_decide (resolve env a ∈ dom (fs_files s)))
                    (PyStr.ancestors d) then
      (Raise (OSError "NotADirectoryError"), s)
    else match mkdir_fault env d with
         | Some msg => (Raise (OSError msg), s)
         | None =>
             (Ok tt,
              with_fs (fs_dirs s ∪
                       list_to_set (map (resolve env) (d :: PyStr.ancestors d)))
                      (fs_files s) s)
         end.

(** [with open(p, 'wb') as f: f.write(body)].  The file is created in a
    directory that exists, or not at all; a directory cannot be opened for
    writing.  Opening truncates, so a write that fails mid-stream leaves the
    bytes written so far. *)
Definition write_file (env : Env) (p : string) (body : bytes) : M unit :=
  fun s =>
    let s := with_opened (opened s ++ [p]) s in
    if negb (walkable env p s) then (Raise (OSError "FileNotFoundError"), s)
    else if dir_named env (resolve env p) s then
      (Raise (OSError "IsADirectoryError"), s)
    else match write_fault env p with
         | Some (OpenFails msg) => (Raise (OSError msg), s)
         | Some (WriteFails written msg) =>
             (Raise (OSError msg),
              with_fs (fs_dirs s)
                      (<[resolve env p := take written body]> (fs_files s)) s)
         | None =>
             (Ok tt,
              with_fs (fs_dirs s) (<[resolve env p := body]> (fs_files s)) s)
         end.

(** [requests.get(url, headers=...)]. *)
Definition requests_get (env : Env) (url : string) : M Response :=
  fun s =>
    let s := with_requests (requests s ++ [url]) s in
    match http_get env url with
    | Responded r => (Ok r, s)
    | TransportFailure msg => (Raise (RequestException msg), s)
    | Interrupted => (Raise KeyboardInterrupt, s)
    | Crashed msg => (Raise (OtherException msg), s)
    end.

(** [Response.raise_for_status()] of the requests library: an [HTTPError]
    (a [RequestException]) for a status from 400 to 599, nothing otherwise. *)
Definition http_error_msg (url : string) (r : Response) : option string :=
  if ((400 <=? status_code r) && (status_code r <? 500))%Z then
    Some (pretty (status_code r) ++ " Client Error: " ++ reason r ++ " for url: " ++ url)
  else if ((500 <=? status_code r) && (status_code r <? 600))%Z then
    Some (pretty (status_code r) ++ " Server Error: " ++ reason r ++ " for url: " ++ url)
  else None.

Definition raise_for_status (url : string) (r : Response) : M unit :=
  match http_error_msg url r with
  | Some msg => raise (RequestException msg)
  | None => ret tt
  end.

(** [time.sleep(1)]: the pause passes, or a Ctrl+C ends it. *)
Definition time_sleep (env : Env) : M unit :=
  fun s =>
    if sleep_interrupted env (slept s) then (Raise KeyboardInterrupt, s)
    else (Ok tt, with_slept (S (slept s)) s).

(** [sys.exit(code)]. *)
Definition sys_exit {A} (code : Z) : M A := raise (SystemExit code).

(** Lines 13 to 17.  The handler is defined but never installed: the script
    holds no call of [signal.signal], so a Ctrl+C reaches the program as a
    [KeyboardInterrupt] raised where it is blocked. *)
Definition signal_handler : M unit :=
  print MsgInterruptedCtrlC ;;
  print MsgExitingGracefully ;;
  sys_exit 0.

(** [sorted(l)] on strings: stable insertion by code-point order. *)
Fixpoint insert_by {A} (key : A -> string) (x : A) (l : list A) : list A :=
  match l with
  | [] => [x]
  | y :: l' =>
      if String.leb (key x) (key y) then x :: l else y :: insert_by key x l'
  end.

Fixpoint sort_by {A} (key : A -> string) (l : list A) : list A :=
  match l with
  | [] => []
  | x :: l' => insert_by key x (sort_by key l')
  end.

Definition sorted_strings (l : list string) : list string := sort_by id l.

(** [d[k]] on a catalog. *)
Fixpoint dict_get (k : string) (d : Catalog) : option Config :=
  match d with
  | [] => None
  | (k', v) :: d' => if String.eqb k' k then Some v else dict_get k d'
  end.

(** ** [data.py]: the downloader *)

Definition is_RequestException (e : exn) : bool :=
  match e with RequestException _ => true | _ => false end.

Definition is_KeyboardInterrupt (e : exn) : bool :=
  match e with KeyboardInterrupt => true | _ => false end.

(** The keyword cascade that picks the wording of the success line. *)
Definition highlight (filename : string) : Category :=
  if PyStr.contains "coastline" filename then Coastline
  else if existsb (fun keyword => PyStr.contains keyword filename) ["land"; "ocean"]
  then LandOcean
  else if PyStr.contains "admin" filename then Administrative
  else if existsb (fun keyword => PyStr.contains keyword filename) ["lake"; "river"]
  then WaterFeature
  else PlainFile.

Section Downloader.

Variable env : Env.

(** The configuration constants at the top of [download_geojson_files]. *)
Variable should_overwrite : bool.
Variable base_url : string.
Variable geojson_files : Catalog.

Definition files_to_download : Catalog :=
  filter (fun kv => download (snd kv)) geojson_files.

Definition file_should_overwrite (config : Config) : bool :=
  default should_overwrite (cfg_should_overwrite config).

Definition filepath_of (config : Config) : string :=
  PyStr.path_join (directory config) (save_as config).

Definition add_created_dir (d : string) : M unit :=
  modify (fun s => with_locals (success_count s) (failed_files s)
                               (created_dirs s ∪ {[d]}) s).

Definition incr_success_count : M unit :=
  modify (fun s => with_locals (S (success_count s)) (failed_files s)
                               (created_dirs s) s).

(** Lines 209 to 214: the directory is made once per run. *)
Definition ensure_directory (config : Config) : M unit :=
  s <- get_state ;;
  if bool_decide (directory config ∈ created_dirs s) then ret tt
  else os_makedirs env (directory config) ;;
       add_created_dir (directory config) ;;
       print (MsgCreatedDirectory (directory config)).

(** Lines 222 to 251: fetch, check the status, save, count, pause. *)
Definition fetch_and_save (i : nat) (filename : string) (config : Config) : M unit :=
  print (MsgDownloading i (length files_to_download) filename) ;;
  let url := base_url ++ filename in
  response <- requests_get env url ;;
  raise_for_status url response ;;
  write_file env (filepath_of config) (content response) ;;
  print (MsgSuccess (highlight filename) (length (content response))) ;;
  incr_success_count ;;
  if i <? length files_to_download then time_sleep env else ret tt.

(** Lines 206 to 251: the body of the [try] in the loop. *)
Definition try_body (i : nat) (filename : string) (config : Config) : M unit :=
  ensure_directory config ;;
  present <- os_path_exists env (filepath_of config) ;;
  if present && negb (file_should_overwrite config) then
    print (MsgSkip i (length files_to_download) filename)
  else fetch_and_save i filename config.

(** Lines 205 to 254: one iteration, with its only [except] clause. *)
Definition process_entry (item : nat * (string * Config)) : M unit :=
  let '(i, (filename, config)) := item in
  try_clauses (try_body i filename config)
    [(is_RequestException, fun e => print (MsgErrorDownload (exn_str e)))].

(** Lines 256 to 282: the summary printed after the loop. *)
Definition report_failed : M unit :=
  s <- get_state ;;
  match failed_files s with
  | [] => ret tt
  | _ => print (MsgFailedCount (length (failed_files s))) ;;
         for_each (fun failed => print (MsgFailedItem failed)) (failed_files s)
  end.

Definition report_directories : M unit :=
  s <- get_state ;;
  for_each
    (fun d =>
       let file_count :=
         length (filter (fun kv => String.eqb (directory (snd kv)) d)
                        files_to_download) in
       print (MsgDirectoryLine d file_count))
    (sorted_strings (elements (created_dirs s))).

Definition report_coastlines : M unit :=
  let coastline_files :=
    filter (PyStr.contains "coastline") (map fst files_to_download) in
  for_each
    (fun cf =>
       match dict_get cf files_to_download with
       | None => raise (OtherException "KeyError")
       | Some config =>
           present <- os_path_exists env (filepath_of config) ;;
           if present then print (MsgCoastlineSuccess cf)
           else print (MsgCoastlineMissing cf)
       end)
    coastline_files.

Definition summary : M unit :=
  print MsgDownloadComplete ;;
  s <- get_state ;;
  print (MsgSuccessCount (success_count s) (length files_to_download)) ;;
  report_failed ;;
  print (MsgOrganizedUnder (cwd env)) ;;
  print MsgDirectoryStructure ;;
  report_directories ;;
  print MsgKeyCoastline ;;
  report_coastlines.

Definition download_loop : M unit :=
  for_each process_entry (enumerate 1 files_to_download).

Definition download_geojson_files : M unit :=
  print (MsgStarting (length files_to_download)) ;;
  print (MsgBaseDirectory (cwd env)) ;;
  print MsgOrganizedByCategory ;;
  modify (with_locals 0 [] ∅) ;;
  download_loop ;;
  summary ;;
  print MsgComplete ;;
  print MsgAllFinished ;;
  sys_exit 0.

(** Lines 288 to 301: the [__main__] block.  Its third clause repeats the
    class of the second one, so it is never selected; it names
    [failed_files] and [filename], which do not exist at module level. *)
Definition dunder_main : M unit :=
  try_clauses download_geojson_files
    [ (is_KeyboardInterrupt,
       fun _ => print MsgProcessInterrupted ;; print MsgExiting ;; sys_exit 0);
      (is_Exception,
       fun e => print (MsgUnexpectedError (exn_str e)) ;; print MsgExiting ;;
                sys_exit 1);
      (is_Exception,
       fun e => print (MsgErrorSave (exn_str e)) ;;
                raise (OtherException "NameError")) ].

End Downloader.

(** The exit status the interpreter reports for a finished script. *)
Definition exit_status (r : result unit) : Z :=
  match r with
  | Ok _ => 0
  | Raise (SystemExit code) => code
  | Raise KeyboardInterrupt => 130
  | Raise _ => 1
  end%Z.

Definition initial_state (dirs : gset string) (files : gmap string bytes) : State :=
  mkState dirs files [] [] [] 0 0 [] ∅.

(** ** [generate_index.py]: the index generator *)

Module IndexGenerator.

(** A directory as [os.scandir] lists it: the names of its plain files and
    its sub-directories, each in listing order. *)
#[warnings="-register-all"]
Inductive Tree : Type :=
| Dir (files : list string) (subdirs : list (string * Tree)).

(** What the path [features_root] is on disk. *)
Inductive PathState : Type :=
| Missing
| NotADirectory
| Directory (t : Tree).

Record GenEnv : Type := mkGenEnv {
  os_sep : string;                    (* "/" on POSIX, a backslash on Windows *)
  now : string;                       (* strftime('%Y-%m-%d %H:%M:%S') of the clock *)
  features : PathState;
  index_write_fault : option string;  (* open('index.html', 'w') refused *)
  encodable : string -> bool;         (* the encoding of the locale can encode the text *)
}.

Record GenState : Type := mkGenState {
  console : list string;
  index_html : option string;
}.

(** One element of the list [geojson_files]. *)
Record FileInfo : Type := mkFileInfo {
  filename : string;
  url : string;
}.

Definition base_github_url : string := "https://dvanauken.github.io/data".
Definition features_root : string := "features".

Definition nl : string := String "010"%char EmptyString.
Definition dquote : string := String "034"%char EmptyString.
Definition backslash : ascii := "092"%char.

(** [os.walk(top)]: the triples [(root, dirs, files)], top-down. *)
Fixpoint os_walk (sep top : string) (t : Tree)
    : list (string * list string * list string) :=
  match t with
  | Dir files subdirs =>
      (top, map fst subdirs, files) ::
      (fix walk_subdirs (l : list (string * Tree))
           : list (string * list string * list string) :=
         match l with
         | [] => []
         | (name, sub) :: l' =>
             (os_walk sep (top ++ sep ++ name) sub ++ walk_subdirs l')%list
         end) subdirs
  end.

Definition walk_root (env : GenEnv)
    : list (string * list string * list string) :=
  match features env with
  | Directory t => os_walk (os_sep env) features_root t
  | _ => []
  end.

(** [os.path.relpath(p)] for the paths the walk produces: they are already
    relative to the working directory and hold no [.], [..] or doubled
    separator, so normalisation returns them as they are. *)
Definition os_path_relpath (p : string) : string := p.

(** Lines 27 to 35: the record appended for a matching file. *)
Definition file_info (sep root file : string) : FileInfo :=
  let rel_path := os_path_relpath (root ++ sep ++ file) in
  let url_path := PyStr.replace_char backslash "/" rel_path in
  let full_url := base_github_url ++ "/" ++ url_path in
  mkFileInfo file full_url.

(** Lines 25 to 35: the two nested loops. *)
Definition collect (sep : string)
    (walk : list (string * list string * list string)) : list FileInfo :=
  flat_map
    (fun '(root, _, files) =>
       map (file_info sep root)
           (filter (fun file => PyStr.endswith file ".geojson") files))
    walk.

Definition html_header (stamp : string) (total : nat) : string :=
  "<html>" ++ nl ++
  "<head>" ++ nl ++
  "<title>Natural Earth GeoJSON Files</title>" ++ nl ++
  "</head>" ++ nl ++
  "<body>" ++ nl ++
  "<h1>Natural Earth GeoJSON Files</h1>" ++ nl ++
  "<p>Generated: " ++ stamp ++ "</p>" ++ nl ++
  "<p>Total files: " ++ pretty total ++ "</p>" ++ nl ++
  "<hr>" ++ nl ++
  "<ul>" ++ nl.

(** Line 54: one list item, the values interpolated as they are. *)
Definition html_item (file_info : FileInfo) : string :=
  "<li><a href=" ++ dquote ++ url file_info ++ dquote ++ ">" ++
  filename file_info ++ "</a></li>" ++ nl.

Definition html_footer : string :=
  "</ul>" ++ nl ++ "</body>" ++ nl ++ "</html>".

Fixpoint html_items (l : list FileInfo) : string :=
  match l with
  | [] => EmptyString
  | file_info :: l' => html_item file_info ++ html_items l'
  end.

Definition render (stamp : string) (geojson_files : list FileInfo) : string :=
  html_header stamp (length geojson_files) ++ html_items geojson_files ++ html_footer.

(** Lines 61 and 62 open [index.html] in text mode, which truncates it, and
    write the page in the encoding of the locale, with strict error handling:
    a page that holds a character the encoding lacks (it can only come from a
    file name) makes [f.write] raise [UnicodeEncodeError] before a byte is
    written.  The file is then left empty and line 64 is not reached. *)
Definition generate_index_html (env : GenEnv) (s : GenState)
    : result unit * GenState :=
  match features env with
  | Missing =>
      (Ok tt,
       mkGenState
         (console s ++ ["ERROR: Directory '" ++ features_root ++ "' not found!"])
         (index_html s))
  | _ =>
      let geojson_files := collect (os_sep env) (walk_root env) in
      let geojson_files := sort_by filename geojson_files in
      let html := render (now env) geojson_files in
      match index_write_fault env with
      | Some msg => (Raise (OSError msg), s)
      | None =>
          if encodable env html then
            (Ok tt,
             mkGenState
               (console s ++ ["Generated index.html with " ++
                              pretty (length geojson_files) ++ " files"])
               (Some html))
          else
            (Raise (OtherException "UnicodeEncodeError"),
             mkGenState (console s) (Some ""))
      end
  end.

End IndexGenerator.

(** ** The configuration compiled into [data.py] *)

Module Shipped.

Definition should_overwrite : bool := true.

Definition base_url : string :=
  "https://github.com/nvkelso/natural-earth-vector/raw/master/geojson/".

(** Lines 30 to 191, in declaration order. *)
Definition geojson_files : Catalog :=
[
  ("ne_10m_coastline.geojson", mkConfig true "features/coastlines" "coastline_10m.geojson" None);
  ("ne_10m_minor_islands_coastline.geojson", mkConfig true "features/coastlines" "coastline_island_10m.geojson" (Some false));
  ("ne_10m_land.geojson", mkConfig true "features/land_ocean" "land_10m.geojson" None);
  ("ne_10m_ocean.geojson", mkConfig true "features/land_ocean" "ocean_10m.geojson" None);
  ("ne_10m_land_ocean_label_points.geojson", mkConfig false "features/land_ocean" "ne_10m_land_ocean_label_points.geojson" None);
  ("ne_10m_land_ocean_seams.geojson", mkConfig false "features/land_ocean" "ne_10m_land_ocean_seams.geojson" None);
  ("ne_10m_land_scale_rank.geojson", mkConfig false "features/land_ocean" "ne_10m_land_scale_rank.geojson" None);
  ("ne_10m_ocean_scale_rank.geojson", mkConfig false "features/land_ocean" "ne_10m_ocean_scale_rank.geojson" None);
  ("ne_10m_admin_0_countries.geojson", mkConfig true "features/admin/countries" "admin_0.geojson" None);
  ("ne_10m_admin_0_countries_lakes.geojson", mkConfig true "features/admin/countries" "admin_0_lakes.geojson" None);
  ("ne_10m_admin_0_boundary_lines_land.geojson", mkConfig true "features/admin/boundaries" "admin_0_lines.geojson" None);
  ("ne_10m_admin_1_states_provinces.geojson", mkConfig false "features/admin/states_provinces" "admin_1.geojson" None);
  ("ne_10m_admin_1_states_provinces_lakes.geojson", mkConfig true "features/admin/states_provinces" "admin_1_lakes.geojson" None);
  ("ne_10m_admin_1_states_provinces_lines.geojson", mkConfig true "features/admin/states_provinces" "admin_1_lines.geojson" None);
  ("ne_10m_admin_1_states_provinces_scale_rank.geojson", mkConfig false "features/admin/states_provinces" "admin_1.geojson" None);
  ("ne_10m_admin_2_counties.geojson", mkConfig true "features/admin/counties" "admin_2.geojson" None);
  ("ne_10m_admin_2_counties_lakes.geojson", mkConfig true "features/admin/counties" "admin_2_lakes.geojson" None);
  ("ne_10m_admin_2_counties_scale_rank.geojson", mkConfig false "features/admin/counties" "admin_2.geojson" None);
  ("ne_10m_admin_2_counties_scale_rank_minor_islands.geojson", mkConfig false "features/admin/counties" "admin_2.geojson" None);
  ("ne_10m_bathymetry_A_10000.geojson", mkConfig false "features/bathymetry" "ne_10m_bathymetry_A_10000.geojson" None);
  ("ne_10m_bathymetry_B_9000.geojson", mkConfig false "features/bathymetry" "ne_10m_bathymetry_B_9000.geojson" None);
  ("ne_10m_bathymetry_C_8000.geojson", mkConfig false "features/bathymetry" "ne_10m_bathymetry_C_8000.geojson" None);
  ("ne_10m_bathymetry_D_7000.geojson", mkConfig false "features/bathymetry" "ne_10m_bathymetry_D_7000.geojson" None);
  ("ne_10m_bathymetry_E_6000.geojson", mkConfig false "features/bathymetry" "ne_10m_bathymetry_E_6000.geojson" None);
  ("ne_10m_bathymetry_F_5000.geojson", mkConfig false "features/bathymetry" "ne_10m_bathymetry_F_5000.geojson" None);
  ("ne_10m_bathymetry_G_4000.geojson", mkConfig false "features/bathymetry" "ne_10m_bathymetry_G_4000.geojson" None);
  ("ne_10m_bathymetry_H_3000.geojson", mkConfig false "features/bathymetry" "ne_10m_bathymetry_H_3000.geojson" None);
  ("ne_10m_bathymetry_I_2000.geojson", mkConfig false "features/bathymetry" "ne_10m_bathymetry_I_2000.geojson" None);
  ("ne_10m_bathymetry_J_1000.geojson", mkConfig false "features/bathymetry" "ne_10m_bathymetry_J_1000.geojson" None);
  ("ne_10m_bathymetry_K_200.geojson", mkConfig false "features/bathymetry" "ne_10m_bathymetry_K_200.geojson" None);
  ("ne_10m_bathymetry_L_0.geojson", mkConfig false "features/bathymetry" "ne_10m_bathymetry_L_0.geojson" None);
  ("ne_10m_lakes.geojson", mkConfig true "features/lakes" "ne_10m_lakes.geojson" None);
  ("ne_10m_lakes_australia.geojson", mkConfig false "features/lakes" "ne_10m_lakes_australia.geojson" None);
  ("ne_10m_lakes_europe.geojson", mkConfig false "features/lakes" "ne_10m_lakes_europe.geojson" None);
  ("ne_10m_lakes_historic.geojson", mkConfig false "features/lakes" "ne_10m_lakes_historic.geojson" None);
  ("ne_10m_lakes_north_america.geojson", mkConfig false "features/lakes" "ne_10m_lakes_north_america.geojson" None);
  ("ne_10m_lakes_pluvial.geojson", mkConfig false "features/lakes" "ne_10m_lakes_pluvial.geojson" None);
  ("ne_10m_rivers_australia.geojson", mkConfig false "features/rivers" "ne_10m_rivers_australia.geojson" None);
  ("ne_10m_rivers_europe.geojson", mkConfig false "features/rivers" "ne_10m_rivers_europe.geojson" None);
  ("ne_10m_rivers_lake_centerlines.geojson", mkConfig false "features/rivers" "ne_10m_rivers_lake_centerlines.geojson" None);
  ("ne_10m_rivers_lake_centerlines_scale_rank.geojson", mkConfig false "features/rivers" "ne_10m_rivers_lake_centerlines_scale_rank.geojson" None);
  ("ne_10m_rivers_north_america.geojson", mkConfig false "features/rivers" "ne_10m_rivers_north_america.geojson" None);
  ("ne_10m_populated_places.geojson", mkConfig false "features/populated_places" "ne_10m_populated_places.geojson" None);
  ("ne_10m_populated_places_simple.geojson", mkConfig true "features/populated_places" "ne_10m_populated_places_simple.geojson" None);
  ("ne_10m_roads.geojson", mkConfig false "features/transportation" "ne_10m_roads.geojson" None);
  ("ne_10m_railroads.geojson", mkConfig false "features/transportation" "ne_10m_railroads.geojson" None);
  ("ne_10m_railroads_north_america.geojson", mkConfig false "features/transportation" "ne_10m_railroads_north_america.geojson" None);
  ("ne_10m_airports.geojson", mkConfig true "features/transportation" "ne_10m_airports.geojson" None);
  ("ne_10m_ports.geojson", mkConfig true "features/transportation" "ne_10m_ports.geojson" None);
  ("ne_10m_minor_islands.geojson", mkConfig true "features/islands" "ne_10m_minor_islands.geojson" None);
  ("ne_10m_minor_islands_label_points.geojson", mkConfig true "features/islands" "ne_10m_minor_islands_label_points.geojson" None);
  ("ne_10m_reefs.geojson", mkConfig true "features/islands" "ne_10m_reefs.geojson" None);
  ("ne_10m_glaciated_areas.geojson", mkConfig false "features/ice_features" "ne_10m_glaciated_areas.geojson" None);
  ("ne_10m_antarctic_ice_shelves_lines.geojson", mkConfig false "features/ice_features" "ne_10m_antarctic_ice_shelves_lines.geojson" None);
  ("ne_10m_antarctic_ice_shelves_polys.geojson", mkConfig false "features/ice_features" "ne_10m_antarctic_ice_shelves_polys.geojson" None);
  ("ne_10m_geographic_lines.geojson", mkConfig false "features/geographic_reference" "ne_10m_geographic_lines.geojson" None);
  ("ne_10m_geography_marine_polys.geojson", mkConfig false "features/geographic_reference" "ne_10m_geography_marine_polys.geojson" None);
  ("ne_10m_geography_regions_elevation_points.geojson", mkConfig false "features/geographic_reference" "ne_10m_geography_regions_elevation_points.geojson" None);
  ("ne_10m_geography_regions_points.geojson", mkConfig false "features/geographic_reference" "ne_10m_geography_regions_points.geojson" None);
  ("ne_10m_geography_regions_polys.geojson", mkConfig false "features/geographic_reference" "ne_10m_geography_regions_polys.geojson" None);
  ("ne_10m_time_zones.geojson", mkConfig false "features/geographic_reference" "ne_10m_time_zones.geojson" None);
  ("ne_10m_graticules_1.geojson", mkConfig false "features/graticules" "ne_10m_graticules_1.geojson" None);
  ("ne_10m_graticules_5.geojson", mkConfig false "features/graticules" "ne_10m_graticules_5.geojson" None);
  ("ne_10m_graticules_10.geojson", mkConfig false "features/graticules" "ne_10m_graticules_10.geojson" None);
  ("ne_10m_graticules_15.geojson", mkConfig false "features/graticules" "ne_10m_graticules_15.geojson" None);
  ("ne_10m_graticules_20.geojson", mkConfig false "features/graticules" "ne_10m_graticules_20.geojson" None);
  ("ne_10m_graticules_30.geojson", mkConfig false "features/graticules" "ne_10m_graticules_30.geojson" None);
  ("ne_10m_wgs84_bounding_box.geojson", mkConfig false "features/graticules" "ne_10m_wgs84_bounding_box.geojson" None);
  ("ne_10m_parks_and_protected_lands_area.geojson", mkConfig false "features/protected_areas" "ne_10m_parks_and_protected_lands_area.geojson" None);
  ("ne_10m_parks_and_protected_lands_line.geojson", mkConfig false "features/protected_areas" "ne_10m_parks_and_protected_lands_line.geojson" None);
  ("ne_10m_parks_and_protected_lands_point.geojson", mkConfig false "features/protected_areas" "ne_10m_parks_and_protected_lands_point.geojson" None);
  ("ne_10m_parks_and_protected_lands_scale_rank.geojson", mkConfig false "features/protected_areas" "ne_10m_parks_and_protected_lands_scale_rank.geojson" None);
  ("ne_10m_urban_areas.geojson", mkConfig false "features/urban_areas" "ne_10m_urban_areas.geojson" None);
  ("ne_10m_urban_areas_landscan.geojson", mkConfig false "features/urban_areas" "ne_10m_urban_areas_landscan.geojson" None);
  ("ne_10m_playas.geojson", mkConfig true "features/misc_physical" "ne_10m_playas.geojson" None);
  ("ne_10m_admin_0_antarctic_claim_limit_lines.geojson", mkConfig false "features/admin/detailed" "ne_10m_admin_0_antarctic_claim_limit_lines.geojson" None);
  ("ne_10m_admin_0_antarctic_claims.geojson", mkConfig false "features/admin/detailed" "ne_10m_admin_0_antarctic_claims.geojson" None);
  ("ne_10m_admin_0_boundary_lines_disputed_areas.geojson", mkConfig false "features/admin/detailed" "ne_10m_admin_0_boundary_lines_disputed_areas.geojson" None);
  ("ne_10m_admin_0_boundary_lines_map_units.geojson", mkConfig false "features/admin/detailed" "ne_10m_admin_0_boundary_lines_map_units.geojson" None);
  ("ne_10m_admin_0_boundary_lines_maritime_indicator.geojson", mkConfig false "features/admin/detailed" "ne_10m_admin_0_boundary_lines_maritime_indicator.geojson" None);
  ("ne_10m_admin_0_boundary_lines_maritime_indicator_chn.geojson", mkConfig false "features/admin/detailed" "ne_10m_admin_0_boundary_lines_maritime_indicator_chn.geojson" None);
  ("ne_10m_admin_0_disputed_areas.geojson", mkConfig false "features/admin/detailed" "ne_10m_admin_0_disputed_areas.geojson" None);
  ("ne_10m_admin_0_disputed_areas_scale_rank_minor_islands.geojson", mkConfig false "features/admin/detailed" "ne_10m_admin_0_disputed_areas_scale_rank_minor_islands.geojson" None);
  ("ne_10m_admin_0_label_points.geojson", mkConfig false "features/admin/detailed" "ne_10m_admin_0_label_points.geojson" None);
  ("ne_10m_admin_0_map_subunits.geojson", mkConfig false "features/admin/detailed" "ne_10m_admin_0_map_subunits.geojson" None);
  ("ne_10m_admin_0_map_units.geojson", mkConfig false "features/admin/detailed" "ne_10m_admin_0_map_units.geojson" None);
  ("ne_10m_admin_0_pacific_groupings.geojson", mkConfig false "features/admin/detailed" "ne_10m_admin_0_pacific_groupings.geojson" None);
  ("ne_10m_admin_0_scale_rank.geojson", mkConfig false "features/admin/detailed" "ne_10m_admin_0_scale_rank.geojson" None);
  ("ne_10m_admin_0_scale_rank_minor_islands.geojson", mkConfig false "features/admin/detailed" "ne_10m_admin_0_scale_rank_minor_islands.geojson" None);
  ("ne_10m_admin_0_seams.geojson", mkConfig false "features/admin/detailed" "ne_10m_admin_0_seams.geojson" None);
  ("ne_10m_admin_0_sovereignty.geojson", mkConfig false "features/admin/detailed" "ne_10m_admin_0_sovereignty.geojson" None);
  ("ne_10m_admin_1_label_points.geojson", mkConfig false "features/admin/detailed" "ne_10m_admin_1_label_points.geojson" None);
  ("ne_10m_admin_1_label_points_details.geojson", mkConfig false "features/admin/detailed" "ne_10m_admin_1_label_points_details.geojson" None);
  ("ne_10m_admin_1_seams.geojson", mkConfig false "features/admin/detailed" "ne_10m_admin_1_seams.geojson" None);
  ("ne_10m_admin_2_label_points.geojson", mkConfig false "features/admin/detailed" "ne_10m_admin_2_label_points.geojson" None);
  ("ne_10m_admin_2_label_points_details.geojson", mkConfig false "features/admin/detailed" "ne_10m_admin_2_label_points_details.geojson" None);
  ("ne_10m_admin_0_countries_arg.geojson", mkConfig false "features/admin/country_specific" "ne_10m_admin_0_countries_arg.geojson" None);
  ("ne_10m_admin_0_countries_bdg.geojson", mkConfig false "features/admin/country_specific" "ne_10m_admin_0_countries_bdg.geojson" None);
  ("ne_10m_admin_0_countries_bra.geojson", mkConfig false "features/admin/country_specific" "ne_10m_admin_0_countries_bra.geojson" None);
  ("ne_10m_admin_0_countries_chn.geojson", mkConfig false "features/admin/country_specific" "ne_10m_admin_0_countries_chn.geojson" None);
  ("ne_10m_admin_0_countries_deu.geojson", mkConfig false "features/admin/country_specific" "ne_10m_admin_0_countries_deu.geojson" None);
  ("ne_10m_admin_0_countries_egy.geojson", mkConfig false "features/admin/country_specific" "ne_10m_admin_0_countries_egy.geojson" None);
  ("ne_10m_admin_0_countries_esp.geojson", mkConfig false "features/admin/country_specific" "ne_10m_admin_0_countries_esp.geojson" None);
  ("ne_10m_admin_0_countries_fra.geojson", mkConfig false "features/admin/country_specific" "ne_10m_admin_0_countries_fra.geojson" None);
  ("ne_10m_admin_0_countries_gbr.geojson", mkConfig false "features/admin/country_specific" "ne_10m_admin_0_countries_gbr.geojson" None);
  ("ne_10m_admin_0_countries_grc.geojson", mkConfig false "features/admin/country_specific" "ne_10m_admin_0_countries_grc.geojson" None);
  ("ne_10m_admin_0_countries_idn.geojson", mkConfig false "features/admin/country_specific" "ne_10m_admin_0_countries_idn.geojson" None);
  ("ne_10m_admin_0_countries_ind.geojson", mkConfig false "features/admin/country_specific" "ne_10m_admin_0_countries_ind.geojson" None);
  ("ne_10m_admin_0_countries_iso.geojson", mkConfig false "features/admin/country_specific" "ne_10m_admin_0_countries_iso.geojson" None);
  ("ne_10m_admin_0_countries_isr.geojson", mkConfig false "features/admin/country_specific" "ne_10m_admin_0_countries_isr.geojson" None);
  ("ne_10m_admin_0_countries_ita.geojson", mkConfig false "features/admin/country_specific" "ne_10m_admin_0_countries_ita.geojson" None);
  ("ne_10m_admin_0_countries_jpn.geojson", mkConfig false "features/admin/country_specific" "ne_10m_admin_0_countries_jpn.geojson" None);
  ("ne_10m_admin_0_countries_kor.geojson", mkConfig false "features/admin/country_specific" "ne_10m_admin_0_countries_kor.geojson" None);
  ("ne_10m_admin_0_countries_mar.geojson", mkConfig false "features/admin/country_specific" "ne_10m_admin_0_countries_mar.geojson" None);
  ("ne_10m_admin_0_countries_nep.geojson", mkConfig false "features/admin/country_specific" "ne_10m_admin_0_countries_nep.geojson" None);
  ("ne_10m_admin_0_countries_nld.geojson", mkConfig false "features/admin/country_specific" "ne_10m_admin_0_countries_nld.geojson" None);
  ("ne_10m_admin_0_countries_pak.geojson", mkConfig false "features/admin/country_specific" "ne_10m_admin_0_countries_pak.geojson" None);
  ("ne_10m_admin_0_countries_pol.geojson", mkConfig false "features/admin/country_specific" "ne_10m_admin_0_countries_pol.geojson" None);
  ("ne_10m_admin_0_countries_prt.geojson", mkConfig false "features/admin/country_specific" "ne_10m_admin_0_countries_prt.geojson" None);
  ("ne_10m_admin_0_countries_pse.geojson", mkConfig false "features/admin/country_specific" "ne_10m_admin_0_countries_pse.geojson" None);
  ("ne_10m_admin_0_countries_rus.geojson", mkConfig false "features/admin/country_specific" "ne_10m_admin_0_countries_rus.geojson" None);
  ("ne_10m_admin_0_countries_sau.geojson", mkConfig false "features/admin/country_specific" "ne_10m_admin_0_countries_sau.geojson" None);
  ("ne_10m_admin_0_countries_swe.geojson", mkConfig false "features/admin/country_specific" "ne_10m_admin_0_countries_swe.geojson" None);
  ("ne_10m_admin_0_countries_tlc.geojson", mkConfig false "features/admin/country_specific" "ne_10m_admin_0_countries_tlc.geojson" None);
  ("ne_10m_admin_0_countries_tur.geojson", mkConfig false "features/admin/country_specific" "ne_10m_admin_0_countries_tur.geojson" None);
  ("ne_10m_admin_0_countries_twn.geojson", mkConfig false "features/admin/country_specific" "ne_10m_admin_0_countries_twn.geojson" None);
  ("ne_10m_admin_0_countries_ukr.geojson", mkConfig false "features/admin/country_specific" "ne_10m_admin_0_countries_ukr.geojson" None);
  ("ne_10m_admin_0_countries_usa.geojson", mkConfig false "features/admin/country_specific" "ne_10m_admin_0_countries_usa.geojson" None);
  ("ne_10m_admin_0_countries_vnm.geojson", mkConfig false "features/admin/country_specific" "ne_10m_admin_0_countries_vnm.geojson" None)
].

Definition main (env : Env) : M unit :=
  dunder_main env should_overwrite base_url geojson_files.

End Shipped.

(** * Vocabulary of the properties *)

Local Open Scope list_scope.
#[local] Set Warnings "-clear-no-such-hyp".

(** ** Order *)

(** Order of two records by their keys, in code-point order. *)
Definition key_le {A} (key : A -> string) (a b : A) : Prop :=
  String.le (key a) (key b).

(** ** Computations *)

(** Whatever the state it starts in, [m] relates it to the state it leaves,
    whether it returns or raises. *)
Definition preserves {A} (R : relation State) (m : M A) : Prop :=
  forall s, R s (m s).2.

(** Every exception [m] raises satisfies [P]. *)
Definition raises_only {A} (P : exn -> Prop) (m : M A) : Prop :=
  forall s e, (m s).1 = Raise e -> P e.

(** ** Console lines and exceptions *)

(** The lines the loop can print. *)
Definition loop_message (m : Message) : Prop :=
  match m with
  | MsgCreatedDirectory _ | MsgSkip _ _ _ | MsgDownloading _ _ _
  | MsgSuccess _ _ | MsgErrorDownload _ => True
  | _ => False
  end.

(** The lines that report the failure list. *)
Definition failed_report (m : Message) : Prop :=
  match m with
  | MsgFailedCount _ | MsgFailedItem _ => True
  | _ => False
  end.

(** The lines of the summary before its closing banner. *)
Definition summary_message (m : Message) : Prop :=
  match m with
  | MsgDownloadComplete | MsgSuccessCount _ _ | MsgFailedCount _
  | MsgFailedItem _ | MsgOrganizedUnder _ | MsgDirectoryStructure
  | MsgDirectoryLine _ _ | MsgKeyCoastline | MsgCoastlineSuccess _
  | MsgCoastlineMissing _ => True
  | _ => False
  end.

(** The lines [download_geojson_files] prints before its closing banner. *)
Definition body_message (m : Message) : Prop :=
  match m with
  | MsgComplete | MsgAllFinished | MsgProcessInterrupted | MsgExiting
  | MsgUnexpectedError _ | MsgErrorSave _ | MsgInterruptedCtrlC
  | MsgExitingGracefully => False
  | _ => True
  end.

(** Every line but the ones that list a directory in the final report. *)
Definition not_directory_line (m : Message) : Prop :=
  match m with MsgDirectoryLine _ _ => False | _ => True end.

(** The line printed for a skipped entry. *)
Definition skip_line (m : Message) : bool :=
  match m with MsgSkip _ _ _ => true | _ => false end.

(** Everything but [sys.exit]. *)
Definition not_exit (e : exn) : Prop :=
  match e with SystemExit _ => False | _ => True end.

(** ** Relations between the state before and after *)

(** The failure list is left as it is. *)
Definition same_failed : relation State :=
  fun s s' => failed_files s' = failed_files s.

(** The console gains only lines that satisfy [P]. *)
Definition emits (P : Message -> Prop) : relation State :=
  fun s s' => exists out, stdout s' = stdout s ++ out /\ Forall P out.

(** Nothing disappears from the file system. *)
Definition fs_grows : relation State :=
  fun s s' => fs_dirs s ⊆ fs_dirs s' /\ dom (fs_files s) ⊆ dom (fs_files s').

(** Starting from an empty failure list, the list stays empty and no line
    about failed files is printed. *)
Definition unreported : relation State :=
  fun s s' =>
    failed_files s = [] ->
    failed_files s' = [] /\ emits (fun m => ~ failed_report m) s s'.

(** No file is opened or written. *)
Definition same_files : relation State :=
  fun s s' => opened s' = opened s /\ fs_files s' = fs_files s.

(** No request, no write, no change to the counters of the run. *)
Definition no_transfer : relation State :=
  fun s s' =>
    requests s' = requests s /\ opened s' = opened s /\
    fs_files s' = fs_files s /\
    success_count s' = success_count s /\ failed_files s' = failed_files s.

(** Requests go to [u] only, and the only path opened is [p]: no file but
    the one it leads to changes. *)
Definition touches_only (env : Env) (u p : string) : relation State :=
  fun s s' =>
    (forall x, x ∈ requests s' -> x ∈ requests s \/ x = u) /\
    (forall x, x ∈ opened s' -> x ∈ opened s \/ x = p) /\
    (forall k, k <> resolve env p -> fs_files s' !! k = fs_files s !! k).

(** Neither the directories on disk nor the recorded ones change. *)
Definition same_dirs : relation State :=
  fun s s' => fs_dirs s' = fs_dirs s /\ created_dirs s' = created_dirs s.

(** The recorded directories are left as they are. *)
Definition same_created : relation State :=
  fun s s' => created_dirs s' = created_dirs s.

(** Once the directories [D] exist, no directory is created any more. *)
Definition settled (env : Env) (D : gset string) : relation State :=
  fun s s' => (forall d, d ∈ D -> is_dir env d s = true) -> fs_dirs s' = fs_dirs s.

(** ** Outcomes of a fetch *)

(** The request outcomes the code treats as a failed fetch: a transport
    error, or a response that [raise_for_status] rejects. *)
Definition fetch_rejected (env : Env) (u : string) : bool :=
  match http_get env u with
  | TransportFailure _ => true
  | Responded r => bool_decide (is_Some (http_error_msg u r))
  | _ => false
  end.

(** The request outcomes after which the body is saved. *)
Definition fetch_accepted (env : Env) (u : string) : bool :=
  match http_get env u with
  | Responded r => bool_decide (http_error_msg u r = None)
  | _ => false
  end.

(** A status from 200 to 299. *)
Definition is_2xx (r : Response) : bool :=
  ((200 <=? status_code r) && (status_code r <? 300))%Z.

(** A response outside the 2xx range, or a transport error. *)
Definition fetch_not_2xx (env : Env) (u : string) : bool :=
  match http_get env u with
  | TransportFailure _ => true
  | Responded r => negb (is_2xx r)
  | _ => false
  end.

(** ** Runs *)

(** The state in which the loop starts. *)
Definition loop_start (env : Env) (geojson_files : Catalog) (s : State) : State :=
  with_locals 0 [] ∅
    (with_stdout (stdout s ++ [MsgStarting (length (files_to_download geojson_files))]
                           ++ [MsgBaseDirectory (cwd env)]
                           ++ [MsgOrganizedByCategory]) s).

(** What stays true of a protected destination [p] and of the URL [u] of its
    entry while the loop runs. *)
Definition protected (env : Env) (u p : string) (s : State) : Prop :=
  path_exists env p s = true /\ (u ∉ requests s).

(** The file [p] leads to holds what it held in [files], or is absent as it
    was there. *)
Definition kept (env : Env) (files : gmap string bytes) (p : string) (s : State) : Prop :=
  fs_files s !! resolve env p = files !! resolve env p.

(** The directories named by the enabled entries. *)
Definition wanted_dirs (l : Catalog) : gset string :=
  list_to_set (map (fun kv => directory kv.2) l).

(** The line of the final report for the directory [d]. *)
Definition directory_line (l : Catalog) (d : string) : Message :=
  MsgDirectoryLine d
    (length (filter (fun kv : string * Config => String.eqb (directory kv.2) d) l)).

(** The paths [os.makedirs] touches for an entry, and the names of the
    directories they lead to. *)
Definition made_dirs (config : Config) : list string :=
  directory config :: PyStr.ancestors (directory config).

Definition made_names (env : Env) (config : Config) : list string :=
  map (resolve env) (made_dirs config).

(** Directories and destinations do not get in each other's way.  For each
    entry: the directory and the destination are not the empty path; the
    destination is reached through directories that are there at the start or
    that [os.makedirs] makes for the entry; what it leads to is not a
    directory; and no directory to make is a regular file or the destination
    of an entry. *)
Definition layout_ok (env : Env) (dirs : gset string) (files : gmap string bytes)
    (l : Catalog) : Prop :=
  Forall (fun kv : string * Config =>
            directory kv.2 <> "" /\ filepath_of kv.2 <> "" /\
            Forall (fun a =>
                      dir_named env (resolve env a) (initial_state dirs files) = true \/
                      resolve env a ∈ made_names env kv.2)
                   (PyStr.ancestors (filepath_of kv.2)) /\
            dir_named env (resolve env (filepath_of kv.2))
                      (initial_state dirs files) = false /\
            Forall (fun x => (x ∉ dom files) /\
                             Forall (fun kv' : string * Config =>
                                       resolve env (filepath_of kv'.2) <> x) l)
                   (made_names env kv.2)) l.

(** No refusal from the operating system and no Ctrl+C during a pause. *)
Definition no_faults (env : Env) : Prop :=
  (forall p, mkdir_fault env p = None) /\
  (forall p, write_fault env p = None) /\
  (forall n, sleep_interrupted env n = false).

(** What the file system can hold during such a run, and what is known of
    the recorded directories. *)
Definition within_layout (env : Env) (dirs : gset string) (files : gmap string bytes)
    (l : Catalog) (s : State) : Prop :=
  (forall x, x ∈ fs_dirs s ->
     x ∈ dirs \/ exists kv, kv ∈ l /\ x ∈ made_names env kv.2) /\
  (forall k, k ∈ dom (fs_files s) ->
     k ∈ dom files \/ exists kv, kv ∈ l /\ k = resolve env (filepath_of kv.2)) /\
  dirs ⊆ fs_dirs s /\
  (forall kv, kv ∈ l -> directory kv.2 ∈ created_dirs s ->
     is_dir env (directory kv.2) s = true).

(** The fetch of [fk] is rejected and every other fetch is accepted. *)
Definition one_failure (env : Env) (base_url fk : string) (kv : string * Config) : Prop :=
  if decide (kv.1 = fk) then fetch_rejected env (base_url +:+ kv.1) = true
  else fetch_accepted env (base_url +:+ kv.1) = true.

(** The entries other than the one whose fetch fails. *)
Definition others (fk : string) (l : Catalog) : Catalog :=
  filter (fun kv : string * Config => kv.1 <> fk) l.

(** ** A file system without links

    The naming used in the examples. *)

(** The pieces of a path between its separators. *)
Fixpoint components_from (seen rest : string) : list string :=
  match rest with
  | EmptyString => [seen]
  | String c rest' =>
      if Ascii.eqb c "/" then seen :: components_from "" rest'
      else components_from (seen +:+ String c EmptyString) rest'
  end.

Definition components (path : string) : list string := components_from "" path.

(** The components of an absolute path once the empty ones and [.] are
    dropped and every [..] has cancelled the component before it; [kept]
    holds the components kept so far, the last one first. *)
Fixpoint cancel (kept comps : list string) : list string :=
  match comps with
  | [] => rev kept
  | comp :: comps' =>
      if String.eqb comp "" || String.eqb comp "." then cancel kept comps'
      else if String.eqb comp ".." then cancel (tail kept) comps'
      else cancel (comp :: kept) comps'
  end.

(** What is left of [comps] after the components [base], if it starts with
    them. *)
Fixpoint strip_prefix (base comps : list string) : option (list string) :=
  match base, comps with
  | [], _ => Some comps
  | b :: base', c :: comps' =>
      if String.eqb b c then strip_prefix base' comps' else None
  | _ :: _, [] => None
  end.

(** How a system without links names what a path denotes, for a process
    whose working directory is the absolute path [cwd]: what lies in the
    working directory by its path from there, as [os.path.relpath] does, the
    working directory itself by [.], and everything else by its absolute
    path.  Two paths have the same name exactly when they lead to the same
    place. *)
Definition name_from (cwd path : string) : string :=
  let absolute :=
    if PyStr.startswith path "/" then path else cwd +:+ "/" +:+ path in
  let comps := cancel [] (components absolute) in
  match strip_prefix (cancel [] (components cwd)) comps with
  | Some [] => "."
  | Some rest => String.concat "/" rest
  | None => "/" +:+ String.concat "/" comps
  end.

(** ** Inputs of the examples *)

(** A catalog of two enabled entries that share the directory [out]. *)
Definition two_entries : Catalog :=
  [ ("a.geojson", mkConfig true "out" "a.geojson" None);
    ("b.geojson", mkConfig true "out" "b.geojson" None) ].

(** The host answers 404 for the first file and times out on the second. *)
Definition env_both_fail : Env :=
  mkEnv "/work"
    (fun u => if String.eqb u "http://host/a.geojson"
              then Responded (mkResponse 404 "Not Found" [])
              else TransportFailure "Read timed out")
    (fun _ => None) (fun _ => None) (fun _ => false) (name_from "/work").

(** The host serves both files, but the first destination cannot be opened. *)
Definition env_read_only : Env :=
  mkEnv "/work"
    (fun _ => Responded (mkResponse 200 "OK" [Byte.x7b; Byte.x7d]))
    (fun _ => None)
    (fun p => if String.eqb p "out/a.geojson"
              then Some (OpenFails "[Errno 13] Permission denied: 'out/a.geojson'")
              else None)
    (fun _ => false) (name_from "/work").

(** Ctrl+C arrives while the second file is being requested. *)
Definition env_ctrl_c_in_request : Env :=
  mkEnv "/work"
    (fun u => if String.eqb u "http://host/b.geojson" then Interrupted
              else Responded (mkResponse 200 "OK" [Byte.x7b; Byte.x7d]))
    (fun _ => None) (fun _ => None) (fun _ => false) (name_from "/work").

(** Ctrl+C arrives during the pause after the first file. *)
Definition env_ctrl_c_in_pause : Env :=
  mkEnv "/work"
    (fun _ => Responded (mkResponse 200 "OK" [Byte.x7b; Byte.x7d]))
    (fun _ => None) (fun _ => None) (fun n => Nat.eqb n 0) (name_from "/work").

(** One enabled entry, and its destination already on disk. *)
Definition entry_a : string * Config :=
  ("a.geojson", mkConfig true "out" "a.geojson" None).

Definition disk_with_a : State :=
  initial_state {["out"]} {["out/a.geojson" := [Byte.x7b; Byte.x7d]]}.

(** The host answers 304 Not Modified, with an empty body. *)
Definition env_not_modified : Env :=
  mkEnv "/work" (fun _ => Responded (mkResponse 304 "Not Modified" []))
    (fun _ => None) (fun _ => None) (fun _ => false) (name_from "/work").

(** Two entries that share one destination; the first must not overwrite. *)
Definition shared_destination : Catalog :=
  [ ("a.geojson", mkConfig true "out" "x.geojson" (Some false));
    ("b.geojson", mkConfig true "out" "x.geojson" None) ].

Definition disk_with_x : State :=
  initial_state {["out"]} {["out/x.geojson" := [Byte.x6f; Byte.x6c; Byte.x64]]}.

Definition env_serves_new : Env :=
  mkEnv "/work" (fun _ => Responded (mkResponse 200 "OK" [Byte.x6e; Byte.x65; Byte.x77]))
    (fun _ => None) (fun _ => None) (fun _ => false) (name_from "/work").

(** A protected entry next to one with a destination of its own. *)
Definition protected_and_other : Catalog :=
  [ ("a.geojson", mkConfig true "out" "x.geojson" (Some false));
    ("c.geojson", mkConfig true "out" "c.geojson" None) ].

(** Three enabled entries; the host is down for the second one only. *)
Definition three_entries : Catalog :=
  [ ("a.geojson", mkConfig true "out" "a.geojson" None);
    ("b.geojson", mkConfig true "out" "b.geojson" None);
    ("c.geojson", mkConfig true "out/more" "c.geojson" None) ].

(** Three enabled entries, the first and the third saved to the same
    file. *)
Definition two_share_one_fails : Catalog :=
  [ ("a.geojson", mkConfig true "out" "x.geojson" None);
    ("b.geojson", mkConfig true "out" "b.geojson" None);
    ("c.geojson", mkConfig true "out" "x.geojson" None) ].

Definition env_b_unavailable : Env :=
  mkEnv "/work"
    (fun u => if String.eqb u "http://host/b.geojson"
              then Responded (mkResponse 503 "Service Unavailable" [])
              else Responded (mkResponse 200 "OK" [Byte.x7b; Byte.x7d]))
    (fun _ => None) (fun _ => None) (fun _ => false) (name_from "/work").

(** ** The index generator *)

Module IndexSpec.

Import IndexGenerator.

(** Every plain file below [top], as (directory path, name). *)
Fixpoint tree_files (sep top : string) (t : Tree) : list (string * string) :=
  match t with
  | Dir files subdirs =>
      map (fun file => (top, file)) files ++
      (fix in_subdirs (l : list (string * Tree)) : list (string * string) :=
         match l with
         | [] => []
         | (name, sub) :: l' =>
             tree_files sep (top +:+ sep +:+ name) sub ++ in_subdirs l'
         end) subdirs
  end.

Definition is_geojson (entry : string * string) : Prop :=
  PyStr.endswith entry.2 ".geojson".

Definition entry_info (sep : string) (entry : string * string) : FileInfo :=
  file_info sep entry.1 entry.2.

(** A record of the list [geojson_files], as the pair of its two values. *)
Definition as_link (file_info : FileInfo) : string * string :=
  (filename file_info, url file_info).

(** *** The page, in the words of the specification

    What follows is written from the description of the page, with the
    functions of the standard library only, to be compared with what the
    generator computes. *)

Definition lf : string := String "010"%char EmptyString.
Definition quote : string := String "034"%char EmptyString.

(** The name ends with [.geojson], in this letter case. *)
Definition has_extension (name : string) : Prop :=
  list_ascii_of_string ".geojson" `suffix_of` list_ascii_of_string name.

(** The path with every backslash turned into a slash. *)
Definition slashed (path : string) : string :=
  string_of_list_ascii
    (map (fun c : ascii => if Ascii.eqb c "092"%char then "/"%char else c)
         (list_ascii_of_string path)).

(** What the page shows for the file [entry], found in the directory
    [entry.1] under the name [entry.2]: the name, and the address of the file
    on the site. *)
Definition link_of (sep : string) (entry : string * string) : string * string :=
  (entry.2,
   "https://dvanauken.github.io/data/" +:+ slashed (entry.1 +:+ sep +:+ entry.2)).

(** The list item of a link [(name, address)]. *)
Definition list_item (link : string * string) : string :=
  "<li><a href=" +:+ quote +:+ link.2 +:+ quote +:+ ">" +:+ link.1 +:+
  "</a></li>" +:+ lf.

(** The whole page for the time stamp [stamp] and the links [links]. *)
Definition page (stamp : string) (links : list (string * string)) : string :=
  "<html>" +:+ lf +:+
  "<head>" +:+ lf +:+
  "<title>Natural Earth GeoJSON Files</title>" +:+ lf +:+
  "</head>" +:+ lf +:+
  "<body>" +:+ lf +:+
  "<h1>Natural Earth GeoJSON Files</h1>" +:+ lf +:+
  "<p>Generated: " +:+ stamp +:+ "</p>" +:+ lf +:+
  "<p>Total files: " +:+ pretty (length links) +:+ "</p>" +:+ lf +:+
  "<hr>" +:+ lf +:+
  "<ul>" +:+ lf +:+
  String.concat "" (map list_item links) +:+
  "</ul>" +:+ lf +:+ "</body>" +:+ lf +:+ "</html>".

(** The files of [t] that the page lists, in the order of the walk. *)
Definition listed (sep : string) (t : Tree) : list (string * string) :=
  filter (fun entry => has_extension entry.2) (tree_files sep "features" t).

(** The links of the listed files, sorted by name as line 38 sorts the
    records. *)
Definition links_of (sep : string) (t : Tree) : list (string * string) :=
  sort_by fst (map (link_of sep) (listed sep t)).

(** *** Inputs of the examples *)

(** A locale whose encoding has every character. *)
Definition any_text (text : string) : bool := true.

(** The directory of the specification's example, on a POSIX system. *)
Definition three_files : Tree := Dir ["a.geojson"; "B.geojson"; "c.txt"] [].

Definition env_three_files : GenEnv :=
  mkGenEnv "/" "2024-05-01 12:00:00" (Directory three_files) None any_text.

Definition env_no_root : GenEnv :=
  mkGenEnv "/" "2024-05-01 12:00:00" Missing None any_text.

(** A file whose name holds the four HTML metacharacters. *)
Definition hostile_name : string := "<b>&" +:+ quote +:+ ".geojson".

Definition env_hostile : GenEnv :=
  mkGenEnv "/" "2024-05-01 12:00:00" (Directory (Dir [hostile_name] [])) None any_text.

(** A UTF-8 locale.  A file name is a sequence of bytes, and the byte 255
    occurs in no UTF-8 text: Python reads a name that holds it from the disk
    (as a lone surrogate) but cannot encode it back. *)
Definition utf8_text (text : string) : bool :=
  negb (PyStr.contains (String "255"%char EmptyString) text).

(** A name with such a byte, next to a plain one. *)
Definition stray_name : string := "caf" +:+ String "255"%char ".geojson".

Definition env_stray_name : GenEnv :=
  mkGenEnv "/" "2024-05-01 12:00:00"
           (Directory (Dir ["a.geojson"; stray_name] [])) None utf8_text.

(** A name with such a byte and with markup, alone in its directory. *)
Definition stray_markup_name : string := String "255"%char "<b>.geojson".

Definition env_stray_markup : GenEnv :=
  mkGenEnv "/" "2024-05-01 12:00:00"
           (Directory (Dir [stray_markup_name] [])) None utf8_text.

End IndexSpec.

(** ** Turns of the loop *)

(** No request, no write, no change to the counters, no pause. *)
Definition idle : relation State :=
  fun s s' => no_transfer s s' /\ slept s' = slept s.

(** The four ways one turn of the loop can go for an entry with the URL [u]
    and the destination [p]; [pause] tells whether a pause follows a save. *)
Inductive turn (env : Env) (u p : string) (pause : bool) (s : State)
    : result unit -> State -> Prop :=
| turn_not_fetched o s' :
    idle s s' ->
    o = Ok tt \/ (exists msg, o = Raise (OSError msg)) ->
    turn env u p pause s o s'
| turn_not_saved o s' :
    requests s' = requests s ++ [u] -> opened s' = opened s ->
    fs_files s' = fs_files s -> success_count s' = success_count s ->
    slept s' = slept s ->
    (fetch_rejected env u = true /\ o = Ok tt) \/
    (http_get env u = Interrupted /\ o = Raise KeyboardInterrupt) \/
    (exists msg, http_get env u = Crashed msg /\ o = Raise (OtherException msg)) ->
    turn env u p pause s o s'
| turn_write_failed r msg s' :
    http_get env u = Responded r -> http_error_msg u r = None ->
    requests s' = requests s ++ [u] -> opened s' = opened s ++ [p] ->
    success_count s' = success_count s -> slept s' = slept s ->
    fs_files s' = fs_files s \/
    (exists n, write_fault env p = Some (WriteFails n msg) /\
               fs_files s' = <[resolve env p := take n (content r)]> (fs_files s)) ->
    turn env u p pause s (Raise (OSError msg)) s'
| turn_saved r o s' :
    http_get env u = Responded r -> http_error_msg u r = None ->
    requests s' = requests s ++ [u] -> opened s' = opened s ++ [p] ->
    fs_files s' = <[resolve env p := content r]> (fs_files s) ->
    success_count s' = S (success_count s) ->
    (o = Ok tt /\ slept s' = (if pause then S (slept s) else slept s)) \/
    (pause = true /\ o = Raise KeyboardInterrupt /\ slept s' = slept s) ->
    turn env u p pause s o s'.

(** ** What a run leaves alone *)

(** The content of a file changes only if a path that leads to it was
    opened. *)
Definition only_opened_change (env : Env) : relation State :=
  fun s s' =>
    (forall x, x ∈ opened s -> x ∈ opened s') /\
    (forall k, (forall q, q ∈ opened s' -> resolve env q <> k) ->
               fs_files s' !! k = fs_files s !! k).

(** Directories on disk stay among those that satisfy [P]. *)
Definition dirs_within (P : string -> Prop) : relation State :=
  fun s s' =>
    (forall x, x ∈ fs_dirs s -> P x) -> forall x, x ∈ fs_dirs s' -> P x.

(** Recorded directories stay among those that satisfy [P]. *)
Definition created_within (P : string -> Prop) : relation State :=
  fun s s' =>
    (forall x, x ∈ created_dirs s -> P x) -> forall x, x ∈ created_dirs s' -> P x.

(** ** More console lines *)

(** The lines of the two handlers of [__main__] that can be selected. *)
Definition handler_line (m : Message) : Prop :=
  match m with
  | MsgProcessInterrupted | MsgExiting | MsgUnexpectedError _ => True
  | _ => False
  end.

(** The lines of the code no run reaches: [signal_handler], and the third
    [except] clause of [__main__]. *)
Definition unreachable_line (m : Message) : Prop :=
  match m with
  | MsgErrorSave _ | MsgInterruptedCtrlC | MsgExitingGracefully => True
  | _ => False
  end.

(** The directory a line announces as created, if it is such a line. *)
Definition announced_dir (m : Message) : option string :=
  match m with MsgCreatedDirectory d => Some d | _ => None end.

(** The directories announced as created on the console so far. *)
Definition announced (s : State) : list string := omap announced_dir (stdout s).

(** The announcements and the record of directories agree: no directory is
    announced twice, the announced ones are the recorded ones, and all of
    them exist. *)
Definition dirs_recorded (env : Env) (s : State) : Prop :=
  NoDup (announced s) /\
  (forall d, d ∈ announced s <-> d ∈ created_dirs s) /\
  (forall d, d ∈ created_dirs s -> is_dir env d s = true).

(** A line that announces no directory. *)
Definition not_announcement (m : Message) : Prop := announced_dir m = None.

(** The size a line reports as saved, if it is a per-file success line. *)
Definition success_size (m : Message) : option nat :=
  match m with MsgSuccess _ size => Some size | _ => None end.

(** The console gains one success line for each unit the success count
    gains. *)
Definition counted : relation State :=
  fun s s' =>
    exists out, stdout s' = stdout s ++ out /\
                success_count s' = success_count s + length (omap success_size out).

(** The lines one turn of the loop prints for the entry numbered [i] out of
    [N] when it returns: the announcement of its directory if it is the first
    entry there, then the SKIP line, or the DOWNLOADING line followed by the
    ERROR or the SUCCESS line. *)
Definition entry_lines (N i : nat) (filename : string) (config : Config)
    (out : list Message) : Prop :=
  exists pre,
    (pre = [] \/ pre = [MsgCreatedDirectory (directory config)]) /\
    (out = pre ++ [MsgSkip i N filename] \/
     (exists e, out = pre ++ [MsgDownloading i N filename; MsgErrorDownload e]) \/
     (exists size, out = pre ++ [MsgDownloading i N filename;
                                 MsgSuccess (highlight filename) size])).

(** Any exception but a [requests.RequestException]. *)
Definition not_request_error (e : exn) : Prop := is_RequestException e = false.

(** ** The summary, line by line *)

(** A computation that only prints: it returns, adds the lines [lines s] to
    the console of the state [s] it starts in, and changes nothing else; the
    lines do not depend on the console. *)
Definition prints (m : M unit) (lines : State -> list Message) : Prop :=
  (forall s, m s = (Ok tt, with_stdout (stdout s ++ lines s) s)) /\
  (forall o s, lines (with_stdout o s) = lines s).

(** Lines 260 to 263. *)
Definition failed_lines (s : State) : list Message :=
  match failed_files s with
  | [] => []
  | _ => MsgFailedCount (length (failed_files s)) :: map MsgFailedItem (failed_files s)
  end.

(** Line 275: the keys the last section of the summary reports on. *)
Definition coastline_keys (l : Catalog) : list string :=
  filter (PyStr.contains "coastline") (map fst l).

(** Lines 277 to 282: the line for one of those keys. *)
Definition coastline_line (env : Env) (l : Catalog) (s : State) (cf : string)
    : Message :=
  match dict_get cf l with
  | Some config =>
      if path_exists env (filepath_of config) s then MsgCoastlineSuccess cf
      else MsgCoastlineMissing cf
  | None => MsgCoastlineMissing cf
  end.

(** Everything the summary prints, for the enabled entries [l]. *)
Definition summary_lines (env : Env) (l : Catalog) (s : State) : list Message :=
  [MsgDownloadComplete; MsgSuccessCount (success_count s) (length l)] ++
  failed_lines s ++
  [MsgOrganizedUnder (cwd env); MsgDirectoryStructure] ++
  map (directory_line l) (sorted_strings (elements (created_dirs s))) ++
  [MsgKeyCoastline] ++
  map (coastline_line env l s) (coastline_keys l).

(** ** More inputs *)

(** One enabled entry and one disabled entry. *)
Definition one_disabled : Catalog :=
  [ ("a.geojson", mkConfig true "out" "a.geojson" None);
    ("z.geojson", mkConfig false "out" "z.geojson" None) ].

(** One coastline entry, and a disk that already holds its destination. *)
Definition coastline_entry : string * Config :=
  ("ne_coastline.geojson", mkConfig true "out" "coast.geojson" None).

Definition disk_with_coast : State :=
  initial_state {["out"]} {["out/coast.geojson" := [Byte.x7b; Byte.x7d]]}.

(** Two entries that must not be overwritten, both already on disk. *)
Definition two_kept : Catalog :=
  [ ("a.geojson", mkConfig true "out" "a.geojson" (Some false));
    ("b.geojson", mkConfig true "out" "b.geojson" (Some false)) ].

Definition disk_with_both : State :=
  initial_state {["out"]}
    {["out/a.geojson" := [Byte.x7b; Byte.x7d]; "out/b.geojson" := [Byte.x5b; Byte.x5d]]}.

(** ** The page of the index generator *)

Module IndexPage.

Import IndexGenerator IndexSpec.

(** [c in s] for a character. *)
Fixpoint occurs (c : ascii) (s : string) : bool :=
  match s with
  | EmptyString => false
  | String c' rest => Ascii.eqb c' c || occurs c rest
  end.

(** Two directories that hold a file of the same name, on a Windows system. *)
Definition same_name_twice : Tree :=
  Dir ["b.geojson"]
      [ ("z", Dir ["a.geojson"] []); ("y", Dir ["a.geojson"; "notes.txt"] []) ].

Definition env_windows : GenEnv :=
  mkGenEnv (String backslash EmptyString) "2024-05-01 12:00:00"
           (Directory same_name_twice) None any_text.

End IndexPage.

(** * Reasoning about runs *)

(** ** Laws of the monad *)

Lemma bind_assoc {A B C} (m : M A) (k : A -> M B) (h : B -> M C) s :
  bind (bind m k) h s = bind m (fun a => bind (k a) h) s.
Proof. unfold bind. destruct (m s) as [[a|e] s1]; [|done]. by destruct (k a s1) as [[b|e] s2]. Qed.

Lemma bind_Ok {A B} (m : M A) (k : A -> M B) s a s1 :
  m s = (Ok a, s1) -> bind m k s = k a s1.
Proof. unfold bind. by intros ->. Qed.

Lemma bind_Raise {A B} (m : M A) (k : A -> M B) s e s1 :
  m s = (Raise e, s1) -> bind m k s = (Raise e, s1).
Proof. unfold bind. by intros ->. Qed.

Lemma try_clauses_bind {A B} (m : M A) (k : A -> M B) clauses s :
  try_clauses (bind m k) clauses s =
  match m s with
  | (Ok a, s1) => try_clauses (k a) clauses s1
  | (Raise e, s1) => try_clauses (raise e) clauses s1
  end.
Proof. unfold try_clauses, bind, raise. by destruct (m s) as [[a|e] s1]. Qed.

Lemma enumerate_snd {A} (l : list A) start : map snd (enumerate start l) = l.
Proof. revert start. induction l; intros; simpl; [done|]. by rewrite IHl. Qed.

Lemma enumerate_elem_of {A} (l : list A) start i x :
  (i, x) ∈ enumerate start l -> x ∈ l.
Proof.
  intros H. rewrite <- (enumerate_snd l start).
  apply (list_elem_of_fmap_2 snd) in H. exact H.
Qed.

(** ** Sorting *)

Section Sorting.

Context {A : Type} (key : A -> string).

Lemma insert_by_perm x l : insert_by key x l ≡ₚ x :: l.
Proof.
  induction l as [|y l IH]; simpl; [done|].
  destruct (String.leb (key x) (key y)); [done|].
  rewrite IH. apply perm_swap.
Qed.

Lemma sort_by_perm l : sort_by key l ≡ₚ l.
Proof.
  induction l as [|x l IH]; simpl; [done|].
  by rewrite insert_by_perm, IH.
Qed.

Lemma sort_by_length l : length (sort_by key l) = length l.
Proof. apply Permutation_length, sort_by_perm. Qed.

Lemma key_le_trans a b c : key_le key a b -> key_le key b c -> key_le key a c.
Proof. unfold key_le. intros. by etransitivity. Qed.

Lemma insert_by_sorted x l :
  StronglySorted (key_le key) l -> StronglySorted (key_le key) (insert_by key x l).
Proof.
  induction 1 as [|y l Hl IH Hy]; simpl.
  - repeat constructor.
  - destruct (String.leb (key x) (key y)) eqn:E.
    + constructor; [by constructor|]. constructor.
      * unfold key_le, String.le. by rewrite E.
      * eapply Forall_impl; [exact Hy|]. intros z Hz.
        apply key_le_trans with y; [|done]. unfold key_le, String.le. by rewrite E.
    + constructor; [done|].
      rewrite insert_by_perm. constructor; [|done].
      destruct (total String.le (key x) (key y)) as [H|H]; [|done].
      unfold String.le in H. by rewrite E in H.
Qed.

Lemma sort_by_sorted l : StronglySorted (key_le key) (sort_by key l).
Proof.
  induction l as [|x l IH]; simpl; [constructor|]. by apply insert_by_sorted.
Qed.

End Sorting.

(** ** Relations every step of a computation maintains *)

Section Preserves.

Context (R : relation State) `{!PreOrder R}.

Lemma preserves_ret {A} (a : A) : preserves R (ret a).
Proof. intros s. simpl. reflexivity. Qed.

Lemma preserves_raise {A} e : preserves R (@raise A e).
Proof. intros s. simpl. reflexivity. Qed.

Lemma preserves_get_state : preserves R get_state.
Proof. intros s. simpl. reflexivity. Qed.

Lemma preserves_bind {A B} (m : M A) (k : A -> M B) :
  preserves R m -> (forall a, preserves R (k a)) -> preserves R (bind m k).
Proof.
  intros Hm Hk s. unfold bind. specialize (Hm s).
  destruct (m s) as [[a|e] s1]; simpl in *; [|done].
  transitivity s1; [done|]. apply Hk.
Qed.

Lemma preserves_for_each {A} (body : A -> M unit) l :
  (forall x, x ∈ l -> preserves R (body x)) -> preserves R (for_each body l).
Proof.
  induction l as [|x l IH]; intros Hb; simpl.
  - apply preserves_ret.
  - apply preserves_bind.
    + apply Hb. left.
    + intros _. apply IH. intros y Hy. apply Hb. by right.
Qed.

Lemma preserves_try_clauses {A} (body : M A) clauses :
  preserves R body ->
  (forall e h, select_clause e clauses = Some h -> preserves R h) ->
  preserves R (try_clauses body clauses).
Proof.
  intros Hb Hh s. unfold try_clauses. specialize (Hb s).
  destruct (body s) as [[a|e] s1]; simpl in *; [done|].
  destruct (select_clause e clauses) as [h|] eqn:Hsel; simpl; [|done].
  transitivity s1; [done|]. by eapply Hh.
Qed.

Lemma preserves_if {A} (b : bool) (m1 m2 : M A) :
  preserves R m1 -> preserves R m2 -> preserves R (if b then m1 else m2).
Proof. by destruct b. Qed.

End Preserves.

(** ** The classes of exception a computation can raise *)

Section RaisesOnly.

Context (P : exn -> Prop).

Lemma raises_only_ret {A} (a : A) : raises_only P (ret a).
Proof. intros s e. by simpl. Qed.

Lemma raises_only_modify f : raises_only P (modify f).
Proof. intros s e. by simpl. Qed.

Lemma raises_only_bind {A B} (m : M A) (k : A -> M B) :
  raises_only P m -> (forall a, raises_only P (k a)) -> raises_only P (bind m k).
Proof.
  intros Hm Hk s e. unfold bind. specialize (Hm s).
  destruct (m s) as [[a|e'] s1]; simpl in *.
  - apply Hk.
  - intros [= ->]. by apply Hm.
Qed.

Lemma raises_only_for_each {A} (body : A -> M unit) l :
  (forall x, raises_only P (body x)) -> raises_only P (for_each body l).
Proof.
  intros Hb. induction l as [|x l IH]; simpl.
  - apply raises_only_ret.
  - apply raises_only_bind; [apply Hb|by intros _].
Qed.

Lemma raises_only_if {A} (b : bool) (m1 m2 : M A) :
  raises_only P m1 -> raises_only P m2 -> raises_only P (if b then m1 else m2).
Proof. by destruct b. Qed.

End RaisesOnly.

(** ** The relations on states are preorders *)

#[local] Instance same_failed_preorder : PreOrder same_failed.
Proof.
  split; [intros s; reflexivity|].
  intros s1 s2 s3 H12 H23. unfold same_failed in *. congruence.
Qed.

#[local] Instance emits_preorder P : PreOrder (emits P).
Proof.
  split.
  - intros s. exists []. by rewrite app_nil_r.
  - intros s1 s2 s3 (o1 & E1 & F1) (o2 & E2 & F2). exists (o1 ++ o2). split.
    + by rewrite E2, E1, app_assoc.
    + by apply Forall_app.
Qed.

#[local] Instance fs_grows_preorder : PreOrder fs_grows.
Proof.
  split; [by intros s|].
  intros s1 s2 s3 [D1 F1] [D2 F2]. split; set_solver.
Qed.

Lemma emits_weaken (P Q : Message -> Prop) s s' :
  (forall m, P m -> Q m) -> emits P s s' -> emits Q s s'.
Proof. intros HPQ (out & E & F). exists out. split; [done|]. eapply Forall_impl; eauto. Qed.

Lemma emits_stdout_elem P s s' m :
  emits P s s' -> m ∈ stdout s' -> m ∈ stdout s \/ P m.
Proof.
  intros (out & -> & F) [H|H]%elem_of_app; [by left|right].
  rewrite Forall_forall in F. by apply F.
Qed.

Lemma emits_stdout_mono P s s' m : emits P s s' -> m ∈ stdout s -> m ∈ stdout s'.
Proof. intros (out & -> & _) H. apply elem_of_app. by left. Qed.

(** ** What each primitive does to them *)

Ltac unfold_prims :=
  unfold print, modify, os_path_exists, os_makedirs, write_file, requests_get,
    raise_for_status, time_sleep, add_created_dir, incr_success_count, sys_exit,
    get_state, raise, ret,
    with_fs, with_stdout, with_requests, with_opened, with_slept, with_locals.

Ltac prim_cases :=
  let s := fresh "s" in
  intros s; unfold_prims; simpl; repeat case_match; simpl.

Section Primitives.

Variable env : Env.

Lemma print_same_failed m : preserves same_failed (print m).
Proof. by prim_cases. Qed.
Lemma makedirs_same_failed d : preserves same_failed (os_makedirs env d).
Proof. by prim_cases. Qed.
Lemma exists_same_failed p : preserves same_failed (os_path_exists env p).
Proof. by prim_cases. Qed.
Lemma get_same_failed u : preserves same_failed (requests_get env u).
Proof. by prim_cases. Qed.
Lemma status_same_failed u r : preserves same_failed (raise_for_status u r).
Proof. by prim_cases. Qed.
Lemma write_same_failed p b : preserves same_failed (write_file env p b).
Proof. by prim_cases. Qed.
Lemma sleep_same_failed : preserves same_failed (time_sleep env).
Proof. by prim_cases. Qed.
Lemma add_dir_same_failed d : preserves same_failed (add_created_dir d).
Proof. by prim_cases. Qed.
Lemma incr_same_failed : preserves same_failed incr_success_count.
Proof. by prim_cases. Qed.

Lemma print_emits (P : Message -> Prop) m : P m -> preserves (emits P) (print m).
Proof. intros HP s. exists [m]. split; [done|]. by constructor. Qed.

Ltac silent := prim_cases; exists []; by rewrite app_nil_r.

Lemma makedirs_emits P d : preserves (emits P) (os_makedirs env d).
Proof. silent. Qed.
Lemma exists_emits P p : preserves (emits P) (os_path_exists env p).
Proof. silent. Qed.
Lemma get_emits P u : preserves (emits P) (requests_get env u).
Proof. silent. Qed.
Lemma status_emits P u r : preserves (emits P) (raise_for_status u r).
Proof. silent. Qed.
Lemma write_emits P p b : preserves (emits P) (write_file env p b).
Proof. silent. Qed.
Lemma sleep_emits P : preserves (emits P) (time_sleep env).
Proof. silent. Qed.
Lemma add_dir_emits P d : preserves (emits P) (add_created_dir d).
Proof. silent. Qed.
Lemma incr_emits P : preserves (emits P) incr_success_count.
Proof. silent. Qed.
Lemma locals_emits P k ff cd : preserves (emits P) (modify (with_locals k ff cd)).
Proof. silent. Qed.

Lemma print_fs_grows m : preserves fs_grows (print m).
Proof. by prim_cases. Qed.
Lemma makedirs_fs_grows d : preserves fs_grows (os_makedirs env d).
Proof. prim_cases; split; set_solver. Qed.
Lemma exists_fs_grows p : preserves fs_grows (os_path_exists env p).
Proof. by prim_cases. Qed.
Lemma get_fs_grows u : preserves fs_grows (requests_get env u).
Proof. by prim_cases. Qed.
Lemma status_fs_grows u r : preserves fs_grows (raise_for_status u r).
Proof. by prim_cases. Qed.
Lemma write_fs_grows p b : preserves fs_grows (write_file env p b).
Proof. prim_cases; (split; [done|]); try done; cbn; rewrite dom_insert_L; set_solver. Qed.
Lemma sleep_fs_grows : preserves fs_grows (time_sleep env).
Proof. by prim_cases. Qed.
Lemma add_dir_fs_grows d : preserves fs_grows (add_created_dir d).
Proof. by prim_cases. Qed.
Lemma incr_fs_grows : preserves fs_grows incr_success_count.
Proof. by prim_cases. Qed.
Lemma locals_fs_grows k ff cd : preserves fs_grows (modify (with_locals k ff cd)).
Proof. by prim_cases. Qed.

End Primitives.

Create HintDb run discriminated.

#[local] Hint Resolve print_same_failed makedirs_same_failed exists_same_failed
  get_same_failed status_same_failed write_same_failed sleep_same_failed
  add_dir_same_failed incr_same_failed
  makedirs_emits exists_emits get_emits status_emits write_emits sleep_emits
  add_dir_emits incr_emits locals_emits
  print_fs_grows makedirs_fs_grows exists_fs_grows get_fs_grows status_fs_grows
  write_fs_grows sleep_fs_grows add_dir_fs_grows incr_fs_grows locals_fs_grows
  : run.

(** Walks the structure of a computation down to its primitives. *)
Ltac walk_preserves :=
  repeat first
    [ apply preserves_ret; solve [typeclasses eauto]
    | apply preserves_raise; solve [typeclasses eauto]
    | apply preserves_get_state; solve [typeclasses eauto]
    | apply preserves_bind; [typeclasses eauto| |intros ?]
    | apply preserves_if; [typeclasses eauto| |]
    | apply preserves_for_each; [typeclasses eauto|intros ? ?]
    | match goal with
      | |- preserves _ (match ?x with _ => _ end) => destruct x
      end
    | solve [auto with run] ].

(** ** The loop and the summary *)

Lemma raises_only_try_clauses {A} (P Q : exn -> Prop) (body : M A) clauses :
  raises_only Q body ->
  (forall e h, Q e -> select_clause e clauses = Some h -> raises_only P h) ->
  (forall e, Q e -> select_clause e clauses = None -> P e) ->
  raises_only P (try_clauses body clauses).
Proof.
  intros Hb Hh Hn s e. unfold try_clauses. specialize (Hb s).
  destruct (body s) as [[a|e'] s1]; simpl in *; [done|].
  destruct (select_clause e' clauses) as [h|] eqn:Hsel; simpl.
  - intros He. eapply Hh; eauto.
  - intros [= ->]. apply Hn; auto.
Qed.

(** Unfolding by name, fixed here before the section abbreviates the names. *)
Ltac unfold_try_body := unfold try_body, ensure_directory, fetch_and_save.
Ltac unfold_summary :=
  unfold summary, report_failed, report_directories, report_coastlines.
Ltac unfold_download := unfold download_geojson_files.
Ltac unfold_loop_start := unfold loop_start.

Section Run.

Variable env : Env.
Variable should_overwrite : bool.
Variable base_url : string.
Variable geojson_files : Catalog.

#[local] Abbreviation try_body := (try_body env should_overwrite base_url geojson_files).
#[local] Abbreviation process_entry := (process_entry env should_overwrite base_url geojson_files).
#[local] Abbreviation download_loop := (download_loop env should_overwrite base_url geojson_files).
#[local] Abbreviation summary := (summary env geojson_files).
#[local] Abbreviation download_geojson_files :=
  (download_geojson_files env should_overwrite base_url geojson_files).
#[local] Abbreviation dunder_main := (dunder_main env should_overwrite base_url geojson_files).
#[local] Abbreviation files_to_download := (files_to_download geojson_files).
#[local] Abbreviation loop_start := (loop_start env geojson_files).

(** The handler of the loop is selected for request errors only. *)
Lemma select_request_clause (h : exn -> M unit) e h' :
  select_clause e [(is_RequestException, h)] = Some h' ->
  exists msg, e = RequestException msg /\ h' = h e.
Proof. destruct e; simpl; intros [= <-]. eauto. Qed.

Lemma try_body_preserves (R : relation State) `{!PreOrder R} i filename config :
  (forall m, loop_message m -> preserves R (print m)) ->
  (forall d, preserves R (os_makedirs env d)) ->
  (forall d, preserves R (add_created_dir d)) ->
  (forall p, preserves R (os_path_exists env p)) ->
  (forall u, preserves R (requests_get env u)) ->
  (forall u r, preserves R (raise_for_status u r)) ->
  (forall p b, preserves R (write_file env p b)) ->
  preserves R incr_success_count ->
  preserves R (time_sleep env) ->
  preserves R (try_body i filename config).
Proof.
  intros Hprint **. unfold_try_body.
  walk_preserves; try done; apply Hprint; exact I.
Qed.

Lemma process_entry_preserves (R : relation State) `{!PreOrder R} item :
  (forall m, loop_message m -> preserves R (print m)) ->
  (forall d, preserves R (os_makedirs env d)) ->
  (forall d, preserves R (add_created_dir d)) ->
  (forall p, preserves R (os_path_exists env p)) ->
  (forall u, preserves R (requests_get env u)) ->
  (forall u r, preserves R (raise_for_status u r)) ->
  (forall p b, preserves R (write_file env p b)) ->
  preserves R incr_success_count ->
  preserves R (time_sleep env) ->
  preserves R (process_entry item).
Proof.
  intros Hprint **. destruct item as [i [filename config]]. simpl.
  apply preserves_try_clauses; [done|by apply try_body_preserves|].
  intros e h (msg & -> & ->)%select_request_clause. apply Hprint. exact I.
Qed.

Lemma download_loop_preserves (R : relation State) `{!PreOrder R} :
  (forall m, loop_message m -> preserves R (print m)) ->
  (forall d, preserves R (os_makedirs env d)) ->
  (forall d, preserves R (add_created_dir d)) ->
  (forall p, preserves R (os_path_exists env p)) ->
  (forall u, preserves R (requests_get env u)) ->
  (forall u r, preserves R (raise_for_status u r)) ->
  (forall p b, preserves R (write_file env p b)) ->
  preserves R incr_success_count ->
  preserves R (time_sleep env) ->
  preserves R download_loop.
Proof.
  intros. apply preserves_for_each; [done|].
  intros item _. by apply process_entry_preserves.
Qed.

Lemma download_loop_same_failed : preserves same_failed download_loop.
Proof. apply download_loop_preserves; auto with run; typeclasses eauto. Qed.

Lemma download_loop_emits : preserves (emits loop_message) download_loop.
Proof.
  apply download_loop_preserves; auto with run; try typeclasses eauto.
  intros m Hm. by apply print_emits.
Qed.

Lemma download_loop_fs_grows : preserves fs_grows download_loop.
Proof. apply download_loop_preserves; auto with run; typeclasses eauto. Qed.

Lemma process_entry_emits item : preserves (emits loop_message) (process_entry item).
Proof.
  apply process_entry_preserves; auto with run; try typeclasses eauto.
  intros m Hm. by apply print_emits.
Qed.

Lemma process_entry_fs_grows item : preserves fs_grows (process_entry item).
Proof. apply process_entry_preserves; auto with run; typeclasses eauto. Qed.

(** The summary only prints. *)
Lemma summary_preserves (R : relation State) `{!PreOrder R} :
  (forall m, summary_message m -> preserves R (print m)) ->
  (forall p, preserves R (os_path_exists env p)) ->
  preserves R summary.
Proof.
  intros Hprint Hex. unfold_summary.
  walk_preserves; try done; apply Hprint; exact I.
Qed.

Lemma summary_emits : preserves (emits summary_message) summary.
Proof.
  apply summary_preserves; auto with run; try typeclasses eauto.
  intros m Hm. by apply print_emits.
Qed.

Lemma summary_fs_grows : preserves fs_grows summary.
Proof. apply summary_preserves; auto with run; typeclasses eauto. Qed.

Lemma summary_same_failed : preserves same_failed summary.
Proof. apply summary_preserves; auto with run; typeclasses eauto. Qed.

(** Neither the loop nor the summary calls [sys.exit]. *)
Ltac walk_raises :=
  repeat first
    [ apply raises_only_ret
    | apply raises_only_modify
    | apply raises_only_bind; [|intros ?]
    | apply raises_only_if
    | apply raises_only_for_each; intros ?
    | match goal with
      | |- raises_only _ (match ?x with _ => _ end) => destruct x
      end
    | solve [ intros ? ?; unfold_prims; simpl; repeat case_match; simpl;
              intros [= <-]; exact I ] ].

Lemma process_entry_not_exit item : raises_only not_exit (process_entry item).
Proof.
  destruct item as [i [filename config]]. simpl.
  apply raises_only_try_clauses with (Q := not_exit).
  - unfold_try_body. walk_raises.
  - intros e h _ (msg & -> & ->)%select_request_clause. walk_raises.
  - by intros e He _.
Qed.

Lemma download_loop_not_exit : raises_only not_exit download_loop.
Proof. apply raises_only_for_each. apply process_entry_not_exit. Qed.

Lemma summary_not_exit : raises_only not_exit summary.
Proof.
  unfold_summary. walk_raises.
Qed.

Lemma loop_body_message m : loop_message m -> body_message m.
Proof. by destruct m. Qed.

Lemma summary_body_message m : summary_message m -> body_message m.
Proof. by destruct m. Qed.

Lemma download_unfold s :
  download_geojson_files s =
  bind download_loop (fun _ =>
    bind summary (fun _ =>
      bind (print MsgComplete) (fun _ =>
        bind (print MsgAllFinished) (fun _ => sys_exit 0)))) (loop_start s).
Proof.
  unfold_download. unfold_loop_start.
  unfold bind at 1 2 3 4. unfold print at 1 2 3, modify. simpl.
  by rewrite <- !app_assoc.
Qed.

Lemma loop_start_emits s : emits body_message s (loop_start s).
Proof. eexists. split; [reflexivity|]. by repeat constructor. Qed.

(** How a call of [download_geojson_files] can end: never by returning; by
    [sys.exit(0)] after the closing banner; or by an exception that escaped
    the loop or the summary, the banner not printed. *)
Lemma download_outcome s :
  match download_geojson_files s with
  | (Ok _, _) => False
  | (Raise (SystemExit code), s') =>
      code = 0%Z /\
      exists out, stdout s' = stdout s ++ out ++ [MsgComplete; MsgAllFinished] /\
                  Forall body_message out
  | (Raise _, s') => emits body_message s s'
  end.
Proof.
  rewrite download_unfold.
  pose proof (loop_start_emits s) as H0.
  pose proof (download_loop_emits (loop_start s)) as H1.
  pose proof (download_loop_not_exit (loop_start s)) as N1.
  unfold bind at 1.
  destruct (download_loop (loop_start s)) as [[[]|e] s1]; simpl in *.
  - pose proof (summary_emits s1) as H2.
    pose proof (summary_not_exit s1) as N2.
    unfold bind at 1.
    destruct (summary s1) as [[[]|e] s2]; simpl in *.
    + split; [done|].
      assert (emits body_message s s2) as (out & E & F).
      { etransitivity; [exact H0|]. etransitivity.
        - eapply emits_weaken; [apply loop_body_message|exact H1].
        - eapply emits_weaken; [apply summary_body_message|exact H2]. }
      exists out. split; [|done]. rewrite E. by rewrite <- !app_assoc.
    + specialize (N2 e eq_refl).
      assert (emits body_message s s2).
      { etransitivity; [exact H0|]. etransitivity.
        - eapply emits_weaken; [apply loop_body_message|exact H1].
        - eapply emits_weaken; [apply summary_body_message|exact H2]. }
      by destruct e.
  - specialize (N1 e eq_refl).
    assert (emits body_message s s1).
    { etransitivity; [exact H0|].
      eapply emits_weaken; [apply loop_body_message|exact H1]. }
    by destruct e.
Qed.

End Run.

(** * Exit paths of the downloader *)


(** The interrupted path, taken from the network call and from the pause:
    the first file is saved, the second is not, the status is 0 and the
    console ends with the lines of the interrupt handler. *)
Lemma interrupted_in_request :
  let r := dunder_main env_ctrl_c_in_request true "http://host/" two_entries
             (initial_state ∅ ∅) in
  exit_status r.1 = 0%Z /\
  requests r.2 = ["http://host/a.geojson"; "http://host/b.geojson"] /\
  opened r.2 = ["out/a.geojson"] /\
  stdout r.2 =
    [ MsgStarting 2; MsgBaseDirectory "/work"; MsgOrganizedByCategory;
      MsgCreatedDirectory "out";
      MsgDownloading 1 2 "a.geojson"; MsgSuccess PlainFile 2;
      MsgDownloading 2 2 "b.geojson";
      MsgProcessInterrupted; MsgExiting ].
Proof. vm_compute. repeat split. Qed.

Lemma interrupted_in_pause :
  let r := dunder_main env_ctrl_c_in_pause true "http://host/" two_entries
             (initial_state ∅ ∅) in
  exit_status r.1 = 0%Z /\
  requests r.2 = ["http://host/a.geojson"] /\
  opened r.2 = ["out/a.geojson"] /\
  stdout r.2 =
    [ MsgStarting 2; MsgBaseDirectory "/work"; MsgOrganizedByCategory;
      MsgCreatedDirectory "out";
      MsgDownloading 1 2 "a.geojson"; MsgSuccess PlainFile 2;
      MsgProcessInterrupted; MsgExiting ].
Proof. vm_compute. repeat split. Qed.

(** * The failure list *)

#[local] Instance unreported_preorder : PreOrder unreported.
Proof.
  split.
  - intros s Hs. split; [done|reflexivity].
  - intros s1 s2 s3 H12 H23 Hs. destruct (H12 Hs) as [Hs2 E12].
    destruct (H23 Hs2) as [Hs3 E23]. split; [done|by etransitivity].
Qed.

Lemma unreported_intro {A} (m : M A) :
  preserves same_failed m ->
  preserves (emits (fun m => ~ failed_report m)) m ->
  preserves unreported m.
Proof.
  intros Hf He s Hs. split; [|apply He].
  specialize (Hf s). unfold same_failed in Hf. congruence.
Qed.

Lemma print_unreported m : ~ failed_report m -> preserves unreported (print m).
Proof.
  intros Hm. apply unreported_intro; [apply print_same_failed|].
  by apply print_emits.
Qed.

Lemma report_failed_unreported : preserves unreported report_failed.
Proof.
  intros s Hs. unfold report_failed, bind, get_state. rewrite Hs. simpl.
  split; [done|reflexivity].
Qed.

Ltac unfold_summary_head := unfold summary, report_directories, report_coastlines.

Ltac walk_unreported :=
  repeat first
    [ apply report_failed_unreported
    | apply print_unreported; solve [by intros []]
    | apply unreported_intro; solve [auto with run]
    | apply preserves_ret; solve [typeclasses eauto]
    | apply preserves_raise; solve [typeclasses eauto]
    | apply preserves_get_state; solve [typeclasses eauto]
    | apply preserves_bind; [typeclasses eauto| |intros ?]
    | apply preserves_if; [typeclasses eauto| |]
    | apply preserves_for_each; [typeclasses eauto|intros ? ?]
    | match goal with
      | |- preserves _ (match ?x with _ => _ end) => destruct x
      end ].

Section FailureList.

Variable env : Env.
Variable should_overwrite : bool.
Variable base_url : string.
Variable geojson_files : Catalog.

Lemma download_loop_unreported :
  preserves unreported (download_loop env should_overwrite base_url geojson_files).
Proof.
  apply download_loop_preserves; try typeclasses eauto.
  2-9: intros; apply unreported_intro; auto with run.
  intros m Hm. apply print_unreported. destruct m; simpl in *; tauto.
Qed.

Lemma summary_unreported : preserves unreported (summary env geojson_files).
Proof. unfold_summary_head. walk_unreported. Qed.

(** No run ever records or reports a failed file: the only reachable
    handler, at lines 253 and 254, prints and does nothing else. *)
Lemma failure_list_stays_empty s :
  let s' := (download_geojson_files env should_overwrite base_url geojson_files s).2 in
  failed_files s' = [] /\
  forall m, m ∈ stdout s' -> failed_report m -> m ∈ stdout s.
Proof.
  intros s'. subst s'. rewrite download_unfold.
  set (s1 := loop_start env geojson_files s).
  assert (unreported s1
            (bind (download_loop env should_overwrite base_url geojson_files) (fun _ =>
               bind (summary env geojson_files) (fun _ =>
                 bind (print MsgComplete) (fun _ =>
                   bind (print MsgAllFinished) (fun _ => @sys_exit unit 0)))) s1).2) as H.
  { apply (preserves_bind unreported); [apply download_loop_unreported|intros _].
    apply (preserves_bind unreported); [apply summary_unreported|intros _].
    walk_unreported. }
  destruct (H eq_refl) as [Hff Hem]. split; [done|].
  intros m Hm Hfr.
  destruct (emits_stdout_elem _ _ _ _ Hem Hm) as [Hin|Hn]; [|done].
  subst s1. unfold loop_start in Hin. simpl in Hin.
  set_unfold in Hin. destruct_or!; by simplify_eq.
Qed.

End FailureList.

(** * Two small runs *)

(** C1.  On the run in which both fetches fail (a 404 and a timeout), each
    error is caught and the run completes with status 0, but the failure list
    is still empty at the end and the summary has no line about failed files:
    the handler at lines 253 and 254 prints and never appends. *)
Theorem failed_fetches_are_not_recorded :
  let r := dunder_main env_both_fail true "http://host/" two_entries
             (initial_state ∅ ∅) in
  r.1 = Raise (SystemExit 0) /\
  requests r.2 = ["http://host/a.geojson"; "http://host/b.geojson"] /\
  failed_files r.2 = [] /\
  stdout r.2 =
    [ MsgStarting 2; MsgBaseDirectory "/work"; MsgOrganizedByCategory;
      MsgCreatedDirectory "out";
      MsgDownloading 1 2 "a.geojson";
      MsgErrorDownload "404 Client Error: Not Found for url: http://host/a.geojson";
      MsgDownloading 2 2 "b.geojson";
      MsgErrorDownload "Read timed out";
      MsgDownloadComplete; MsgSuccessCount 0 2;
      MsgOrganizedUnder "/work"; MsgDirectoryStructure; MsgDirectoryLine "out" 2;
      MsgKeyCoastline; MsgComplete; MsgAllFinished ].
Proof. vm_compute. repeat split. Qed.

(** C2.  On the run in which the first destination cannot be opened, the
    [OSError] is not caught in the loop: it reaches the top level, the process
    ends with status 1, the second entry is never requested, and nothing is
    added to the failure list. *)
Theorem write_error_aborts_the_run :
  let r := dunder_main env_read_only true "http://host/" two_entries
             (initial_state ∅ ∅) in
  r.1 = Raise (SystemExit 1) /\
  requests r.2 = ["http://host/a.geojson"] /\
  opened r.2 = ["out/a.geojson"] /\
  failed_files r.2 = [] /\
  stdout r.2 =
    [ MsgStarting 2; MsgBaseDirectory "/work"; MsgOrganizedByCategory;
      MsgCreatedDirectory "out";
      MsgDownloading 1 2 "a.geojson";
      MsgUnexpectedError "[Errno 13] Permission denied: 'out/a.geojson'";
      MsgExiting ].
Proof. vm_compute. repeat split. Qed.

(** * Which steps reach the network and the destination files *)

#[local] Instance same_files_preorder : PreOrder same_files.
Proof.
  split; [by intros s|].
  intros s1 s2 s3 [? ?] [? ?]. split; congruence.
Qed.

#[local] Instance no_transfer_preorder : PreOrder no_transfer.
Proof.
  split; [by intros s|].
  intros s1 s2 s3 (?&?&?&?&?) (?&?&?&?&?). repeat split; congruence.
Qed.

#[local] Instance touches_only_preorder env u p : PreOrder (touches_only env u p).
Proof.
  split.
  - intros s. repeat split; auto.
  - intros s1 s2 s3 (R1 & O1 & F1) (R2 & O2 & F2). repeat split.
    + intros x Hx. destruct (R2 x Hx); auto.
    + intros x Hx. destruct (O2 x Hx); auto.
    + intros q Hq. rewrite F2, F1; auto.
Qed.

Lemma no_transfer_same_files s s' : no_transfer s s' -> same_files s s'.
Proof. by intros (?&?&?&?&?). Qed.

(** Proves that a primitive maintains one of the relations above. *)
Ltac prim_frame :=
  lazymatch goal with
  | |- preserves _ (bind _ _) => fail
  | |- preserves _ (if _ then _ else _) => fail
  | |- preserves _ (match _ with _ => _ end) => fail
  | |- preserves _ (for_each _ _) => fail
  | _ => idtac
  end;
  prim_cases; unfold same_files, no_transfer, touches_only; cbn;
  repeat split; try done;
  try (intros ? ?; set_solver);
  try (intros ? ?; by rewrite lookup_insert_ne).

(** Walks a computation and closes its primitives with [tac]. *)
Ltac walk_with tac :=
  repeat first
    [ apply preserves_ret; solve [typeclasses eauto]
    | apply preserves_raise; solve [typeclasses eauto]
    | apply preserves_get_state; solve [typeclasses eauto]
    | solve [tac]
    | apply preserves_bind; [typeclasses eauto| |intros ?]
    | apply preserves_if; [typeclasses eauto| |]
    | apply preserves_for_each; [typeclasses eauto|intros ? ?]
    | match goal with
      | |- preserves _ (match ?x with _ => _ end) => destruct x
      end ].

Lemma for_each_invariant {A} (Inv : State -> Prop) (body : A -> M unit) l :
  (forall x, x ∈ l -> forall s, Inv s -> Inv (body x s).2) ->
  forall s, Inv s -> Inv (for_each body l s).2.
Proof.
  induction l as [|x l IH]; intros Hb s Hs; simpl; [done|].
  unfold bind. pose proof (Hb x ltac:(left) s Hs) as H1.
  destruct (body x s) as [[[]|e] s1]; simpl in *; [|done].
  apply IH; [|done]. intros y Hy. apply Hb. by right.
Qed.

(** ** Paths *)

Lemma dir_named_mono env s s' k :
  fs_dirs s ⊆ fs_dirs s' -> dir_named env k s = true -> dir_named env k s' = true.
Proof.
  intros Hd. unfold dir_named.
  rewrite !orb_true_iff, !bool_decide_eq_true. set_solver.
Qed.

Lemma walkable_mono env s s' p :
  fs_dirs s ⊆ fs_dirs s' -> walkable env p s = true -> walkable env p s' = true.
Proof.
  intros Hd. unfold walkable. rewrite !andb_true_iff, !forallb_forall.
  intros [Hp Ha]. split; [done|]. intros a Hin. eapply dir_named_mono; eauto.
Qed.

Lemma walkable_same env s s' p :
  fs_dirs s' = fs_dirs s -> walkable env p s' = walkable env p s.
Proof. intros Hd. unfold walkable, dir_named. by rewrite Hd. Qed.

Lemma dir_named_same env s s' k :
  fs_dirs s' = fs_dirs s -> dir_named env k s' = dir_named env k s.
Proof. intros Hd. unfold dir_named. by rewrite Hd. Qed.

Lemma is_dir_mono env s s' p :
  fs_dirs s ⊆ fs_dirs s' -> is_dir env p s = true -> is_dir env p s' = true.
Proof.
  intros Hd. unfold is_dir. rewrite !andb_true_iff. intros [Hw Hn].
  split; [by eapply walkable_mono|by eapply dir_named_mono].
Qed.

Lemma is_dir_same env s s' p :
  fs_dirs s' = fs_dirs s -> is_dir env p s' = is_dir env p s.
Proof.
  intros Hd. unfold is_dir. by rewrite (walkable_same _ _ _ _ Hd), (dir_named_same _ _ _ _ Hd).
Qed.

Lemma path_exists_mono env s s' p :
  fs_grows s s' -> path_exists env p s = true -> path_exists env p s' = true.
Proof.
  intros [Hd Hf]. unfold path_exists.
  rewrite !andb_true_iff, !orb_true_iff, !bool_decide_eq_true.
  intros [Hw [Hn|Hn]]; (split; [by eapply walkable_mono|]).
  - left. by eapply dir_named_mono.
  - right. set_solver.
Qed.

(** A directory is reached through directories. *)
Lemma is_dir_made env d s x :
  is_dir env d s = true -> x ∈ d :: PyStr.ancestors d ->
  dir_named env (resolve env x) s = true.
Proof.
  unfold is_dir, walkable. rewrite !andb_true_iff, forallb_forall.
  intros [[_ Ha] Hd] [->|Hx]%elem_of_cons; [done|].
  apply Ha. by apply list_elem_of_In.
Qed.

(** Something that is there but is not found under the path [p] cannot be
    created under [p] either. *)
Lemma hidden_not_walkable env p s :
  dir_named env (resolve env p) s = true \/ resolve env p ∈ dom (fs_files s) ->
  path_exists env p s = false -> walkable env p s = false.
Proof.
  unfold path_exists. intros H. destruct (walkable env p s); [|done]. cbn.
  rewrite orb_false_iff, bool_decide_eq_false. intros [Hn Hf].
  destruct H as [H|H]; [congruence|done].
Qed.

Section Entry.

Variable env : Env.
Variable should_overwrite : bool.
Variable base_url : string.
Variable geojson_files : Catalog.

#[local] Abbreviation process_entry :=
  (process_entry env should_overwrite base_url geojson_files).
#[local] Abbreviation files_to_download := (files_to_download geojson_files).

Lemma ensure_directory_no_transfer config :
  preserves no_transfer (ensure_directory env config).
Proof. unfold ensure_directory. walk_with prim_frame. Qed.

Lemma ensure_directory_fs_grows config :
  preserves fs_grows (ensure_directory env config).
Proof. unfold ensure_directory. walk_preserves. Qed.

Lemma ensure_directory_emits config :
  preserves (emits loop_message) (ensure_directory env config).
Proof. unfold ensure_directory. walk_preserves. by apply print_emits. Qed.

Lemma ensure_directory_raises config :
  raises_only (fun e => exists msg, e = OSError msg) (ensure_directory env config).
Proof.
  unfold ensure_directory.
  repeat first
    [ apply raises_only_ret
    | apply raises_only_modify
    | apply raises_only_bind; [|intros ?]
    | apply raises_only_if
    | solve [ intros ? ?; unfold_prims; simpl; repeat case_match; simpl;
              intros [= <-]; eauto ] ].
Qed.

(** A rejected fetch raises before the destination is opened. *)
Lemma rejected_fetch_same_files u (k : Response -> M unit) :
  fetch_rejected env u = true ->
  preserves same_files
    (bind (requests_get env u) (fun r => bind (raise_for_status u r) (fun _ => k r))).
Proof.
  intros H s. unfold fetch_rejected, bind, requests_get, raise_for_status in *.
  destruct (http_get env u) as [r|msg| |msg]; try done; simpl.
  apply bool_decide_eq_true in H as [msg ->]. by cbn.
Qed.

Lemma rejected_entry_same_files i filename config :
  fetch_rejected env (base_url ++ filename) = true ->
  preserves same_files (process_entry (i, (filename, config))).
Proof.
  intros H. simpl. apply preserves_try_clauses; [typeclasses eauto| |].
  - unfold try_body, fetch_and_save.
    walk_with ltac:(first [ by apply rejected_fetch_same_files
                          | apply no_transfer_same_files;
                            apply ensure_directory_no_transfer
                          | prim_frame ]).
  - intros e h (msg & -> & ->)%select_request_clause. prim_frame.
Qed.

(** An entry whose destination exists and must not be overwritten. *)
Lemma skipped_entry s i filename config :
  path_exists env (filepath_of config) s = true ->
  file_should_overwrite should_overwrite config = false ->
  let r := process_entry (i, (filename, config)) s in
  no_transfer s r.2 /\ fs_grows s r.2 /\
  (r.1 = Ok tt \/ exists msg, r.1 = Raise (OSError msg)) /\
  (r.1 = Ok tt ->
   exists out, stdout r.2 =
               stdout s ++ out ++ [MsgSkip i (length files_to_download) filename]).
Proof.
  intros Hex Hov. cbv zeta. simpl. unfold try_clauses, try_body, bind.
  pose proof (ensure_directory_no_transfer config s) as Hnt.
  pose proof (ensure_directory_fs_grows config s) as Hfs.
  pose proof (ensure_directory_emits config s) as (out & Hout & _).
  pose proof (ensure_directory_raises config s) as Hr.
  destruct (ensure_directory env config s) as [[[]|e] s1]; simpl in *.
  - unfold os_path_exists.
    rewrite (path_exists_mono env s s1 _ Hfs Hex), Hov. simpl.
    split; [|split; [exact Hfs|split; [by left|]]].
    + exact Hnt.
    + intros _. exists out. by rewrite Hout, <- app_assoc.
  - destruct (Hr e eq_refl) as [msg ->]. simpl.
    split; [done|]. split; [done|]. split; [eauto|done].
Qed.

(** An entry that must not overwrite, when something already bears the name
    its destination leads to: it is skipped, or it is not found under this
    path and then cannot be created under it either.  Either way no file
    changes. *)
Lemma kept_entry_same_content s i filename config :
  dir_named env (resolve env (filepath_of config)) s = true \/
  resolve env (filepath_of config) ∈ dom (fs_files s) ->
  file_should_overwrite should_overwrite config = false ->
  fs_files (process_entry (i, (filename, config)) s).2 = fs_files s.
Proof.
  intros Hthere Hov. simpl. unfold try_body. rewrite try_clauses_bind.
  pose proof (ensure_directory_no_transfer config s) as (_ & _ & Hf & _).
  pose proof (ensure_directory_fs_grows config s) as [Hgd Hgf].
  pose proof (ensure_directory_raises config s) as Hr.
  destruct (ensure_directory env config s) as [[[]|e] s1]; simpl in *.
  2:{ destruct (Hr e eq_refl) as [msg ->]. by unfold try_clauses, raise. }
  clear Hr. unfold try_clauses, bind, os_path_exists. rewrite Hov.
  destruct (path_exists env (filepath_of config) s1) eqn:Hex; simpl; [done|].
  assert (walkable env (filepath_of config) s1 = false) as Hw.
  { apply hidden_not_walkable; [|done].
    destruct Hthere as [H|H]; [left; by eapply dir_named_mono|right; set_solver]. }
  unfold fetch_and_save, bind, print, modify, requests_get. simpl.
  destruct (http_get env (base_url +:+ filename)) as [r|msg| |msg]; simpl; try done.
  unfold raise_for_status.
  destruct (http_error_msg (base_url +:+ filename) r) as [m|]; simpl; [done|].
  unfold write_file. cbn [with_opened with_stdout with_requests].
  rewrite (walkable_same env s1) by reflexivity. rewrite Hw. done.
Qed.

End Entry.

(** * A failed fetch and the destination file *)

Lemma http_error_msg_range u r :
  is_Some (http_error_msg u r) <-> (400 <= status_code r < 600)%Z.
Proof.
  unfold http_error_msg.
  destruct (Z.leb_spec 400 (status_code r)), (Z.ltb_spec (status_code r) 500),
    (Z.leb_spec 500 (status_code r)), (Z.ltb_spec (status_code r) 600);
    simpl; split; intros Hs; try lia; try (by eexists); by destruct Hs.
Qed.

(** C9, as stated, fails: 304 is not a 2xx status, yet [raise_for_status]
    accepts it, so the destination is opened and its two bytes are replaced
    by the empty body. *)
Lemma not_modified_response_is_saved :
  let s' := (process_entry env_not_modified true "http://host/" [entry_a]
               (1, entry_a) disk_with_a).2 in
  fetch_not_2xx env_not_modified "http://host/a.geojson" = true /\
  fs_files disk_with_a !! "out/a.geojson" = Some [Byte.x7b; Byte.x7d] /\
  opened s' = ["out/a.geojson"] /\
  fs_files s' !! "out/a.geojson" = Some [] /\
  ~ same_files disk_with_a s'.
Proof.
  cbv zeta. repeat split; try by vm_compute.
  intros [Ho _]. vm_compute in Ho. discriminate.
Qed.

(** C9 (amended).  When the GET for an entry raises a transport error, or
    returns a status from 400 to 599 (the ones [raise_for_status] rejects),
    processing the entry opens no file for writing and leaves the content of
    every file as it was: the write comes after the status check. *)
Theorem rejected_fetch_leaves_files env should_overwrite base_url geojson_files
    i filename config s :
  ((exists msg, http_get env (base_url ++ filename) = TransportFailure msg) \/
   (exists r, http_get env (base_url ++ filename) = Responded r /\
              (400 <= status_code r < 600)%Z)) ->
  let s' := (process_entry env should_overwrite base_url geojson_files
               (i, (filename, config)) s).2 in
  opened s' = opened s /\ fs_files s' = fs_files s.
Proof.
  intros H. apply rejected_entry_same_files.
  unfold fetch_rejected. destruct H as [[msg ->]|(r & -> & Hr)]; [done|].
  apply bool_decide_eq_true. by apply http_error_msg_range.
Qed.

Lemma rejected_fetch_leaves_files_witness :
  ((exists msg, http_get env_both_fail ("http://host/" ++ "a.geojson")
                = TransportFailure msg) \/
   (exists r, http_get env_both_fail ("http://host/" ++ "a.geojson") = Responded r /\
              (400 <= status_code r < 600)%Z)) /\
  let s' := (process_entry env_both_fail true "http://host/" two_entries
               (1, entry_a) disk_with_a).2 in
  opened s' = opened disk_with_a /\ fs_files s' = fs_files disk_with_a.
Proof.
  assert ((exists msg, http_get env_both_fail ("http://host/" ++ "a.geojson")
                       = TransportFailure msg) \/
          (exists r, http_get env_both_fail ("http://host/" ++ "a.geojson")
                     = Responded r /\ (400 <= status_code r < 600)%Z)) as H.
  { right. exists (mkResponse 404 "Not Found" []). split; [reflexivity|simpl; lia]. }
  split; [exact H|].
  exact (rejected_fetch_leaves_files env_both_fail true "http://host/" two_entries
           1 "a.geojson" (snd entry_a) disk_with_a H).
Defined.

(** * The index generator *)

Module IndexFacts.

Import IndexGenerator IndexSpec.

(** ** The files of a tree *)

Lemma collect_app sep w1 w2 : collect sep (w1 ++ w2) = collect sep w1 ++ collect sep w2.
Proof. unfold collect. apply flat_map_app. Qed.

Lemma files_entries sep top files :
  map (file_info sep top)
      (filter (fun file => PyStr.endswith file ".geojson") files) =
  map (entry_info sep) (filter is_geojson (map (fun file => (top, file)) files)).
Proof.
  induction files as [|f files IH]; simpl; [done|].
  rewrite !filter_cons. unfold is_geojson at 1. simpl.
  destruct (decide (PyStr.endswith f ".geojson")); simpl; by rewrite IH.
Qed.

(** The two loops collect exactly the matching files of the tree. *)
Lemma collect_tree_files sep : forall t top,
  collect sep (os_walk sep top t) =
  map (entry_info sep) (filter is_geojson (tree_files sep top t)).
Proof.
  fix IH 1. intros [files subdirs] top. simpl.
  rewrite filter_app, map_app, files_entries. f_equal.
  induction subdirs as [|[name sub] l IHl]; simpl; [done|].
  rewrite collect_app, filter_app, map_app, IH. by f_equal.
Qed.

(** ** Strings *)

Lemma string_app_assoc (a b c : string) : (a +:+ b) +:+ c = a +:+ (b +:+ c).
Proof.
  induction a as [|x a IH]; [done|].
  change (String x ((a +:+ b) +:+ c) = String x (a +:+ (b +:+ c))).
  by rewrite IH.
Qed.

Lemma string_app_nil_r (a : string) : a +:+ "" = a.
Proof.
  induction a as [|x a IH]; [done|].
  change (String x (a +:+ "") = String x a). by rewrite IH.
Qed.

Lemma list_ascii_app (a b : string) :
  list_ascii_of_string (a +:+ b) = list_ascii_of_string a ++ list_ascii_of_string b.
Proof.
  induction a as [|x a IH]; [done|].
  change (x :: list_ascii_of_string (a +:+ b) =
          x :: (list_ascii_of_string a ++ list_ascii_of_string b)).
  by rewrite IH.
Qed.

Lemma string_of_list_app (k l : list ascii) :
  string_of_list_ascii (k ++ l) = string_of_list_ascii k +:+ string_of_list_ascii l.
Proof.
  induction k as [|x k IH]; [done|].
  change (String x (string_of_list_ascii (k ++ l)) =
          String x (string_of_list_ascii k +:+ string_of_list_ascii l)).
  by rewrite IH.
Qed.

Lemma endswith_app pre suffix : PyStr.endswith (pre +:+ suffix) suffix = true.
Proof.
  induction pre as [|c pre IH].
  - change (PyStr.endswith suffix suffix = true).
    destruct suffix as [|c suffix]; [done|].
    cbn [PyStr.endswith]. by rewrite String.eqb_refl.
  - change (PyStr.endswith (String c (pre +:+ suffix)) suffix = true).
    cbn [PyStr.endswith]. rewrite IH. apply orb_true_r.
Qed.

(** [s.endswith(suffix)] holds exactly when [s] is some string followed by
    [suffix]. *)
Lemma endswith_spec s suffix :
  PyStr.endswith s suffix = true <-> exists pre, s = pre +:+ suffix.
Proof.
  split; [|intros [pre ->]; apply endswith_app].
  induction s as [|c s IH]; cbn [PyStr.endswith].
  - rewrite orb_false_r. intros ->%String.eqb_eq. by exists "".
  - intros [->%String.eqb_eq|H]%orb_true_iff; [by exists ""|].
    destruct (IH H) as [pre ->]. by exists (String c pre).
Qed.

(** ** The code against the words of the specification *)

Lemma has_extension_spec name :
  has_extension name <-> exists stem, name = stem +:+ ".geojson".
Proof.
  unfold has_extension. split.
  - intros [k Hk]. exists (string_of_list_ascii k).
    rewrite <- (string_of_list_ascii_of_string name), Hk, string_of_list_app.
    by rewrite string_of_list_ascii_of_string.
  - intros [stem ->]. exists (list_ascii_of_string stem). apply list_ascii_app.
Qed.

(** The test at line 27 is the one the specification words. *)
Lemma endswith_has_extension name :
  PyStr.endswith name ".geojson" = true <-> has_extension name.
Proof. by rewrite endswith_spec, has_extension_spec. Qed.

Lemma filter_is_geojson (l : list (string * string)) :
  filter is_geojson l = filter (fun entry => has_extension entry.2) l.
Proof.
  apply list_filter_iff. intros [root file]. unfold is_geojson. cbn [snd].
  rewrite <- endswith_has_extension. apply Is_true_true.
Qed.

(** The replacement at line 29 turns each backslash into a slash and keeps
    every other character. *)
Lemma replace_backslash path : PyStr.replace_char backslash "/" path = slashed path.
Proof.
  unfold slashed. induction path as [|x path IH]; [done|].
  cbn [PyStr.replace_char list_ascii_of_string map string_of_list_ascii].
  rewrite IH. unfold backslash. by destruct (Ascii.eqb x "092").
Qed.

(** The record of a file holds the name and the address the specification
    gives. *)
Lemma entry_info_link sep entry :
  (filename (entry_info sep entry), url (entry_info sep entry)) = link_of sep entry.
Proof.
  unfold entry_info, file_info, link_of, os_path_relpath. cbn [filename url].
  by rewrite replace_backslash.
Qed.

Lemma concat_cons (x : string) (l : list string) :
  String.concat "" (x :: l) = x +:+ String.concat "" l.
Proof.
  destruct l as [|y l]; [|done].
  cbn [String.concat]. by rewrite string_app_nil_r.
Qed.

(** The loop at lines 53 and 54 appends one list item per record. *)
Lemma html_items_concat items :
  html_items items = String.concat "" (map list_item (map as_link items)).
Proof.
  induction items as [|item items IH]; [done|].
  cbn [html_items map]. by rewrite concat_cons, IH.
Qed.

(** Lines 41 to 58 build the page of the specification. *)
Lemma render_page stamp items : render stamp items = page stamp (map as_link items).
Proof.
  unfold render, html_header, html_footer, page.
  rewrite html_items_concat, !length_map.
  change nl with lf. by rewrite !string_app_assoc.
Qed.

Lemma insert_by_map {A B} (key : B -> string) (f : A -> B) x l :
  insert_by key (f x) (map f l) = map f (insert_by (fun a => key (f a)) x l).
Proof.
  induction l as [|y l IH]; [done|]. cbn [map insert_by].
  destruct (String.leb (key (f x)) (key (f y))); [done|]. cbn [map]. by rewrite IH.
Qed.

Lemma sort_by_map {A B} (key : B -> string) (f : A -> B) l :
  sort_by key (map f l) = map f (sort_by (fun a => key (f a)) l).
Proof.
  induction l as [|x l IH]; [done|]. cbn [map sort_by].
  by rewrite IH, insert_by_map.
Qed.

Lemma sorted_records sep t :
  map as_link
      (sort_by filename
         (map (entry_info sep) (filter is_geojson (tree_files sep features_root t)))) =
  links_of sep t.
Proof.
  unfold links_of, listed.
  rewrite <- (sort_by_map fst as_link), <- filter_is_geojson, map_map.
  f_equal. apply map_ext. intros entry. apply entry_info_link.
Qed.

(** What the generator does on a root directory that holds the tree [t],
    when [index.html] can be opened. *)
Lemma generate_outcome env s t :
  features env = Directory t -> index_write_fault env = None ->
  generate_index_html env s =
  if encodable env (page (now env) (links_of (os_sep env) t)) then
    (Ok tt,
     mkGenState
       (console s ++ ["Generated index.html with " +:+
                      pretty (length (links_of (os_sep env) t)) +:+ " files"])
       (Some (page (now env) (links_of (os_sep env) t))))
  else
    (Raise (OtherException "UnicodeEncodeError"), mkGenState (console s) (Some "")).
Proof.
  intros Ht Hw. unfold generate_index_html, walk_root. rewrite Ht, Hw.
  rewrite collect_tree_files, render_page, sorted_records.
  assert (length (sort_by filename
                    (map (entry_info (os_sep env))
                         (filter is_geojson
                            (tree_files (os_sep env) features_root t))))
          = length (links_of (os_sep env) t)) as ->
    by (by rewrite <- sorted_records, length_map).
  done.
Qed.

(** When the generator returns normally on such a root, it has written the
    page and printed its line. *)
Lemma generated_page env s t :
  features env = Directory t -> (generate_index_html env s).1 = Ok tt ->
  generate_index_html env s =
  (Ok tt,
   mkGenState
     (console s ++ ["Generated index.html with " +:+
                    pretty (length (links_of (os_sep env) t)) +:+ " files"])
     (Some (page (now env) (links_of (os_sep env) t)))).
Proof.
  intros Ht Hok.
  destruct (index_write_fault env) as [msg|] eqn:Hw.
  { unfold generate_index_html in Hok. by rewrite Ht, Hw in Hok. }
  rewrite (generate_outcome env s t Ht Hw) in *.
  by destruct (encodable env _).
Qed.

Lemma links_of_perm sep t : links_of sep t ≡ₚ map (link_of sep) (listed sep t).
Proof. apply sort_by_perm. Qed.

Lemma links_of_sorted sep t :
  StronglySorted (fun a b : string * string => String.le a.1 b.1) (links_of sep t).
Proof. apply (sort_by_sorted fst). Qed.

Lemma list_item_elem link links :
  link ∈ links ->
  exists pre post,
    String.concat "" (map list_item links) = pre +:+ list_item link +:+ post.
Proof.
  induction 1 as [link links|link other links _ (pre & post & IH)];
    cbn [map]; rewrite concat_cons.
  - by exists "", (String.concat "" (map list_item links)).
  - exists (list_item other +:+ pre), post.
    rewrite IH. by rewrite string_app_assoc.
Qed.





(** The page for the example: two items, [B.geojson] before [a.geojson],
    and no item for [c.txt]. *)
Lemma index_of_three_files :
  generate_index_html env_three_files (mkGenState [] None) =
  (Ok tt,
   mkGenState
     ["Generated index.html with 2 files"]
     (Some
        ("<html>" +:+ lf +:+
         "<head>" +:+ lf +:+
         "<title>Natural Earth GeoJSON Files</title>" +:+ lf +:+
         "</head>" +:+ lf +:+
         "<body>" +:+ lf +:+
         "<h1>Natural Earth GeoJSON Files</h1>" +:+ lf +:+
         "<p>Generated: 2024-05-01 12:00:00</p>" +:+ lf +:+
         "<p>Total files: 2</p>" +:+ lf +:+
         "<hr>" +:+ lf +:+
         "<ul>" +:+ lf +:+
         "<li><a href=" +:+ quote +:+
           "https://dvanauken.github.io/data/features/B.geojson" +:+ quote +:+
           ">B.geojson</a></li>" +:+ lf +:+
         "<li><a href=" +:+ quote +:+
           "https://dvanauken.github.io/data/features/a.geojson" +:+ quote +:+
           ">a.geojson</a></li>" +:+ lf +:+
         "</ul>" +:+ lf +:+ "</body>" +:+ lf +:+ "</html>"))).
Proof. by vm_compute. Qed.

(** C8.  When the root directory does not exist, the generator prints the
    error line and returns normally; [index.html] is left as it was (absent
    when it was absent). *)
Theorem missing_root_is_reported env s :
  features env = Missing ->
  generate_index_html env s =
  (Ok tt,
   mkGenState (console s ++ ["ERROR: Directory 'features' not found!"])
              (index_html s)).
Proof. intros H. unfold generate_index_html. by rewrite H. Qed.

Lemma missing_root_is_reported_witness :
  features env_no_root = Missing /\
  generate_index_html env_no_root (mkGenState [] None) =
  (Ok tt, mkGenState ([] ++ ["ERROR: Directory 'features' not found!"]) None).
Proof.
  split; [reflexivity|].
  exact (missing_root_is_reported env_no_root (mkGenState [] None) eq_refl).
Defined.




End IndexFacts.

(** * Whole runs *)

Lemma unique_keys_same_value {V} (l : list (string * V)) k v1 v2 :
  NoDup (map fst l) -> (k, v1) ∈ l -> (k, v2) ∈ l -> v1 = v2.
Proof.
  induction l as [|[k' v'] l IH]; intros Hnd H1 H2.
  - by apply elem_of_nil in H1.
  - simpl in Hnd. apply NoDup_cons in Hnd as [Hk Hnd].
    apply elem_of_cons in H1 as [[= -> ->]|H1], H2 as [[= ->]|H2]; auto.
    + destruct Hk. apply (list_elem_of_fmap_2 fst) in H2. exact H2.
    + destruct Hk. apply (list_elem_of_fmap_2 fst) in H1. exact H1.
Qed.

Lemma filter_keys_NoDup (geojson_files : Catalog) :
  NoDup (map fst geojson_files) -> NoDup (map fst (files_to_download geojson_files)).
Proof.
  unfold files_to_download. induction geojson_files as [|[k v] l IH]; [done|].
  cbn [map fst]. intros [Hk Hnd]%NoDup_cons. rewrite filter_cons.
  destruct (decide _); cbn [map fst]; [|by apply IH].
  apply NoDup_cons. split; [|by apply IH].
  intros Hin. apply Hk. apply list_elem_of_fmap in Hin as (x & -> & Hx).
  apply list_elem_of_filter in Hx as [_ Hx]. by apply (list_elem_of_fmap_2 fst).
Qed.

Section WholeRun.

Variable env : Env.
Variable should_overwrite : bool.
Variable base_url : string.
Variable geojson_files : Catalog.

#[local] Abbreviation process_entry :=
  (process_entry env should_overwrite base_url geojson_files).
#[local] Abbreviation download_loop :=
  (download_loop env should_overwrite base_url geojson_files).
#[local] Abbreviation download_geojson_files :=
  (download_geojson_files env should_overwrite base_url geojson_files).
#[local] Abbreviation files_to_download := (files_to_download geojson_files).
#[local] Abbreviation summary := (summary env geojson_files).

(** An entry requests its own URL and writes its own destination only. *)
Lemma process_entry_touches_only i filename config :
  preserves (touches_only env (base_url +:+ filename) (filepath_of config))
    (process_entry (i, (filename, config))).
Proof.
  simpl. apply preserves_try_clauses; [typeclasses eauto| |].
  - unfold try_body, ensure_directory, fetch_and_save. walk_with prim_frame.
  - intros e h (msg & -> & ->)%select_request_clause. prim_frame.
Qed.

(** After the loop, nothing but the console changes. *)
Lemma summary_no_transfer : preserves no_transfer summary.
Proof. apply summary_preserves; try typeclasses eauto; intros; prim_frame. Qed.

Lemma after_loop s1 :
  no_transfer (download_loop s1).2
    (bind download_loop (fun _ =>
       bind summary (fun _ =>
         bind (print MsgComplete) (fun _ =>
           bind (print MsgAllFinished) (fun _ => @sys_exit unit 0)))) s1).2.
Proof.
  unfold bind at 1. destruct (download_loop s1) as [[[]|e] s2]; simpl; [|done].
  revert s2. change (preserves no_transfer
    (bind summary (fun _ =>
       bind (print MsgComplete) (fun _ =>
         bind (print MsgAllFinished) (fun _ => @sys_exit unit 0))))).
  apply preserves_bind; [typeclasses eauto|apply summary_no_transfer|intros _].
  walk_with prim_frame.
Qed.

(** ** An entry that is skipped *)

(** The turn of any entry keeps a protected destination in place and its
    URL unrequested: the entry itself is skipped, and no other entry has its
    key. *)
Lemma protected_step filename config item s :
  NoDup (map fst geojson_files) ->
  (filename, config) ∈ files_to_download ->
  file_should_overwrite should_overwrite config = false ->
  item ∈ enumerate 1 files_to_download ->
  protected env (base_url +:+ filename) (filepath_of config) s ->
  protected env (base_url +:+ filename) (filepath_of config) (process_entry item s).2.
Proof.
  intros Hnd Hin Hov Hitem [Hex Hu]. destruct item as [i [f' c']].
  apply enumerate_elem_of in Hitem.
  destruct (decide (f' = filename)) as [->|Hne].
  - assert (c' = config) as ->.
    { eapply unique_keys_same_value; [|exact Hitem|exact Hin].
      by apply filter_keys_NoDup. }
    destruct (skipped_entry env should_overwrite base_url geojson_files
                s i filename config Hex Hov) as ((Hr & _) & Hg & _).
    split; [by eapply path_exists_mono|by rewrite Hr].
  - pose proof (process_entry_touches_only i f' c' s) as (Hr & _).
    pose proof (process_entry_fs_grows env should_overwrite base_url geojson_files
                  (i, (f', c')) s) as Hg.
    split; [by eapply path_exists_mono|].
    intros [?|Heq]%Hr; [done|]. apply Hne. symmetry.
    by apply (inj (String.app base_url)).
Qed.

(** The turn of any entry leaves the content of a protected destination as
    it is, when no entry that leads to the same file may overwrite it. *)
Lemma kept_step files config item s :
  (forall f' c', (f', c') ∈ files_to_download ->
     resolve env (filepath_of c') = resolve env (filepath_of config) ->
     file_should_overwrite should_overwrite c' = false) ->
  item ∈ enumerate 1 files_to_download ->
  path_exists env (filepath_of config) s = true ->
  kept env files (filepath_of config) s ->
  kept env files (filepath_of config) (process_entry item s).2.
Proof.
  intros Hsame Hitem Hex Hs. destruct item as [i [f' c']].
  apply enumerate_elem_of in Hitem. unfold kept in *.
  destruct (decide (resolve env (filepath_of c') = resolve env (filepath_of config)))
    as [Hp|Hp].
  - rewrite (kept_entry_same_content env should_overwrite base_url geojson_files);
      [done| |by eapply Hsame].
    rewrite Hp. unfold path_exists in Hex.
    apply andb_true_iff in Hex as [_ [H|H]%orb_true_iff]; [by left|right].
    by apply bool_decide_eq_true in H.
  - pose proof (process_entry_touches_only i f' c' s) as (_ & _ & Hf).
    rewrite Hf by congruence. exact Hs.
Qed.

End WholeRun.




(** * Directories *)

#[local] Instance same_dirs_preorder : PreOrder same_dirs.
Proof.
  split; [by intros s|].
  intros s1 s2 s3 [? ?] [? ?]. split; congruence.
Qed.

#[local] Instance same_created_preorder : PreOrder same_created.
Proof.
  split; [by intros s|].
  intros s1 s2 s3 H12 H23. unfold same_created in *. congruence.
Qed.

#[local] Instance settled_preorder env D : PreOrder (settled env D).
Proof.
  split; [by intros s|].
  intros s1 s2 s3 H12 H23 HD. rewrite H23, H12; [done..|].
  intros d Hd. rewrite (is_dir_same env s1 s2) by auto. auto.
Qed.

Ltac prim_dirs :=
  prim_cases; unfold same_dirs, same_created, settled; cbn; try done.

(** [os.makedirs(d, exist_ok=True)] on a directory that exists: no error and
    no change. *)
Lemma makedirs_existing env d s :
  is_dir env d s = true -> os_makedirs env d s = (Ok tt, s).
Proof. intros Hd. unfold os_makedirs. by rewrite Hd. Qed.

(** What [os.makedirs] does when it returns: the console and the record are
    left alone, no directory disappears, and the directory exists. *)
Lemma makedirs_effect env d s :
  let r := os_makedirs env d s in
  stdout r.2 = stdout s /\ created_dirs r.2 = created_dirs s /\
  fs_dirs s ⊆ fs_dirs r.2 /\ (r.1 = Ok tt -> is_dir env d r.2 = true).
Proof.
  cbv zeta. unfold os_makedirs.
  destruct (is_dir env d s) eqn:Hd; [by repeat split|].
  destruct (String.eqb_spec d "") as [->|Hne]; [by repeat split|].
  repeat case_match; cbn; repeat split; try done; try set_solver.
  intros _. unfold is_dir, walkable, dir_named. cbn [fs_dirs with_fs].
  rewrite (proj2 (String.eqb_neq _ _) Hne). cbn [negb andb].
  apply andb_true_iff. split.
  - apply forallb_forall. intros a Ha%list_elem_of_In.
    apply orb_true_iff. left. apply orb_true_iff. left.
    apply bool_decide_eq_true.
    rewrite !elem_of_union, elem_of_singleton, elem_of_list_to_set, list_elem_of_fmap.
    right. right. by exists a.
  - apply orb_true_iff. left. apply orb_true_iff. left.
    apply bool_decide_eq_true.
    rewrite !elem_of_union, elem_of_singleton. right. by left.
Qed.

(** After it succeeds, the directory exists. *)
Lemma makedirs_creates env d s s' :
  os_makedirs env d s = (Ok tt, s') -> is_dir env d s' = true.
Proof.
  intros H. destruct (makedirs_effect env d s) as (_ & _ & _ & Hd).
  rewrite H in Hd. by apply Hd.
Qed.

Section Directories.

Variable env : Env.
Variable should_overwrite : bool.
Variable base_url : string.
Variable geojson_files : Catalog.

#[local] Abbreviation process_entry :=
  (process_entry env should_overwrite base_url geojson_files).
#[local] Abbreviation files_to_download := (files_to_download geojson_files).

(** The recorded directories all exist. *)
#[local] Abbreviation recorded_exist :=
  (fun s : State => forall d, d ∈ created_dirs s -> is_dir env d s = true).

(** When it returns, [ensure_directory] has recorded the directory, which
    exists. *)
Lemma ensure_directory_records config s s1 :
  ensure_directory env config s = (Ok tt, s1) ->
  created_dirs s1 = created_dirs s ∪ {[directory config]} /\
  (recorded_exist s -> recorded_exist s1).
Proof.
  unfold ensure_directory, bind, get_state.
  destruct (bool_decide (directory config ∈ created_dirs s)) eqn:E.
  - intros [= <-]. apply bool_decide_eq_true in E. split; [set_solver|done].
  - destruct (makedirs_effect env (directory config) s) as (_ & Hc & Hg & Hd).
    destruct (os_makedirs env (directory config) s) as [[[]|e] s2] eqn:Hmk;
      [|done].
    intros [= <-]. cbn in *. rewrite Hc. split; [done|].
    intros Hs d [Hin| ->%elem_of_singleton]%elem_of_union.
    + rewrite (is_dir_same env s2) by reflexivity.
      eapply is_dir_mono; [exact Hg|by apply Hs].
    + rewrite (is_dir_same env s2) by reflexivity. by apply Hd.
Qed.

Lemma after_ensure_same_dirs i filename config :
  preserves same_dirs
    (try_clauses
       (bind (os_path_exists env (filepath_of config)) (fun present =>
          if present && negb (file_should_overwrite should_overwrite config)
          then print (MsgSkip i (length files_to_download) filename)
          else fetch_and_save env base_url geojson_files i filename config))
       [(is_RequestException, fun e => print (MsgErrorDownload (exn_str e)))]).
Proof.
  apply preserves_try_clauses; [typeclasses eauto| |].
  - unfold fetch_and_save. walk_with prim_dirs.
  - intros e h (msg & -> & ->)%select_request_clause. prim_dirs.
Qed.

(** An entry that is processed without an escaping error has its directory
    recorded, and nothing else is recorded. *)
Lemma process_entry_records i filename config s s' :
  process_entry (i, (filename, config)) s = (Ok tt, s') ->
  created_dirs s' = created_dirs s ∪ {[directory config]} /\
  (recorded_exist s -> recorded_exist s').
Proof.
  simpl. unfold try_body. rewrite try_clauses_bind.
  pose proof (ensure_directory_raises env config s) as Hr.
  destruct (ensure_directory env config s) as [[[]|e] s1] eqn:He.
  - intros H. apply ensure_directory_records in He as [Hc Hsub].
    pose proof (after_ensure_same_dirs i filename config s1) as [Hd Hc'].
    rewrite H in Hd, Hc'. simpl in Hd, Hc'.
    rewrite Hc', <- Hc. split; [done|].
    intros Hs d Hin. rewrite (is_dir_same env s1) by done. by apply Hsub.
  - destruct (Hr e eq_refl) as [msg ->]. done.
Qed.

Lemma loop_records l : forall k s s',
  for_each process_entry (enumerate k l) s = (Ok tt, s') ->
  created_dirs s' = created_dirs s ∪ wanted_dirs l /\
  (recorded_exist s -> recorded_exist s').
Proof.
  induction l as [|[filename config] l IH]; intros k s s';
    cbn [enumerate for_each].
  - intros [= <-]. split; [|done]. unfold wanted_dirs. set_solver.
  - unfold bind.
    destruct (process_entry (k, (filename, config)) s) as [[[]|e] s1] eqn:H1;
      [|done].
    intros H2. apply process_entry_records in H1 as [Hc1 Hs1].
    apply IH in H2 as [Hc2 Hs2]. split; [|by auto].
    rewrite Hc2, Hc1. unfold wanted_dirs. simpl. set_solver.
Qed.

(** After the loop, no directory is made or recorded. *)
Lemma after_loop_same_dirs s1 :
  same_dirs
    (download_loop env should_overwrite base_url geojson_files s1).2
    (bind (download_loop env should_overwrite base_url geojson_files) (fun _ =>
       bind (summary env geojson_files) (fun _ =>
         bind (print MsgComplete) (fun _ =>
           bind (print MsgAllFinished) (fun _ => @sys_exit unit 0)))) s1).2.
Proof.
  unfold bind at 1.
  destruct (download_loop env should_overwrite base_url geojson_files s1)
    as [[[]|e] s2]; simpl; [|done].
  revert s2. change (preserves same_dirs
    (bind (summary env geojson_files) (fun _ =>
       bind (print MsgComplete) (fun _ =>
         bind (print MsgAllFinished) (fun _ => @sys_exit unit 0))))).
  apply preserves_bind; [typeclasses eauto| |intros _].
  - apply summary_preserves; try typeclasses eauto; intros; prim_dirs.
  - walk_with prim_dirs.
Qed.

(** A run that reaches [sys.exit(0)] has recorded exactly the directories of
    the enabled entries, and all of them exist. *)
Lemma completed_run_records s s' code :
  download_geojson_files env should_overwrite base_url geojson_files s
    = (Raise (SystemExit code), s') ->
  created_dirs s' = wanted_dirs files_to_download /\
  recorded_exist s'.
Proof.
  rewrite download_unfold. intros H.
  pose proof (after_loop_same_dirs (loop_start env geojson_files s)) as [Hd Hc].
  pose proof (download_loop_not_exit env should_overwrite base_url geojson_files
                (loop_start env geojson_files s)) as Hne.
  rewrite H in Hd, Hc. simpl in Hd, Hc. revert H. unfold bind at 1.
  destruct (download_loop env should_overwrite base_url geojson_files
              (loop_start env geojson_files s)) as [[[]|e] s2] eqn:Hloop.
  - intros _. unfold download_loop in Hloop.
    apply loop_records in Hloop as [H1 H2]. simpl in *.
    rewrite Hc, H1. split; [set_solver|].
    intros d Hin. rewrite (is_dir_same env s2) by done. apply H2; [|by rewrite H1].
    intros d' Hd'. by apply elem_of_empty in Hd'.
  - intros [= -> _]. by destruct (Hne _ eq_refl).
Qed.

Lemma makedirs_settled D d :
  d ∈ D -> preserves (settled env D) (os_makedirs env d).
Proof. intros Hd s HD. rewrite makedirs_existing; [done|by apply HD]. Qed.

Lemma process_entry_settled D i filename config :
  directory config ∈ D ->
  preserves (settled env D) (process_entry (i, (filename, config))).
Proof.
  intros Hd. simpl. apply preserves_try_clauses; [typeclasses eauto| |].
  - unfold try_body, ensure_directory, fetch_and_save.
    walk_with ltac:(first [by apply makedirs_settled | prim_dirs]).
  - intros e h (msg & -> & ->)%select_request_clause. prim_dirs.
Qed.

(** When every directory of the enabled entries exists at the start, the run
    leaves the set of directories as it is. *)
Lemma run_settled s :
  (forall d, d ∈ wanted_dirs files_to_download -> is_dir env d s = true) ->
  fs_dirs (download_geojson_files env should_overwrite base_url geojson_files s).2
  = fs_dirs s.
Proof.
  intros HD. rewrite download_unfold.
  pose proof (after_loop_same_dirs (loop_start env geojson_files s)) as [Hd _].
  rewrite Hd.
  assert (preserves (settled env (wanted_dirs files_to_download))
            (download_loop env should_overwrite base_url geojson_files)) as Hloop.
  { unfold download_loop. apply preserves_for_each; [typeclasses eauto|].
    intros [i [filename config]] Hin. apply process_entry_settled.
    apply enumerate_elem_of in Hin. unfold wanted_dirs.
    apply elem_of_list_to_set.
    by apply (list_elem_of_fmap_2 (fun kv : string * Config => directory kv.2)) in Hin. }
  by rewrite (Hloop (loop_start env geojson_files s) HD).
Qed.

End Directories.

(** ** The final report *)

Lemma for_each_print {A} (f : A -> Message) l s :
  for_each (fun x => print (f x)) l s = (Ok tt, with_stdout (stdout s ++ map f l) s).
Proof.
  revert s. induction l as [|x l IH]; intros s; simpl.
  - destruct s. unfold with_stdout. simpl. by rewrite app_nil_r.
  - unfold bind, print, modify. rewrite IH. unfold with_stdout. simpl.
    by rewrite <- app_assoc.
Qed.

Lemma report_directories_output geojson_files s :
  report_directories geojson_files s =
  (Ok tt,
   with_stdout
     (stdout s ++ map (directory_line (files_to_download geojson_files))
                      (sorted_strings (elements (created_dirs s)))) s).
Proof.
  unfold report_directories, bind, get_state.
  apply (for_each_print (directory_line (files_to_download geojson_files))).
Qed.

Lemma report_failed_quiet :
  preserves (emits not_directory_line) report_failed /\
  preserves same_dirs report_failed.
Proof.
  split; unfold report_failed.
  - walk_with ltac:(first [apply print_emits; exact I | auto with run]).
  - walk_with prim_dirs.
Qed.

Lemma report_coastlines_quiet env geojson_files :
  preserves (emits not_directory_line) (report_coastlines env geojson_files).
Proof.
  unfold report_coastlines.
  walk_with ltac:(first [apply print_emits; exact I | auto with run]).
Qed.

Lemma summary_same_dirs env geojson_files :
  preserves same_dirs (summary env geojson_files).
Proof. apply summary_preserves; try typeclasses eauto; intros; prim_dirs. Qed.

(** The summary lists the recorded directories, one line each, and prints
    no other line of that kind. *)
Lemma summary_output env geojson_files s s' :
  summary env geojson_files s = (Ok tt, s') ->
  exists pre post,
    stdout s' =
      stdout s ++ pre ++
      map (directory_line (files_to_download geojson_files))
          (sorted_strings (elements (created_dirs s))) ++ post /\
    Forall not_directory_line pre /\ Forall not_directory_line post.
Proof.
  unfold summary. unfold bind at 1 2 3. unfold print at 1 2, modify, get_state.
  cbn [fst snd].
  set (sb := with_stdout _ (with_stdout _ s)).
  destruct report_failed_quiet as [Hfe Hfd].
  specialize (Hfe sb). specialize (Hfd sb). unfold bind at 1.
  destruct (report_failed sb) as [[[]|e] sc]; [|done]. cbn [snd] in Hfe, Hfd.
  unfold bind at 1 2 3. unfold print at 1 2, modify.
  rewrite report_directories_output. unfold bind at 1. unfold print at 1, modify.
  set (sg := with_stdout _ (with_stdout _ (with_stdout _ (with_stdout _ sc)))).
  pose proof (report_coastlines_quiet env geojson_files sg) as Hce.
  intros H. rewrite H in Hce. cbn [snd] in Hce.
  destruct Hfe as (fo & Efo & Ffo). destruct Hce as (co & Eco & Fco).
  destruct Hfd as [_ Hcd].
  exists ([MsgDownloadComplete;
           MsgSuccessCount (success_count s)
             (length (files_to_download geojson_files))] ++ fo ++
          [MsgOrganizedUnder (cwd env); MsgDirectoryStructure]),
         (MsgKeyCoastline :: co).
  split; [|split].
  - rewrite Eco. subst sg. cbn [stdout with_stdout]. rewrite Efo. subst sb.
    cbn [stdout with_stdout created_dirs]. rewrite Hcd.
    cbn [created_dirs with_stdout]. rewrite <- !app_assoc. done.
  - apply Forall_app. split; [by repeat constructor|].
    apply Forall_app. split; [done|by repeat constructor].
  - by constructor.
Qed.

Lemma not_directory_line_elem d n (l : list Message) :
  Forall not_directory_line l -> MsgDirectoryLine d n ∉ l.
Proof. rewrite Forall_forall. intros H Hin. exact (H _ Hin). Qed.

(** A run that reaches [sys.exit(0)] from a fresh console has printed a
    directory line for exactly the directories it recorded. *)
Lemma completed_run_report env should_overwrite base_url geojson_files
    dirs files s' code :
  download_geojson_files env should_overwrite base_url geojson_files
    (initial_state dirs files) = (Raise (SystemExit code), s') ->
  forall d, d ∈ created_dirs s' <-> exists n, MsgDirectoryLine d n ∈ stdout s'.
Proof.
  rewrite download_unfold.
  set (s1 := loop_start env geojson_files (initial_state dirs files)).
  pose proof (download_loop_emits env should_overwrite base_url geojson_files s1)
    as (lo & Elo & Flo).
  pose proof (download_loop_not_exit env should_overwrite base_url geojson_files s1)
    as Hne.
  unfold bind at 1.
  destruct (download_loop env should_overwrite base_url geojson_files s1)
    as [[[]|e] s2]; [|intros [= -> _]; by destruct (Hne _ eq_refl)].
  cbn [snd] in Elo. clear Hne.
  pose proof (summary_not_exit env geojson_files s2) as Hne.
  pose proof (summary_same_dirs env geojson_files s2) as Hsd.
  unfold bind at 1.
  destruct (summary env geojson_files s2) as [[[]|e] s3] eqn:E3;
    [|intros [= -> _]; by destruct (Hne _ eq_refl)].
  apply summary_output in E3 as (pre & post & E3 & Fpre & Fpost).
  cbn [snd] in Hsd. destruct Hsd as [_ Hcd].
  assert (Forall not_directory_line (stdout s1)) as Fs1 by (by repeat constructor).
  clearbody s1.
  intros [= _ <-]. cbn [stdout created_dirs with_stdout]. rewrite Hcd.
  set (lines := map (directory_line (files_to_download geojson_files))
                    (sorted_strings (elements (created_dirs s2)))) in *.
  assert (exists A B,
            (stdout s3 ++ [MsgComplete]) ++ [MsgAllFinished] = A ++ lines ++ B /\
            Forall not_directory_line A /\ Forall not_directory_line B)
    as (A & B & -> & FA & FB).
  { exists (stdout s1 ++ lo ++ pre), (post ++ [MsgComplete; MsgAllFinished]).
    split; [rewrite E3, Elo; by rewrite <- !app_assoc|]. split.
    - apply Forall_app. split; [done|]. apply Forall_app. split; [|done].
      eapply Forall_impl; [exact Flo|]. by intros [].
    - apply Forall_app. split; [done|by repeat constructor]. }
  intros d. split.
  - intros Hd. eexists. rewrite !elem_of_app. right. left.
    apply (list_elem_of_fmap_2 (directory_line (files_to_download geojson_files))).
    unfold sorted_strings. rewrite sort_by_perm. by apply elem_of_elements.
  - intros [n Hn]. rewrite !elem_of_app in Hn. destruct Hn as [Hn|[Hn|Hn]].
    + by apply not_directory_line_elem in Hn.
    + apply list_elem_of_fmap in Hn as (d' & [= <- _] & Hd').
      unfold sorted_strings in Hd'. rewrite sort_by_perm in Hd'.
      by apply elem_of_elements in Hd'.
    + by apply not_directory_line_elem in Hn.
Qed.

(** C4, as stated, fails in its second half: when the directory [out] is on
    disk before the run, the run creates no directory, yet [out] is recorded
    in [created_dirs] and announced as created. *)
Lemma existing_directory_is_recorded_as_created :
  let s0 := initial_state {["out"]} ∅ in
  let s' := (download_geojson_files env_serves_new true "http://host/"
               two_entries s0).2 in
  elements (created_dirs s') = ["out"] /\
  elements (fs_dirs s' ∖ fs_dirs s0) = [] /\
  MsgCreatedDirectory "out" ∈ stdout s' /\
  created_dirs s' <> fs_dirs s' ∖ fs_dirs s0.
Proof.
  cbv zeta. split; [by vm_compute|]. split; [by vm_compute|]. split.
  - vm_compute. do 3 right. left.
  - intros H. apply (f_equal elements) in H. vm_compute in H. discriminate.
Qed.

(** C4 (amended).  Creating a directory that exists raises nothing and
    changes nothing.  A run that completes has recorded in [created_dirs]
    exactly the directories of the enabled entries, created by it or found in
    place; all of them exist, and the final report has a line for each of
    them and for no other directory.  A second run over the tree it left,
    where paths lead where they led and whatever the host and the system then
    answer, ends with the same set of directories, and records the same set
    when it completes. *)
Theorem directories_idempotent_and_recorded env env' should_overwrite base_url
    geojson_files dirs files :
  let r1 := download_geojson_files env should_overwrite base_url geojson_files
              (initial_state dirs files) in
  let r2 := download_geojson_files env' should_overwrite base_url geojson_files
              (initial_state (fs_dirs r1.2) (fs_files r1.2)) in
  resolve env' = resolve env ->
  r1.1 = Raise (SystemExit 0) ->
  (forall d s, is_dir env' d s = true -> os_makedirs env' d s = (Ok tt, s)) /\
  created_dirs r1.2 = wanted_dirs (files_to_download geojson_files) /\
  (forall d, d ∈ created_dirs r1.2 -> is_dir env d r1.2 = true) /\
  (forall d, d ∈ created_dirs r1.2 <->
             exists n, MsgDirectoryLine d n ∈ stdout r1.2) /\
  fs_dirs r2.2 = fs_dirs r1.2 /\
  (r2.1 = Raise (SystemExit 0) -> created_dirs r2.2 = created_dirs r1.2).
Proof.
  intros r1 r2 Hsame H1. subst r2.
  destruct r1 as [o1 s1] eqn:E1. simpl in *. subst o1.
  pose proof (completed_run_report _ _ _ _ _ _ _ _ E1) as Hrep.
  apply completed_run_records in E1 as [Hc Hsub].
  split; [intros d s; apply makedirs_existing|].
  split; [exact Hc|]. split; [exact Hsub|]. split; [exact Hrep|]. split.
  - rewrite run_settled; [done|]. intros d Hd. rewrite <- Hc in Hd.
    specialize (Hsub d Hd). revert Hsub.
    unfold is_dir, walkable, dir_named. rewrite Hsame. by cbn.
  - intros H2.
    destruct (download_geojson_files env' should_overwrite base_url geojson_files
                (initial_state (fs_dirs s1) (fs_files s1))) as [o2 s2] eqn:E2.
    simpl in *. subst o2.
    apply completed_run_records in E2 as [Hc2 _]. by rewrite Hc2, Hc.
Qed.

Lemma directories_idempotent_and_recorded_witness :
  let r1 := download_geojson_files env_serves_new true "http://host/" two_entries
              (initial_state ∅ ∅) in
  let r2 := download_geojson_files env_both_fail true "http://host/" two_entries
              (initial_state (fs_dirs r1.2) (fs_files r1.2)) in
  resolve env_both_fail = resolve env_serves_new /\
  r1.1 = Raise (SystemExit 0) /\
  (forall d s, is_dir env_both_fail d s = true ->
               os_makedirs env_both_fail d s = (Ok tt, s)) /\
  created_dirs r1.2 = wanted_dirs (files_to_download two_entries) /\
  (forall d, d ∈ created_dirs r1.2 -> is_dir env_serves_new d r1.2 = true) /\
  (forall d, d ∈ created_dirs r1.2 <->
             exists n, MsgDirectoryLine d n ∈ stdout r1.2) /\
  fs_dirs r2.2 = fs_dirs r1.2 /\
  (r2.1 = Raise (SystemExit 0) -> created_dirs r2.2 = created_dirs r1.2).
Proof.
  intros r1 r2.
  assert (r1.1 = Raise (SystemExit 0)) as H1 by (vm_compute; reflexivity).
  split; [reflexivity|]. split; [exact H1|].
  exact (directories_idempotent_and_recorded env_serves_new env_both_fail true
           "http://host/" two_entries ∅ ∅ eq_refl H1).
Defined.

(** * A run with a single failed fetch *)

Section OneFailure.

Variable env : Env.
Variable should_overwrite : bool.
Variable base_url : string.
Variable geojson_files : Catalog.
Variable dirs : gset string.
Variable files : gmap string bytes.

#[local] Abbreviation ftd := (files_to_download geojson_files).
#[local] Abbreviation process_entry :=
  (process_entry env should_overwrite base_url geojson_files).
#[local] Abbreviation Inv := (within_layout env dirs files ftd).
#[local] Abbreviation name := (fun kv : string * Config => resolve env (filepath_of kv.2)).

Hypothesis Hfaults : no_faults env.
Hypothesis Hlayout : layout_ok env dirs files ftd.

Lemma layout_directory kv : kv ∈ ftd -> directory kv.2 <> "".
Proof.
  intros Hin. unfold layout_ok in Hlayout.
  rewrite Forall_forall in Hlayout. by destruct (Hlayout kv Hin).
Qed.

Lemma layout_made_not_file kv x s :
  Inv s -> kv ∈ ftd -> x ∈ made_names env kv.2 -> x ∉ dom (fs_files s).
Proof.
  intros (_ & Hf & _) Hin Hx Hdom. unfold layout_ok in Hlayout.
  rewrite Forall_forall in Hlayout. destruct (Hlayout kv Hin) as (_ & _ & _ & _ & Hm).
  rewrite Forall_forall in Hm. destruct (Hm x Hx) as [Hnf Hnp].
  destruct (Hf x Hdom) as [?|(kv' & Hin' & ->)]; [done|].
  rewrite Forall_forall in Hnp. by apply (Hnp kv' Hin').
Qed.

Lemma layout_destination_not_dir kv s :
  Inv s -> kv ∈ ftd -> dir_named env (name kv) s = false.
Proof.
  intros (Hd & _) Hin. unfold layout_ok in Hlayout.
  rewrite Forall_forall in Hlayout.
  destruct (Hlayout kv Hin) as (_ & _ & _ & Hnd & _).
  unfold dir_named in *. cbn [fs_dirs initial_state] in Hnd.
  apply orb_false_iff in Hnd as [[Hn1 ->]%orb_false_iff ->].
  rewrite !orb_false_r. apply bool_decide_eq_false in Hn1.
  apply bool_decide_eq_false. intros Hp.
  destruct (Hd _ Hp) as [Hdirs|(kv' & Hin' & Hx)]; [done|].
  destruct (Hlayout kv' Hin') as (_ & _ & _ & _ & Hm).
  rewrite Forall_forall in Hm. destruct (Hm _ Hx) as [_ Hnp].
  rewrite Forall_forall in Hnp. by apply (Hnp kv Hin).
Qed.

(** Once the directory of an entry exists, its destination can be reached. *)
Lemma layout_destination_walkable kv s :
  Inv s -> kv ∈ ftd -> is_dir env (directory kv.2) s = true ->
  walkable env (filepath_of kv.2) s = true.
Proof.
  intros (_ & _ & Hsub & _) Hin Hdir. unfold layout_ok in Hlayout.
  rewrite Forall_forall in Hlayout.
  destruct (Hlayout kv Hin) as (_ & Hne & Hanc & _).
  unfold walkable. rewrite (proj2 (String.eqb_neq _ _) Hne). cbn [negb andb].
  apply forallb_forall. intros a Ha%list_elem_of_In.
  rewrite Forall_forall in Hanc. destruct (Hanc a Ha) as [H|H].
  - eapply dir_named_mono; [|exact H]. exact Hsub.
  - apply list_elem_of_fmap in H as (x & -> & Hx).
    by eapply is_dir_made.
Qed.

(** Under these conditions the directory of an entry is always made. *)
Lemma makedirs_ok kv s :
  Inv s -> kv ∈ ftd ->
  exists s1, os_makedirs env (directory kv.2) s = (Ok tt, s1) /\
             no_transfer s s1 /\ fs_grows s s1 /\ same_created s s1 /\
             stdout s1 = stdout s /\ Inv s1 /\
             is_dir env (directory kv.2) s1 = true.
Proof.
  intros HI Hin.
  pose proof (makedirs_effect env (directory kv.2) s) as (_ & _ & _ & Hdir).
  revert Hdir. cbv zeta. unfold os_makedirs.
  destruct (is_dir env (directory kv.2) s) eqn:E1.
  { intros _. exists s. split; [done|]. do 3 (split; [reflexivity|]). done. }
  rewrite (proj2 (String.eqb_neq _ _) (layout_directory kv Hin)).
  rewrite bool_decide_eq_false_2
    by (apply (layout_made_not_file kv _ s HI Hin);
        apply list_elem_of_fmap; eexists; split; [reflexivity|left]).
  replace (existsb _ (PyStr.ancestors (directory kv.2))) with false.
  2:{ symmetry. apply not_true_is_false. intros Hex.
      apply existsb_exists in Hex as (x & Hx & Hdom).
      apply bool_decide_eq_true in Hdom.
      apply (layout_made_not_file kv (resolve env x) s HI Hin); [|done].
      apply list_elem_of_fmap. exists x. split; [done|].
      right. by apply list_elem_of_In. }
  destruct Hfaults as [Hmk _]. rewrite Hmk. intros Hdir.
  eexists. split; [reflexivity|]. split; [done|]. split.
  { split; [|done]. cbn. set_solver. }
  split; [done|]. split; [done|]. split; [|by apply Hdir].
  destruct HI as (Hd & Hf & Hsub & Hrec). split; [|split; [exact Hf|split]].
  - intros x. unfold with_fs. cbn [fs_dirs].
    rewrite elem_of_union, elem_of_list_to_set.
    intros [Hx|Hx]; [by apply Hd|]. right. by exists kv.
  - cbn. set_solver.
  - intros kv' Hin' Hc. eapply is_dir_mono; [|by apply Hrec].
    cbn. set_solver.
Qed.

Lemma ensure_directory_ok kv s :
  Inv s -> kv ∈ ftd ->
  exists s1, ensure_directory env kv.2 s = (Ok tt, s1) /\
             no_transfer s s1 /\ fs_grows s s1 /\ Inv s1 /\
             is_dir env (directory kv.2) s1 = true.
Proof.
  intros HI Hin. unfold ensure_directory, bind, get_state.
  destruct (bool_decide (directory kv.2 ∈ created_dirs s)) eqn:E.
  { apply bool_decide_eq_true in E.
    exists s. split; [done|]. do 2 (split; [reflexivity|]). split; [done|].
    destruct HI as (_ & _ & _ & Hrec). by apply Hrec. }
  destruct (makedirs_ok kv s HI Hin)
    as (s1 & -> & Hnt & Hg & _ & Hout & (Hd & Hf & Hsub & Hrec) & Hdir).
  eexists. split; [reflexivity|]. split; [exact Hnt|]. split; [exact Hg|].
  split; [|exact Hdir].
  split; [exact Hd|]. split; [exact Hf|]. split; [exact Hsub|].
  intros kv' Hin'. cbn [created_dirs with_stdout with_locals].
  intros [Hc| ->%elem_of_singleton]%elem_of_union.
  - by apply Hrec.
  - exact Hdir.
Qed.

(** One turn of the loop for an entry whose fetch is accepted: it is either
    skipped, or requested once and saved. *)
Lemma accepted_entry i filename config s :
  Inv s -> (filename, config) ∈ ftd ->
  fetch_accepted env (base_url +:+ filename) = true ->
  exists s', process_entry (i, (filename, config)) s = (Ok tt, s') /\
    Inv s' /\ emits loop_message s s' /\
    ((exists m, m ∈ stdout s' /\ skip_line m = true) \/
     (exists r,
        http_get env (base_url +:+ filename) = Responded r /\
        requests s' = requests s ++ [base_url +:+ filename] /\
        opened s' = opened s ++ [filepath_of config] /\
        success_count s' = S (success_count s) /\
        fs_files s' = <[resolve env (filepath_of config) := content r]> (fs_files s))).
Proof.
  intros HI Hin Hacc.
  pose proof (process_entry_emits env should_overwrite base_url geojson_files
                (i, (filename, config)) s) as Hemits.
  simpl in *. unfold try_body in *. rewrite try_clauses_bind in *.
  destruct (ensure_directory_ok (filename, config) s HI Hin)
    as (s1 & He & Hnt & Hg & HI1 & Hdir).
  simpl in He, Hdir. rewrite He in *. clear He.
  unfold try_clauses, bind, os_path_exists in *.
  destruct (path_exists env (filepath_of config) s1 &&
            negb (file_should_overwrite should_overwrite config)).
  - simpl in *. eexists. split; [reflexivity|]. split; [exact HI1|].
    split; [exact Hemits|]. left.
    exists (MsgSkip i (length ftd) filename). split; [|reflexivity].
    cbn. set_solver.
  - pose proof (layout_destination_walkable (filename, config) s1 HI1 Hin Hdir) as Hw.
    pose proof (layout_destination_not_dir (filename, config) s1 HI1 Hin) as Hnd.
    cbn [snd] in Hw, Hnd.
    unfold fetch_and_save, bind, requests_get, fetch_accepted in *.
    destruct (http_get env (base_url +:+ filename)) as [r| | |]; try done.
    apply bool_decide_eq_true in Hacc.
    unfold raise_for_status, write_file in *. simpl in *. rewrite Hacc in *.
    simpl in *.
    rewrite (walkable_same env s1) in * by reflexivity.
    rewrite (dir_named_same env s1) in * by reflexivity.
    rewrite Hw, Hnd in *. cbn [negb] in *.
    destruct Hfaults as (_ & Hwf & Hsl). rewrite Hwf in *. simpl in *.
    destruct Hnt as (Hr & Ho & Hf & Hsc & _).
    assert (forall s2, fs_dirs s2 = fs_dirs s1 -> created_dirs s2 = created_dirs s1 ->
              fs_files s2 = <[resolve env (filepath_of config) := content r]> (fs_files s1) ->
              Inv s2) as HI2.
    { intros s2 Hd2 Hc2 Hf2. destruct HI1 as (Hd1 & Hf1 & Hsub1 & Hrec1).
      split; [|split; [|split]].
      - intros x. rewrite Hd2. apply Hd1.
      - intros p. rewrite Hf2, dom_insert_L, elem_of_union, elem_of_singleton.
        intros [->|Hp]; [|by apply Hf1]. right. by exists (filename, config).
      - by rewrite Hd2.
      - intros kv Hkv. rewrite Hc2, (is_dir_same env s1) by done. by apply Hrec1. }
    destruct (i <? length ftd); unfold time_sleep in *; simpl in *;
      rewrite ?Hsl in *; simpl in *;
      (eexists; split; [reflexivity|]; split; [by apply HI2|];
       split; [exact Hemits|]; right; exists r; cbn;
       rewrite Hr, Ho, Hsc, Hf; by repeat split).
Qed.

(** One turn for the entry whose fetch is rejected: it is either skipped, or
    requested once, reported, and not saved. *)
Lemma rejected_entry i filename config s :
  Inv s -> (filename, config) ∈ ftd ->
  fetch_rejected env (base_url +:+ filename) = true ->
  exists s', process_entry (i, (filename, config)) s = (Ok tt, s') /\
    Inv s' /\ emits loop_message s s' /\
    ((exists m, m ∈ stdout s' /\ skip_line m = true) \/
     (requests s' = requests s ++ [base_url +:+ filename] /\
      opened s' = opened s /\
      success_count s' = success_count s /\
      fs_files s' = fs_files s)).
Proof.
  intros HI Hin Hrej.
  pose proof (process_entry_emits env should_overwrite base_url geojson_files
                (i, (filename, config)) s) as Hemits.
  simpl in *. unfold try_body in *. rewrite try_clauses_bind in *.
  destruct (ensure_directory_ok (filename, config) s HI Hin)
    as (s1 & He & Hnt & Hg & HI1 & _).
  simpl in He. rewrite He in *. clear He.
  assert (forall s2, fs_dirs s2 = fs_dirs s1 -> created_dirs s2 = created_dirs s1 ->
            fs_files s2 = fs_files s1 -> Inv s2) as HI2.
  { intros s2 Hd2 Hc2 Hf2. destruct HI1 as (Hd1 & Hf1 & Hsub1 & Hrec1).
    split; [|split; [|split]].
    - intros x. rewrite Hd2. apply Hd1.
    - intros p. rewrite Hf2. apply Hf1.
    - by rewrite Hd2.
    - intros kv Hkv. rewrite Hc2, (is_dir_same env s1) by done. by apply Hrec1. }
  unfold try_clauses, bind, os_path_exists in *.
  destruct (path_exists env (filepath_of config) s1 &&
            negb (file_should_overwrite should_overwrite config)).
  - simpl in *. eexists. split; [reflexivity|]. split; [by apply HI2|].
    split; [exact Hemits|]. left.
    exists (MsgSkip i (length ftd) filename). split; [|reflexivity].
    cbn. set_solver.
  - unfold fetch_and_save, bind, requests_get, fetch_rejected in *.
    destruct Hnt as (Hr & Ho & Hf & Hsc & _).
    destruct (http_get env (base_url +:+ filename)) as [r|msg| |]; try done.
    + apply bool_decide_eq_true in Hrej as [msg Hmsg].
      unfold raise_for_status in *. simpl in *. rewrite Hmsg in *. simpl in *.
      eexists. split; [reflexivity|]. split; [by apply HI2|].
      split; [exact Hemits|]. right. cbn. by rewrite Hr, Ho, Hsc, Hf.
    + simpl in *. eexists. split; [reflexivity|]. split; [by apply HI2|].
      split; [exact Hemits|]. right. cbn. by rewrite Hr, Ho, Hsc, Hf.
Qed.

Lemma loop_emits_from k l :
  preserves (emits loop_message) (for_each process_entry (enumerate k l)).
Proof.
  apply preserves_for_each; [typeclasses eauto|].
  intros item _. apply process_entry_emits.
Qed.

Lemma loop_one_failure fk l : forall k s,
  (forall kv, kv ∈ l -> kv ∈ ftd) ->
  Forall (one_failure env base_url fk) l ->
  NoDup (map name (others fk l)) ->
  Inv s ->
  Forall (fun m => skip_line m = false)
         (stdout (for_each process_entry (enumerate k l) s).2) ->
  exists s',
    for_each process_entry (enumerate k l) s = (Ok tt, s') /\ Inv s' /\
    requests s' = requests s ++ map (fun kv => base_url +:+ kv.1) l /\
    opened s' = opened s ++ map (fun kv => filepath_of kv.2) (others fk l) /\
    success_count s' = success_count s + length (others fk l) /\
    (forall kv, kv ∈ l -> kv.1 <> fk ->
       exists r, http_get env (base_url +:+ kv.1) = Responded r /\
                 fs_files s' !! name kv = Some (content r)) /\
    (forall q, q ∉ map name (others fk l) -> fs_files s' !! q = fs_files s !! q).
Proof.
  induction l as [|[filename config] l IH]; intros k s Hsub Hplan Hnd HI Hns.
  - exists s. split; [done|]. split; [done|]. cbn.
    rewrite !app_nil_r, Nat.add_0_r. repeat split; try done.
    intros kv Hkv. by apply elem_of_nil in Hkv.
  - apply Forall_cons in Hplan as [Hx Hplan]. unfold one_failure in Hx.
    cbn [enumerate for_each] in *. unfold others in *. rewrite filter_cons in *.
    cbn [fst snd] in *.
    assert ((filename, config) ∈ ftd) as Hin by (apply Hsub; left).
    assert (forall s1,
              process_entry (k, (filename, config)) s = (Ok tt, s1) ->
              (exists m, m ∈ stdout s1 /\ skip_line m = true) -> False) as Hnoskip.
    { intros s1 E1 (m & Hm & Hskip). unfold bind in Hns. rewrite E1 in Hns.
      pose proof (loop_emits_from (S k) l s1) as Hem.
      eapply emits_stdout_mono in Hem; [|exact Hm].
      rewrite Forall_forall in Hns. specialize (Hns m Hem). congruence. }
    destruct (decide (filename = fk)) as [Heq|Hne].
    + destruct (rejected_entry k filename config s HI Hin Hx)
        as (s1 & E1 & HI1 & _ & [Hskip|(Hr & Ho & Hsc & Hf)]).
      { destruct (Hnoskip s1 E1 Hskip). }
      unfold bind in *. rewrite E1 in *.
      rewrite decide_False in * by (by intros H; apply H).
      destruct (IH (S k) s1)
        as (s' & E' & HI' & Hr' & Ho' & Hsc' & Hall & Hrest);
        [by intros kv Hkv; apply Hsub; right|done..|].
      exists s'. split; [done|]. split; [done|].
      rewrite Hr', Ho', Hsc', Hr, Ho, Hsc. cbn [map].
      split; [by rewrite <- app_assoc|]. split; [done|]. split; [done|].
      split.
      * intros kv [->|Hkv]%elem_of_cons Hk; [done|by apply Hall].
      * intros q Hq. rewrite Hrest by done. by rewrite Hf.
    + destruct (accepted_entry k filename config s HI Hin Hx)
        as (s1 & E1 & HI1 & _ & [Hskip|(r & Hget & Hr & Ho & Hsc & Hf)]).
      { destruct (Hnoskip s1 E1 Hskip). }
      unfold bind in *. rewrite E1 in *.
      rewrite decide_True in * by done.
      cbn [map] in Hnd. apply NoDup_cons in Hnd as [Hfresh Hnd].
      destruct (IH (S k) s1)
        as (s' & E' & HI' & Hr' & Ho' & Hsc' & Hall & Hrest);
        [by intros kv Hkv; apply Hsub; right|done..|].
      exists s'. split; [done|]. split; [done|].
      rewrite Hr', Ho', Hsc', Hr, Ho, Hsc. cbn [map length].
      split; [by rewrite <- app_assoc|]. split; [by rewrite <- app_assoc|].
      split; [lia|]. split.
      * intros kv [->|Hkv]%elem_of_cons Hk; [|by apply Hall].
        exists r. split; [done|]. cbn [fst snd].
        rewrite Hrest by done. by rewrite Hf, lookup_insert_eq.
      * intros q [Hq1 Hq2]%not_elem_of_cons. rewrite Hrest by done.
        rewrite Hf. by rewrite lookup_insert_ne.
Qed.

End OneFailure.

Lemma raises_only_for_each_elem {A} (P : exn -> Prop) (body : A -> M unit) l :
  (forall x, x ∈ l -> raises_only P (body x)) -> raises_only P (for_each body l).
Proof.
  induction l as [|x l IH]; intros Hb; simpl.
  - apply raises_only_ret.
  - apply raises_only_bind; [apply Hb; left|intros _].
    apply IH. intros y Hy. apply Hb. by right.
Qed.

Lemma dict_get_key k (d : Catalog) : k ∈ map fst d -> is_Some (dict_get k d).
Proof.
  induction d as [|[k' v] d IH]; simpl.
  - by intros ?%elem_of_nil.
  - intros [->|Hk]%elem_of_cons.
    + rewrite String.eqb_refl. by eexists.
    + destruct (String.eqb k' k); [by eexists|by apply IH].
Qed.

(** The summary always runs to its end: every key it looks up is a key of
    the dictionary it was taken from. *)
Lemma summary_returns env geojson_files s :
  exists s', summary env geojson_files s = (Ok tt, s') /\ no_transfer s s'.
Proof.
  pose proof (summary_no_transfer env geojson_files s) as Hnt.
  assert (raises_only (fun _ => False) (summary env geojson_files)) as Hr.
  { unfold summary, report_failed, report_directories, report_coastlines.
    repeat first
      [ apply raises_only_ret
      | apply raises_only_modify
      | apply raises_only_bind; [|intros ?]
      | apply raises_only_if
      | apply raises_only_for_each_elem; intros ? ?
      | match goal with
        | H : ?cf ∈ filter _ (map fst ?d) |- raises_only _ (match dict_get ?cf ?d with _ => _ end) =>
            apply list_elem_of_filter in H as [_ H];
            apply dict_get_key in H as [? ->]
        | |- raises_only _ (match ?x with _ => _ end) => destruct x
        end
      | solve [ intros ? ?; unfold_prims; simpl; repeat case_match; simpl;
                intros [= <-] ] ]. }
  specialize (Hr s).
  destruct (summary env geojson_files s) as [[[]|e] s'].
  - by exists s'.
  - destruct (Hr e eq_refl).
Qed.

(** After the loop, the console is only added to. *)
Lemma after_loop_console env should_overwrite base_url geojson_files s1 :
  emits (fun _ => True)
    (download_loop env should_overwrite base_url geojson_files s1).2
    (bind (download_loop env should_overwrite base_url geojson_files) (fun _ =>
       bind (summary env geojson_files) (fun _ =>
         bind (print MsgComplete) (fun _ =>
           bind (print MsgAllFinished) (fun _ => @sys_exit unit 0)))) s1).2.
Proof.
  unfold bind at 1.
  destruct (download_loop env should_overwrite base_url geojson_files s1)
    as [[[]|e] s2]; simpl; [|reflexivity].
  revert s2. change (preserves (emits (fun _ => True))
    (bind (summary env geojson_files) (fun _ =>
       bind (print MsgComplete) (fun _ =>
         bind (print MsgAllFinished) (fun _ => @sys_exit unit 0))))).
  apply preserves_bind; [typeclasses eauto| |intros _].
  - apply summary_preserves; try typeclasses eauto; auto with run.
    intros. by apply print_emits.
  - walk_with ltac:(first [by apply print_emits | auto with run]).
Qed.

Lemma filter_all {A} (P : A -> Prop) `{!forall x, Decision (P x)} (l : list A) :
  Forall P l -> filter P l = l.
Proof.
  induction 1 as [|x l Hx _ IH]; [done|].
  rewrite filter_cons, decide_True by done. by rewrite IH.
Qed.

Lemma others_length fk ck (l : Catalog) :
  NoDup (map fst l) -> (fk, ck) ∈ l -> length (others fk l) = length l - 1.
Proof.
  unfold others. induction l as [|[k v] l IH]; [by intros _ ?%elem_of_nil|].
  cbn [map fst]. intros [Hk Hnd]%NoDup_cons Hin. rewrite filter_cons. cbn [fst].
  apply elem_of_cons in Hin as [[= <- <-]|Hin].
  - rewrite decide_False by (by intros H; apply H).
    rewrite filter_all; [simpl; lia|].
    apply Forall_forall. intros [k' v'] Hin' Heq. simpl in Heq. subst k'.
    apply Hk. by apply (list_elem_of_fmap_2 fst) in Hin'.
  - rewrite decide_True.
    + cbn [length]. rewrite IH by done.
      destruct l; [by apply elem_of_nil in Hin|simpl; lia].
    + intros ->. apply Hk. by apply (list_elem_of_fmap_2 fst) in Hin.
Qed.




(** * One turn of the loop, and the logs of a run *)

#[local] Instance idle_preorder : PreOrder idle.
Proof.
  split; [by intros s|].
  intros s1 s2 s3 [N1 S1] [N2 S2]. split; [by etransitivity|congruence].
Qed.

Ltac prim_idle :=
  prim_cases; unfold idle, no_transfer; cbn; repeat split; done.

Section Turns.

Variable env : Env.
Variable should_overwrite : bool.
Variable base_url : string.
Variable geojson_files : Catalog.

#[local] Abbreviation ftd := (files_to_download geojson_files).
#[local] Abbreviation process_entry :=
  (process_entry env should_overwrite base_url geojson_files).

Lemma ensure_directory_idle config : preserves idle (ensure_directory env config).
Proof. unfold ensure_directory. walk_with prim_idle. Qed.

Lemma process_entry_turn i filename config s :
  let r := process_entry (i, (filename, config)) s in
  turn env (base_url +:+ filename) (filepath_of config) (i <? length ftd) s r.1 r.2.
Proof.
  cbv zeta. simpl. unfold try_body. rewrite try_clauses_bind.
  pose proof (ensure_directory_idle config s) as Hid.
  pose proof (ensure_directory_raises env config s) as Hr.
  destruct (ensure_directory env config s) as [[[]|e] s1]; simpl in *.
  2:{ destruct (Hr e eq_refl) as [msg ->]. unfold try_clauses, raise. simpl.
      apply turn_not_fetched; eauto. }
  clear Hr. destruct Hid as [(Hq & Ho & Hf & Hsc & Hff) Hsl].
  unfold try_clauses, bind, os_path_exists.
  destruct (path_exists env (filepath_of config) s1 &&
            negb (file_should_overwrite should_overwrite config)); simpl.
  - apply turn_not_fetched; [|by left]. by repeat split.
  - unfold fetch_and_save, bind, print, modify, requests_get. simpl.
    destruct (http_get env (base_url +:+ filename)) as [r|msg| |msg] eqn:Hget; simpl.
    + unfold raise_for_status.
      destruct (http_error_msg (base_url +:+ filename) r) as [m|] eqn:Hm; simpl.
      * apply turn_not_saved; cbn; try congruence. left. split; [|done].
        unfold fetch_rejected. rewrite Hget. apply bool_decide_eq_true.
        rewrite Hm. by eexists.
      * unfold write_file. simpl.
        destruct (negb (walkable env (filepath_of config) _)); simpl.
        { eapply turn_write_failed; cbn; eauto; try congruence. }
        destruct (dir_named env (resolve env (filepath_of config)) _); simpl.
        { eapply turn_write_failed; cbn; eauto; try congruence. }
        destruct (write_fault env (filepath_of config)) as [[msg|n msg]|] eqn:Hw;
          simpl.
        { eapply turn_write_failed; cbn; eauto; try congruence. }
        { eapply turn_write_failed; cbn; eauto; try congruence.
          right. exists n. split; [done|]. by rewrite Hf. }
        destruct (i <? length ftd); unfold time_sleep; simpl;
          [destruct (sleep_interrupted env (slept s1))|]; simpl;
          (eapply turn_saved; cbn; eauto; try congruence;
           first [ right; repeat split; congruence
                 | left; split; [done|congruence] ]).
    + apply turn_not_saved; cbn; try congruence. left. split; [|done].
      unfold fetch_rejected. by rewrite Hget.
    + apply turn_not_saved; cbn; try congruence. right. by left.
    + apply turn_not_saved; cbn; try congruence. right. right. by exists msg.
Qed.

End Turns.

#[local] Instance only_opened_change_preorder env : PreOrder (only_opened_change env).
Proof.
  split; [by intros s|].
  intros s1 s2 s3 [O1 F1] [O2 F2]. split; [by auto|].
  intros k Hk. rewrite F2 by done. apply F1. intros q Hq. by apply Hk, O2.
Qed.

Ltac prim_opened :=
  prim_cases; unfold only_opened_change; cbn; (split; [set_solver|]);
  try done;
  let k := fresh "k" in
  let Hk := fresh "Hk" in
  intros k Hk; rewrite lookup_insert_ne by (apply Hk; set_solver); done.

(** What one turn adds to the logs and the counters. *)
Lemma turn_counts env u p pause s o s' :
  turn env u p pause s o s' ->
  exists lr lo a b,
    requests s' = requests s ++ lr /\ opened s' = opened s ++ lo /\
    success_count s' = success_count s + a /\ slept s' = slept s + b /\
    sublist lr [u] /\ sublist lo [p] /\
    a <= length lo /\ length lo <= length lr /\ b <= a /\
    (b = 0 \/ (b = 1 /\ pause = true)).
Proof.
  destruct 1 as [o s' [(Hr & Ho & _ & Hsc & _) Hsl] _
                |o s' Hr Ho _ Hsc Hsl _
                |r msg s' _ _ Hr Ho Hsc Hsl _
                |r o s' _ _ Hr Ho _ Hsc Hsl].
  - exists [], [], 0, 0. rewrite !app_nil_r, !Nat.add_0_r.
    repeat split; try done; try (simpl; lia); apply sublist_nil_l.
  - exists [u], [], 0, 0. rewrite !app_nil_r, !Nat.add_0_r.
    repeat split; try done; try (simpl; lia); apply sublist_nil_l.
  - exists [u], [p], 0, 0. rewrite !Nat.add_0_r.
    repeat split; try done; simpl; lia.
  - destruct Hsl as [[_ Hsl]|(Hp & _ & Hsl)].
    + destruct pause.
      * exists [u], [p], 1, 1.
        repeat split; try done; simpl; lia.
      * exists [u], [p], 1, 0. repeat split; try done; simpl; lia.
    + exists [u], [p], 1, 0. repeat split; try done; simpl; lia.
Qed.

Section Logs.

Variable env : Env.
Variable should_overwrite : bool.
Variable base_url : string.
Variable geojson_files : Catalog.

#[local] Abbreviation ftd := (files_to_download geojson_files).
#[local] Abbreviation process_entry :=
  (process_entry env should_overwrite base_url geojson_files).
#[local] Abbreviation download_loop :=
  (download_loop env should_overwrite base_url geojson_files).
#[local] Abbreviation dunder_main :=
  (dunder_main env should_overwrite base_url geojson_files).

(** The loop over a part of the catalog, entered at the index [k]. *)
Lemma loop_turns l : forall k s,
  let r := for_each process_entry (enumerate k l) s in
  exists lr lo a b,
    requests r.2 = requests s ++ lr /\ opened r.2 = opened s ++ lo /\
    success_count r.2 = success_count s + a /\ slept r.2 = slept s + b /\
    sublist lr (map (fun kv => base_url +:+ kv.1) l) /\
    sublist lo (map (fun kv => filepath_of kv.2) l) /\
    a <= length lo /\ length lo <= length lr /\ b <= a /\
    b <= length ftd - k.
Proof.
  induction l as [|[filename config] l IH]; intros k s; cbn [enumerate for_each].
  - exists [], [], 0, 0. cbn. rewrite !app_nil_r, !Nat.add_0_r.
    repeat split; try done; lia.
  - pose proof (process_entry_turn env should_overwrite base_url geojson_files
                  k filename config s) as Ht.
    cbv zeta in *. unfold bind.
    destruct (process_entry (k, (filename, config)) s) as [o s1].
    cbn [fst snd] in Ht.
    apply turn_counts in Ht
      as (lr1 & lo1 & a1 & b1 & Hr1 & Ho1 & Hsc1 & Hsl1 & Sr1 & So1 & ? & ? & ? & Hb1).
    assert (b1 <= length ftd - k) as Hbk.
    { destruct Hb1 as [->|[-> Hp]]; [lia|]. apply Nat.ltb_lt in Hp. lia. }
    destruct o as [[]|e].
    + destruct (IH (S k) s1)
        as (lr2 & lo2 & a2 & b2 & Hr2 & Ho2 & Hsc2 & Hsl2 & Sr2 & So2 & ? & ? & ? & ?).
      exists (lr1 ++ lr2), (lo1 ++ lo2), (a1 + a2), (b1 + b2).
      rewrite Hr2, Ho2, Hsc2, Hsl2, Hr1, Ho1, Hsc1, Hsl1, !length_app.
      cbn [map fst snd].
      split; [by rewrite <- app_assoc|]. split; [by rewrite <- app_assoc|].
      split; [lia|]. split; [lia|].
      split; [by apply (sublist_app lr1 [_] lr2)|].
      split; [by apply (sublist_app lo1 [_] lo2)|].
      destruct Hb1 as [->|[-> Hp%Nat.ltb_lt]]; repeat split; lia.
    + exists lr1, lo1, a1, b1. cbn [snd map fst].
      repeat split; try done.
      * eapply (sublist_app _ _ []) in Sr1; [|apply sublist_nil_l].
        rewrite app_nil_r in Sr1. exact Sr1.
      * eapply (sublist_app _ _ []) in So1; [|apply sublist_nil_l].
        rewrite app_nil_r in So1. exact So1.
Qed.

(** After the loop, the script only looks at the disk and prints lines that
    the loop does not print. *)
Lemma main_after_loop (R : relation State) `{!PreOrder R} s :
  (forall m, ~ loop_message m -> preserves R (print m)) ->
  (forall p, preserves R (os_path_exists env p)) ->
  R (download_loop (loop_start env geojson_files s)).2 (dunder_main s).2.
Proof.
  intros Hprint Hex. unfold dunder_main, try_clauses. rewrite download_unfold.
  set (s1 := loop_start env geojson_files s).
  assert (R (download_loop s1).2
            (bind download_loop (fun _ =>
               bind (summary env geojson_files) (fun _ =>
                 bind (print MsgComplete) (fun _ =>
                   bind (print MsgAllFinished) (fun _ => @sys_exit unit 0)))) s1).2)
    as Htail.
  { unfold bind at 1. destruct (download_loop s1) as [[[]|e] s2]; simpl; [|reflexivity].
    revert s2. change (preserves R
      (bind (summary env geojson_files) (fun _ =>
         bind (print MsgComplete) (fun _ =>
           bind (print MsgAllFinished) (fun _ => @sys_exit unit 0))))).
    apply preserves_bind; [done| |intros _].
    - apply summary_preserves; [done| |done].
      intros m Hm. apply Hprint. destruct m; simpl in *; tauto.
    - walk_with ltac:(apply Hprint; exact (fun H => H)). }
  destruct (bind download_loop _ s1) as [[[]|e] s2]; [done|].
  cbn [snd] in Htail. etransitivity; [exact Htail|].
  assert (forall a b c, ~ loop_message a -> ~ loop_message b ->
            preserves R (bind (print a) (fun _ => bind (print b) (fun _ =>
                           @sys_exit unit c)))) as Hh.
  { intros a b c Ha Hb. walk_with ltac:(apply Hprint; assumption). }
  destruct e; cbn [select_clause is_KeyboardInterrupt is_Exception];
    first [ exact (Hh MsgProcessInterrupted MsgExiting _ (fun H => H) (fun H => H) s2)
          | exact (Hh (MsgUnexpectedError _) MsgExiting _ (fun H => H) (fun H => H) s2)
          | reflexivity ].
Qed.

(** The logs and counters at the end of a run of the script, however the
    run ends. *)
Lemma run_logs dirs files :
  let s' := (dunder_main (initial_state dirs files)).2 in
  requests s' `sublist_of` map (fun kv => base_url +:+ kv.1) ftd /\
  opened s' `sublist_of` map (fun kv => filepath_of kv.2) ftd /\
  success_count s' <= length (opened s') /\
  length (opened s') <= length (requests s') /\
  slept s' <= success_count s' /\
  slept s' <= length ftd - 1.
Proof.
  cbv zeta.
  pose proof (main_after_loop idle (initial_state dirs files)) as Hid.
  destruct Hid as [(Hr & Ho & _ & Hsc & _) Hsl]; [intros; prim_idle..|].
  rewrite Hr, Ho, Hsc, Hsl. unfold download_loop.
  destruct (loop_turns ftd 1 (loop_start env geojson_files (initial_state dirs files)))
    as (lr & lo & a & b & -> & -> & -> & -> & Sr & So & ? & ? & ? & ?).
  cbn. repeat split; try done; lia.
Qed.

Lemma run_only_opened_change dirs files :
  only_opened_change env (initial_state dirs files)
    (dunder_main (initial_state dirs files)).2.
Proof.
  set (s1 := loop_start env geojson_files (initial_state dirs files)).
  transitivity (download_loop s1).2;
    [|apply (main_after_loop (only_opened_change env)); intros; prim_opened].
  transitivity s1; [by split|].
  apply (download_loop_preserves _ _ _ _ (only_opened_change env)); intros; prim_opened.
Qed.

Lemma run_fs_grows s : fs_grows s (dunder_main s).2.
Proof.
  set (s1 := loop_start env geojson_files s).
  transitivity (download_loop s1).2;
    [|apply (main_after_loop fs_grows); auto with run].
  transitivity s1; [by split|]. apply download_loop_fs_grows.
Qed.

End Logs.

(** Distinct keys give distinct URLs. *)
Lemma urls_NoDup base_url (l : Catalog) :
  NoDup (map fst l) -> NoDup (map (fun kv : string * Config => base_url +:+ kv.1) l).
Proof.
  intros H. change (NoDup ((fun kv : string * Config => base_url +:+ kv.1) <$> l)).
  replace ((fun kv : string * Config => base_url +:+ kv.1) <$> l)
    with (String.app base_url <$> (fst <$> l)).
  - apply NoDup_fmap_2; [apply _|done].
  - by rewrite <- list_fmap_compose.
Qed.

(** X1.  Whatever happens during a run, the URLs it requests are, in the
    order of the requests, a subsequence of the URLs of the enabled entries in
    catalog order, and the files it opens for writing are a subsequence of
    their destinations: nothing outside the enabled entries is requested or
    written, and nothing out of order.  The keys of a dictionary being
    distinct, no URL is requested twice. *)
Theorem transfers_follow_the_catalog env should_overwrite base_url geojson_files
    dirs files :
  let s' := (dunder_main env should_overwrite base_url geojson_files
               (initial_state dirs files)).2 in
  requests s' `sublist_of`
    map (fun kv => base_url +:+ kv.1) (files_to_download geojson_files) /\
  opened s' `sublist_of`
    map (fun kv => filepath_of kv.2) (files_to_download geojson_files) /\
  (NoDup (map fst geojson_files) -> NoDup (requests s')).
Proof.
  intros s'.
  destruct (run_logs env should_overwrite base_url geojson_files dirs files)
    as (Sr & So & _).
  split; [exact Sr|]. split; [exact So|].
  intros Hnd. eapply sublist_NoDup; [|exact Sr].
  by apply urls_NoDup, filter_keys_NoDup.
Qed.

(** X2.  At the end of any run the success count is at most the number of
    files opened for writing, which is at most the number of requests, which
    is at most the number [N] of enabled entries.  The run pauses at most
    once per counted success and at most [N - 1] times: never after the last
    entry. *)
Theorem counters_are_bounded env should_overwrite base_url geojson_files
    dirs files :
  let s' := (dunder_main env should_overwrite base_url geojson_files
               (initial_state dirs files)).2 in
  let N := length (files_to_download geojson_files) in
  success_count s' <= length (opened s') /\
  length (opened s') <= length (requests s') /\
  length (requests s') <= N /\
  slept s' <= success_count s' /\
  slept s' <= N - 1.
Proof.
  intros s' N.
  destruct (run_logs env should_overwrite base_url geojson_files dirs files)
    as (Sr & So & H1 & H2 & H3 & H4).
  repeat split; try done.
  apply sublist_length in Sr. by rewrite length_map in Sr.
Qed.

(** X3.  In a catalog with distinct keys, an entry whose [download] flag is
    false is dropped at line 194: no run requests its URL. *)
Theorem disabled_entry_is_never_requested env should_overwrite base_url
    geojson_files dirs files filename config :
  NoDup (map fst geojson_files) ->
  (filename, config) ∈ geojson_files ->
  download config = false ->
  (base_url +:+ filename) ∉
    requests (dunder_main env should_overwrite base_url geojson_files
                (initial_state dirs files)).2.
Proof.
  intros Hnd Hin Hoff Hreq.
  destruct (run_logs env should_overwrite base_url geojson_files dirs files)
    as (Sr & _).
  apply (elem_of_sublist _ _ _ Hreq) in Sr.
  apply list_elem_of_fmap in Sr as ([k c] & Hk & Hkc).
  apply (inj (String.app base_url)) in Hk. simpl in Hk. subst k.
  apply list_elem_of_filter in Hkc as [Hon Hkc]. simpl in Hon.
  assert (c = config) as -> by (by eapply unique_keys_same_value).
  rewrite Hoff in Hon. done.
Qed.

Lemma disabled_entry_is_never_requested_witness :
  NoDup (map fst one_disabled) /\
  ("z.geojson", mkConfig false "out" "z.geojson" None) ∈ one_disabled /\
  download (mkConfig false "out" "z.geojson" None) = false /\
  ("http://host/" +:+ "z.geojson") ∉
    requests (dunder_main env_serves_new true "http://host/" one_disabled
                (initial_state ∅ ∅)).2.
Proof.
  assert (NoDup (map fst one_disabled)) as H1
    by (apply (bool_decide_unpack _); vm_compute; exact I).
  assert (("z.geojson", mkConfig false "out" "z.geojson" None) ∈ one_disabled) as H2
    by (right; left).
  split; [exact H1|]. split; [exact H2|]. split; [reflexivity|].
  exact (disabled_entry_is_never_requested env_serves_new true "http://host/"
           one_disabled ∅ ∅ "z.geojson" _ H1 H2 eq_refl).
Defined.

(** * What a destination holds after a run *)

Lemma NoDup_fmap_eq {A B} (f : A -> B) (l : list A) x y :
  NoDup (map f l) -> x ∈ l -> y ∈ l -> f x = f y -> x = y.
Proof.
  induction l as [|z l IH]; [by intros _ ?%elem_of_nil|].
  cbn [map]. intros [Hz Hnd]%NoDup_cons Hx Hy Hf.
  apply elem_of_cons in Hx as [->|Hx], Hy as [->|Hy]; auto.
  - destruct Hz. rewrite Hf. by apply (list_elem_of_fmap_2 f).
  - destruct Hz. rewrite <- Hf. by apply (list_elem_of_fmap_2 f).
Qed.

(** X4.  When no two enabled entries have destinations that lead to the
    same file, under whatever spelling, the file the destination of an
    enabled entry leads to holds at the end of any run, completed or not,
    either what it held before the run or the whole body of a response to the
    entry's own URL that [raise_for_status] accepted; unless the write to it
    is cut short. *)
Theorem destination_holds_old_or_fetched_body env should_overwrite base_url
    geojson_files dirs files filename config :
  NoDup (map (fun kv => resolve env (filepath_of kv.2))
             (files_to_download geojson_files)) ->
  (filename, config) ∈ files_to_download geojson_files ->
  (forall n msg, write_fault env (filepath_of config) <> Some (WriteFails n msg)) ->
  let s' := (dunder_main env should_overwrite base_url geojson_files
               (initial_state dirs files)).2 in
  fs_files s' !! resolve env (filepath_of config)
    = files !! resolve env (filepath_of config) \/
  exists r, http_get env (base_url +:+ filename) = Responded r /\
            ~ (400 <= status_code r < 600)%Z /\
            fs_files s' !! resolve env (filepath_of config) = Some (content r).
Proof.
  intros Hnd Hin Hw s'. subst s'.
  set (k := resolve env (filepath_of config)).
  set (Inv := fun s : State =>
    fs_files s !! k = files !! k \/
    exists r, http_get env (base_url +:+ filename) = Responded r /\
              ~ (400 <= status_code r < 600)%Z /\
              fs_files s !! k = Some (content r)).
  set (s1 := loop_start env geojson_files (initial_state dirs files)).
  assert (Inv (download_loop env should_overwrite base_url geojson_files s1).2) as H.
  { unfold download_loop. apply for_each_invariant; [|by left].
    intros [i [f' c']] Hitem s Hs. apply enumerate_elem_of in Hitem.
    destruct (decide (resolve env (filepath_of c') = k)) as [Hp|Hp].
    - assert ((f', c') = (filename, config)) as [= -> ->]
        by (eapply (NoDup_fmap_eq
                      (fun kv : string * Config => resolve env (filepath_of kv.2)));
            eauto).
      pose proof (process_entry_turn env should_overwrite base_url geojson_files
                    i filename config s) as Ht. cbv zeta in Ht.
      destruct (process_entry env should_overwrite base_url geojson_files
                  (i, (filename, config)) s) as [o s2].
      cbn [fst snd] in *. unfold Inv in *.
      destruct Ht as [o s2 [(_ & _ & Hf & _) _] _
                     |o s2 _ _ Hf _ _ _
                     |r msg s2 _ _ _ _ _ _ [Hf|(n & Hn & _)]
                     |r o s2 Hget Hok _ _ Hf _ _].
      + by rewrite Hf.
      + by rewrite Hf.
      + by rewrite Hf.
      + by destruct (Hw n msg).
      + right. exists r. split; [done|]. split.
        * intros Hr. apply (http_error_msg_range (base_url +:+ filename)) in Hr
            as [m Hm]. congruence.
        * by rewrite Hf, lookup_insert_eq.
    - pose proof (process_entry_touches_only env should_overwrite base_url
                    geojson_files i f' c' s) as (_ & _ & Hf).
      unfold Inv in *. rewrite Hf by done. exact Hs. }
  destruct (main_after_loop env should_overwrite base_url geojson_files idle
              (initial_state dirs files)) as [(_ & _ & Hf & _) _];
    [intros; prim_idle..|].
  fold s1 in Hf. unfold Inv in H. by rewrite Hf.
Qed.

Lemma destination_holds_old_or_fetched_body_witness :
  let s' := (dunder_main env_serves_new true "http://host/" two_entries
               (initial_state ∅ ∅)).2 in
  NoDup (map (fun kv : string * Config => resolve env_serves_new (filepath_of kv.2))
             (files_to_download two_entries)) /\
  entry_a ∈ files_to_download two_entries /\
  (forall n msg, write_fault env_serves_new (filepath_of entry_a.2)
                 <> Some (WriteFails n msg)) /\
  (fs_files s' !! resolve env_serves_new (filepath_of entry_a.2)
     = (∅ : gmap string bytes) !! resolve env_serves_new (filepath_of entry_a.2) \/
   exists r, http_get env_serves_new ("http://host/" +:+ "a.geojson") = Responded r /\
             ~ (400 <= status_code r < 600)%Z /\
             fs_files s' !! resolve env_serves_new (filepath_of entry_a.2)
             = Some (content r)).
Proof.
  intros s'.
  assert (NoDup (map (fun kv : string * Config =>
                        resolve env_serves_new (filepath_of kv.2))
                     (files_to_download two_entries))) as H1
    by (apply (bool_decide_unpack _); vm_compute; exact I).
  assert (entry_a ∈ files_to_download two_entries) as H2 by (vm_compute; left).
  assert (forall n msg, write_fault env_serves_new (filepath_of entry_a.2)
                        <> Some (WriteFails n msg)) as H3 by (intros n msg; discriminate).
  split; [exact H1|]. split; [exact H2|]. split; [exact H3|].
  exact (destination_holds_old_or_fetched_body env_serves_new true "http://host/"
           two_entries ∅ ∅ "a.geojson" entry_a.2 H1 H2 H3).
Defined.

(** * The handlers of [__main__] *)

Section Handlers.

Variable env : Env.
Variable should_overwrite : bool.
Variable base_url : string.
Variable geojson_files : Catalog.

#[local] Abbreviation download_geojson_files :=
  (download_geojson_files env should_overwrite base_url geojson_files).
#[local] Abbreviation dunder_main :=
  (dunder_main env should_overwrite base_url geojson_files).

(** What [__main__] adds to a call of [download_geojson_files]: the two lines
    of the handler that caught its exception, if one did, and the final
    [sys.exit]. *)
Lemma main_handlers s :
  same_failed (download_geojson_files s).2 (dunder_main s).2 /\
  emits handler_line (download_geojson_files s).2 (dunder_main s).2 /\
  exists code, (dunder_main s).1 = Raise (SystemExit code) /\ (code = 0 \/ code = 1)%Z.
Proof.
  pose proof (download_outcome env should_overwrite base_url geojson_files s) as H.
  unfold dunder_main, try_clauses.
  destruct (download_geojson_files s) as [[[]|e] s1]; [done|].
  destruct e as [msg|msg|msg| |code]; cbn.
  1-4: split; [done|]; split; [|eauto];
       eexists; split; [by rewrite <- app_assoc|]; by repeat constructor.
  destruct H as [-> _]. split; [done|]. split; [reflexivity|eauto].
Qed.

End Handlers.

Lemma body_message_reachable m : body_message m -> ~ unreachable_line m.
Proof. destruct m; simpl; tauto. Qed.

Lemma handler_line_reachable m : handler_line m -> ~ unreachable_line m.
Proof. destruct m; simpl; tauto. Qed.


(** X6.  Whatever fails during a run, [failed_files] is empty at its end
    and the lines at 261 and 263 are never printed: nothing appends to the
    list. *)
Theorem no_run_reports_a_failed_file env should_overwrite base_url
    geojson_files dirs files :
  let s' := (dunder_main env should_overwrite base_url geojson_files
               (initial_state dirs files)).2 in
  failed_files s' = [] /\
  forall m, m ∈ stdout s' -> ~ failed_report m.
Proof.
  intros s'. subst s'.
  destruct (main_handlers env should_overwrite base_url geojson_files
              (initial_state dirs files)) as (Hf & Hh & _).
  destruct (failure_list_stays_empty env should_overwrite base_url geojson_files
              (initial_state dirs files)) as [Hff Hrep].
  split; [unfold same_failed in Hf; congruence|].
  intros m Hm Hfr.
  destruct (emits_stdout_elem _ _ _ _ Hh Hm) as [Hin|Hl].
  - apply Hrep in Hin; [|done]. by apply elem_of_nil in Hin.
  - destruct m; simpl in *; tauto.
Qed.

(** * Directories announced, recorded and made *)

Lemma quiet_lines_announce_nothing out :
  Forall not_announcement out -> omap announced_dir out = [].
Proof.
  induction 1 as [|m out Hm _ IH]; [done|]. unfold not_announcement in Hm.
  destruct m; cbn in *; first [discriminate Hm|exact IH].
Qed.

Lemma dirs_recorded_quiet env s s' :
  emits not_announcement s s' -> same_dirs s s' ->
  dirs_recorded env s -> dirs_recorded env s'.
Proof.
  intros (out & E & F) [Hd Hc] (Hnd & Ha & Hsub). unfold dirs_recorded, announced in *.
  pose proof (quiet_lines_announce_nothing out F) as Hout.
  rewrite E, omap_app, Hout, app_nil_r, Hc. split; [done|]. split; [done|].
  intros d Hin. rewrite (is_dir_same env s) by done. by apply Hsub.
Qed.

Section Announcements.

Variable env : Env.
Variable should_overwrite : bool.
Variable base_url : string.
Variable geojson_files : Catalog.

#[local] Abbreviation process_entry :=
  (process_entry env should_overwrite base_url geojson_files).
#[local] Abbreviation ftd := (files_to_download geojson_files).

Lemma ensure_directory_recorded config s :
  dirs_recorded env s -> dirs_recorded env (ensure_directory env config s).2.
Proof.
  intros (Hnd & Ha & Hsub). unfold ensure_directory, bind, get_state.
  destruct (bool_decide (directory config ∈ created_dirs s)) eqn:E; [done|].
  apply bool_decide_eq_false in E.
  destruct (makedirs_effect env (directory config) s) as (Ho & Hc & Hg & Hd).
  destruct (os_makedirs env (directory config) s) as [[[]|e] s2]; cbn in *.
  - unfold dirs_recorded, announced in *. cbn. rewrite Ho, Hc, omap_app. cbn.
    split; [|split].
    + apply NoDup_app. split; [done|]. split; [|apply NoDup_singleton].
      intros d Hin ->%list_elem_of_singleton. by apply E, Ha.
    + intros d. rewrite elem_of_app, list_elem_of_singleton, Ha. set_solver.
    + specialize (Hd eq_refl).
      intros d [Hin| ->%elem_of_singleton]%elem_of_union;
        rewrite (is_dir_same env s2) by reflexivity; [|done].
      eapply is_dir_mono; [exact Hg|by apply Hsub].
  - unfold dirs_recorded, announced in *. rewrite Ho, Hc.
    split; [done|]. split; [done|].
    intros d Hin. eapply is_dir_mono; [exact Hg|by apply Hsub].
Qed.

Lemma after_ensure_preserves (R : relation State) `{!PreOrder R} i filename config :
  (forall m, not_announcement m -> preserves R (print m)) ->
  (forall p, preserves R (os_path_exists env p)) ->
  (forall u, preserves R (requests_get env u)) ->
  (forall u r, preserves R (raise_for_status u r)) ->
  (forall p b, preserves R (write_file env p b)) ->
  preserves R incr_success_count ->
  preserves R (time_sleep env) ->
  preserves R
    (try_clauses
       (bind (os_path_exists env (filepath_of config)) (fun present =>
          if present && negb (file_should_overwrite should_overwrite config)
          then print (MsgSkip i (length ftd) filename)
          else fetch_and_save env base_url geojson_files i filename config))
       [(is_RequestException, fun e => print (MsgErrorDownload (exn_str e)))]).
Proof.
  intros Hprint **. apply preserves_try_clauses; [done| |].
  - unfold fetch_and_save. walk_with ltac:(first [done|by apply Hprint]).
  - intros e h (msg & -> & ->)%select_request_clause. by apply Hprint.
Qed.

Lemma process_entry_recorded item s :
  dirs_recorded env s -> dirs_recorded env (process_entry item s).2.
Proof.
  destruct item as [i [filename config]]. intros Hs.
  simpl. unfold try_body. rewrite try_clauses_bind.
  pose proof (ensure_directory_recorded config s Hs) as H1.
  pose proof (ensure_directory_raises env config s) as Hr.
  destruct (ensure_directory env config s) as [[[]|e] s1]; cbn [snd] in H1.
  - eapply dirs_recorded_quiet; [| |exact H1].
    + apply (after_ensure_preserves (emits not_announcement)); auto with run.
      intros m Hm. by apply print_emits.
    + apply after_ensure_same_dirs.
  - destruct (Hr e eq_refl) as [msg ->]. exact H1.
Qed.

Lemma run_dirs_recorded dirs files :
  dirs_recorded env
    (dunder_main env should_overwrite base_url geojson_files
       (initial_state dirs files)).2.
Proof.
  set (s1 := loop_start env geojson_files (initial_state dirs files)).
  assert (dirs_recorded env
            (download_loop env should_overwrite base_url geojson_files s1).2)
    as H.
  { unfold download_loop. apply for_each_invariant.
    - intros item _ s. apply process_entry_recorded.
    - split; [apply NoDup_nil_2|]. split; [|intros d Hd; by apply elem_of_empty in Hd].
      intros d. cbn. set_solver. }
  eapply dirs_recorded_quiet; [| |exact H].
  - apply (main_after_loop env should_overwrite base_url geojson_files
             (emits not_announcement)); auto with run.
    intros m Hm. apply print_emits. by destruct m.
  - apply (main_after_loop env should_overwrite base_url geojson_files same_dirs);
      intros; prim_dirs.
Qed.

End Announcements.

#[local] Instance dirs_within_preorder P : PreOrder (dirs_within P).
Proof.
  split; [intros s H; exact H|].
  intros s1 s2 s3 H12 H23 H. by apply H23, H12.
Qed.

#[local] Instance created_within_preorder P : PreOrder (created_within P).
Proof.
  split; [intros s H; exact H|].
  intros s1 s2 s3 H12 H23 H. by apply H23, H12.
Qed.

Ltac prim_within :=
  prim_cases; unfold dirs_within, created_within; cbn;
  try (let H := fresh in intros H; exact H).

Lemma makedirs_dirs_within env (P : string -> Prop) d :
  (forall x, x ∈ map (resolve env) (d :: PyStr.ancestors d) -> P x) ->
  preserves (dirs_within P) (os_makedirs env d).
Proof.
  intros Hd s. unfold os_makedirs, dirs_within.
  repeat case_match; cbn [snd fs_dirs with_fs];
    try (let G := fresh in intros G; exact G).
  intros Hs x. rewrite elem_of_union, elem_of_list_to_set.
  intros [Hx|Hx]; [by apply Hs|by apply Hd].
Qed.

Lemma add_dir_created_within (P : string -> Prop) d :
  P d -> preserves (created_within P) (add_created_dir d).
Proof.
  intros Hd. prim_within. intros Hs x.
  rewrite elem_of_union, elem_of_singleton. intros [Hx| ->]; auto.
Qed.

Section Within.

Variable env : Env.
Variable should_overwrite : bool.
Variable base_url : string.
Variable geojson_files : Catalog.

#[local] Abbreviation process_entry :=
  (process_entry env should_overwrite base_url geojson_files).
#[local] Abbreviation ftd := (files_to_download geojson_files).

Lemma process_entry_dirs_within (P : string -> Prop) i filename config :
  (forall x, x ∈ made_names env config -> P x) ->
  preserves (dirs_within P) (process_entry (i, (filename, config))).
Proof.
  intros Hd. simpl. apply preserves_try_clauses; [typeclasses eauto| |].
  - unfold try_body, ensure_directory, fetch_and_save.
    walk_with ltac:(first [by apply makedirs_dirs_within | prim_within]).
  - intros e h (msg & -> & ->)%select_request_clause. prim_within.
Qed.

Lemma process_entry_created_within (P : string -> Prop) i filename config :
  P (directory config) ->
  preserves (created_within P) (process_entry (i, (filename, config))).
Proof.
  intros Hd. simpl. apply preserves_try_clauses; [typeclasses eauto| |].
  - unfold try_body, ensure_directory, fetch_and_save.
    walk_with ltac:(first [by apply add_dir_created_within | prim_within]).
  - intros e h (msg & -> & ->)%select_request_clause. prim_within.
Qed.

(** The run makes no directory but those of the enabled entries and their
    ancestors. *)
Lemma run_dirs_within dirs files x :
  x ∈ fs_dirs (dunder_main env should_overwrite base_url geojson_files
                 (initial_state dirs files)).2 ->
  x ∈ dirs \/ exists kv, kv ∈ ftd /\ x ∈ made_names env kv.2.
Proof.
  set (P := fun x => x ∈ dirs \/ exists kv, kv ∈ ftd /\ x ∈ made_names env kv.2).
  set (s1 := loop_start env geojson_files (initial_state dirs files)).
  assert (dirs_within P s1
            (dunder_main env should_overwrite base_url geojson_files
               (initial_state dirs files)).2) as H.
  { transitivity (download_loop env should_overwrite base_url geojson_files s1).2.
    - unfold download_loop. apply preserves_for_each; [typeclasses eauto|].
      intros [i [filename config]] Hin%enumerate_elem_of.
      apply process_entry_dirs_within. intros y Hy. right.
      by exists (filename, config).
    - apply (main_after_loop env should_overwrite base_url geojson_files
               (dirs_within P)); intros; prim_within. }
  apply H. intros y Hy. by left.
Qed.

(** The run records no directory but those of the enabled entries. *)
Lemma run_created_within dirs files :
  created_dirs (dunder_main env should_overwrite base_url geojson_files
                  (initial_state dirs files)).2 ⊆ wanted_dirs ftd.
Proof.
  set (P := fun x => x ∈ wanted_dirs ftd).
  set (s1 := loop_start env geojson_files (initial_state dirs files)).
  assert (created_within P s1
            (dunder_main env should_overwrite base_url geojson_files
               (initial_state dirs files)).2) as H.
  { transitivity (download_loop env should_overwrite base_url geojson_files s1).2.
    - unfold download_loop. apply preserves_for_each; [typeclasses eauto|].
      intros [i [filename config]] Hin%enumerate_elem_of.
      apply process_entry_created_within. unfold P, wanted_dirs.
      apply elem_of_list_to_set.
      by apply (list_elem_of_fmap_2 (fun kv : string * Config => directory kv.2)) in Hin.
    - apply (main_after_loop env should_overwrite base_url geojson_files
               (created_within P)); intros; prim_within. }
  intros x Hx. apply (H ltac:(set_solver) x Hx).
Qed.

End Within.


(** X8.  A run removes no directory and no file.  A file that the
    destination of no enabled entry leads to, under whatever spelling, holds
    afterwards what it held before (or is still absent), and every directory
    found afterwards was there before or is the directory of an enabled entry
    or one of its ancestors. *)
Theorem run_changes_only_enabled_destinations env should_overwrite base_url
    geojson_files dirs files :
  let s' := (dunder_main env should_overwrite base_url geojson_files
               (initial_state dirs files)).2 in
  dirs ⊆ fs_dirs s' /\
  dom files ⊆ dom (fs_files s') /\
  (forall k, (forall kv, kv ∈ files_to_download geojson_files ->
                         resolve env (filepath_of kv.2) <> k) ->
             fs_files s' !! k = files !! k) /\
  (forall x, x ∈ fs_dirs s' ->
             x ∈ dirs \/
             exists kv, kv ∈ files_to_download geojson_files /\
                        x ∈ made_names env kv.2).
Proof.
  intros s'.
  destruct (run_fs_grows env should_overwrite base_url geojson_files
              (initial_state dirs files)) as [Hd Hf].
  split; [exact Hd|]. split; [exact Hf|]. split; [|apply run_dirs_within].
  intros k Hk.
  destruct (run_only_opened_change env should_overwrite base_url geojson_files
              dirs files) as [_ Hc].
  apply Hc. intros q Hin.
  destruct (run_logs env should_overwrite base_url geojson_files dirs files)
    as (_ & So & _).
  apply (elem_of_sublist _ _ _ Hin) in So.
  apply list_elem_of_fmap in So as (kv & -> & Hkv). by apply (Hk kv).
Qed.

(** * The success count *)

#[local] Instance counted_preorder : PreOrder counted.
Proof.
  split.
  - intros s. exists []. rewrite app_nil_r. cbn. split; [done|lia].
  - intros s1 s2 s3 (o1 & E1 & C1) (o2 & E2 & C2). exists (o1 ++ o2).
    rewrite E2, E1, C2, C1, omap_app, length_app, <- app_assoc. split; [done|lia].
Qed.

Ltac prim_counted :=
  prim_cases; unfold counted; cbn;
  first [ exists []; rewrite app_nil_r; cbn; split; [done|lia]
        | eexists; split; [reflexivity|]; cbn; lia ].

Lemma print_counted m : success_size m = None -> preserves counted (print m).
Proof.
  intros Hm s. exists [m]. split; [done|]. cbn. rewrite Hm. cbn. lia.
Qed.

Section Counted.

Variable env : Env.
Variable should_overwrite : bool.
Variable base_url : string.
Variable geojson_files : Catalog.

#[local] Abbreviation process_entry :=
  (process_entry env should_overwrite base_url geojson_files).
#[local] Abbreviation ftd := (files_to_download geojson_files).

(** The success line and the increment of the counter go together: nothing
    between them can raise. *)
Lemma success_counted c size (k : M unit) :
  preserves counted k ->
  preserves counted (bind (print (MsgSuccess c size)) (fun _ =>
                       bind incr_success_count (fun _ => k))).
Proof.
  intros Hk s. unfold bind, print, incr_success_count, modify. cbn [fst snd].
  etransitivity; [|apply Hk].
  exists [MsgSuccess c size]. cbn. split; [done|lia].
Qed.

Lemma process_entry_counted item : preserves counted (process_entry item).
Proof.
  destruct item as [i [filename config]]. simpl.
  apply preserves_try_clauses; [typeclasses eauto| |].
  - unfold try_body, ensure_directory, fetch_and_save.
    repeat first
      [ apply success_counted
      | apply preserves_ret; solve [typeclasses eauto]
      | apply preserves_get_state; solve [typeclasses eauto]
      | solve [apply print_counted; reflexivity]
      | solve [prim_counted]
      | apply preserves_bind; [typeclasses eauto| |intros ?]
      | apply preserves_if ].
  - intros e h (msg & -> & ->)%select_request_clause. by apply print_counted.
Qed.

End Counted.

(** * The summary *)

Lemma with_stdout_same s : with_stdout (stdout s ++ []) s = s.
Proof. destruct s. unfold with_stdout. cbn. by rewrite app_nil_r. Qed.

Lemma prints_print m : prints (print m) (fun _ => [m]).
Proof. by split. Qed.

Lemma prints_bind (m k : M unit) f g :
  prints m f -> prints k g -> prints (bind m (fun _ => k)) (fun s => f s ++ g s).
Proof.
  intros [Hm Hf] [Hk Hg]. split.
  - intros s. unfold bind. rewrite Hm, Hk, Hg. f_equal.
    unfold with_stdout at 1 3. cbn [stdout fs_dirs fs_files requests opened slept
      success_count failed_files created_dirs with_stdout].
    by rewrite <- app_assoc.
  - intros o s. by rewrite Hf, Hg.
Qed.

Lemma prints_get_state (k : State -> M unit) (f : State -> State -> list Message) :
  (forall s0, prints (k s0) (f s0)) ->
  (forall o s, f (with_stdout o s) = f s) ->
  prints (bind get_state k) (fun s => f s s).
Proof.
  intros Hk Hf. split.
  - intros s. unfold bind, get_state. apply Hk.
  - intros o s. rewrite Hf. apply Hk.
Qed.

Lemma prints_for_each {A} (line : State -> A -> Message) (body : A -> M unit) l :
  (forall x, x ∈ l -> prints (body x) (fun s => [line s x])) ->
  prints (for_each body l) (fun s => map (line s) l).
Proof.
  induction l as [|x l IH]; intros Hb; cbn [for_each map].
  - split; [|done]. intros s. unfold ret. by rewrite with_stdout_same.
  - apply (prints_bind _ _ (fun s => [line s x])).
    + apply Hb. left.
    + apply IH. intros y Hy. apply Hb. by right.
Qed.

Lemma prints_report_failed : prints report_failed failed_lines.
Proof.
  split; [|done]. intros s. unfold report_failed, failed_lines, bind, get_state.
  destruct (failed_files s) as [|f ff] eqn:E.
  - unfold ret. by rewrite with_stdout_same.
  - unfold print at 1, modify. rewrite (for_each_print MsgFailedItem).
    unfold with_stdout. cbn. by rewrite <- app_assoc.
Qed.

Lemma prints_report_directories geojson_files :
  prints (report_directories geojson_files)
    (fun s => map (directory_line (files_to_download geojson_files))
                  (sorted_strings (elements (created_dirs s)))).
Proof. split; [|done]. intros s. apply report_directories_output. Qed.

Lemma prints_report_coastlines env geojson_files :
  prints (report_coastlines env geojson_files)
    (fun s => map (coastline_line env (files_to_download geojson_files) s)
                  (coastline_keys (files_to_download geojson_files))).
Proof.
  unfold report_coastlines.
  apply (prints_for_each (coastline_line env (files_to_download geojson_files))).
  intros cf Hcf. apply list_elem_of_filter in Hcf as [_ Hcf].
  unfold coastline_line. apply dict_get_key in Hcf as [config ->].
  split; [|done]. intros s.
  unfold bind, os_path_exists. by destruct (path_exists env (filepath_of config) s).
Qed.

(** The summary prints its lines and does nothing else; in particular the
    lookup at line 277 always finds its key. *)
Lemma prints_summary env geojson_files :
  prints (summary env geojson_files)
    (summary_lines env (files_to_download geojson_files)).
Proof.
  unfold summary.
  apply (prints_bind _ _ (fun _ => [MsgDownloadComplete])); [apply prints_print|].
  apply (prints_get_state _ (fun s0 s =>
           [MsgSuccessCount (success_count s0)
              (length (files_to_download geojson_files))] ++ _)); [|done].
  intros s0.
  apply (prints_bind _ _ (fun _ => [_])); [apply prints_print|].
  apply prints_bind; [apply prints_report_failed|].
  apply (prints_bind _ _ (fun _ => [_])); [apply prints_print|].
  apply (prints_bind _ _ (fun _ => [_])); [apply prints_print|].
  apply prints_bind; [apply prints_report_directories|].
  apply (prints_bind _ _ (fun _ => [_])); [apply prints_print|].
  apply prints_report_coastlines.
Qed.

Lemma summary_exact env geojson_files s :
  summary env geojson_files s =
  (Ok tt,
   with_stdout (stdout s ++ summary_lines env (files_to_download geojson_files) s) s).
Proof. apply prints_summary. Qed.

Lemma dict_get_elem k v (d : Catalog) :
  NoDup (map fst d) -> (k, v) ∈ d -> dict_get k d = Some v.
Proof.
  induction d as [|[k' v'] d IH]; [by intros _ ?%elem_of_nil|].
  cbn [map fst dict_get]. intros [Hk Hnd]%NoDup_cons [[= -> ->]|Hin]%elem_of_cons.
  - by rewrite String.eqb_refl.
  - destruct (String.eqb_spec k' k) as [->|Hne]; [|by apply IH].
    destruct Hk. by apply (list_elem_of_fmap_2 fst) in Hin.
Qed.

Lemma failed_lines_elem m s : m ∈ failed_lines s -> failed_report m.
Proof.
  unfold failed_lines. destruct (failed_files s) as [|f ff]; [by intros ?%elem_of_nil|].
  intros [->|(x & -> & _)%list_elem_of_fmap]%elem_of_cons; exact I.
Qed.

(** Where a line can sit in the summary. *)
Lemma summary_lines_elem env l s m :
  m ∈ summary_lines env l s <->
  m = MsgDownloadComplete \/ m = MsgSuccessCount (success_count s) (length l) \/
  m ∈ failed_lines s \/
  m = MsgOrganizedUnder (cwd env) \/ m = MsgDirectoryStructure \/
  (exists d, d ∈ sorted_strings (elements (created_dirs s)) /\
             m = directory_line l d) \/
  m = MsgKeyCoastline \/
  (exists cf, cf ∈ coastline_keys l /\ m = coastline_line env l s cf).
Proof.
  unfold summary_lines.
  rewrite !elem_of_app, !elem_of_cons, !list_elem_of_fmap.
  setoid_rewrite elem_of_nil. naive_solver.
Qed.

Lemma coastline_line_cases env l s cf :
  coastline_line env l s cf = MsgCoastlineSuccess cf \/
  coastline_line env l s cf = MsgCoastlineMissing cf.
Proof. unfold coastline_line. repeat case_match; auto. Qed.

Lemma summary_lines_coastline env l s filename config :
  NoDup (map fst l) -> (filename, config) ∈ l ->
  PyStr.contains "coastline" filename = true ->
  (MsgCoastlineSuccess filename ∈ summary_lines env l s <->
   path_exists env (filepath_of config) s = true) /\
  (MsgCoastlineMissing filename ∈ summary_lines env l s <->
   path_exists env (filepath_of config) s = false).
Proof.
  intros Hnd Hin Hc.
  assert (filename ∈ coastline_keys l) as Hkey.
  { unfold coastline_keys. apply list_elem_of_filter. split; [by apply Is_true_true|].
    by apply (list_elem_of_fmap_2 fst) in Hin. }
  assert (coastline_line env l s filename =
          if path_exists env (filepath_of config) s then MsgCoastlineSuccess filename
          else MsgCoastlineMissing filename) as Hline.
  { unfold coastline_line. by rewrite (dict_get_elem _ _ _ Hnd Hin). }
  assert (forall m, (m = MsgCoastlineSuccess filename \/ m = MsgCoastlineMissing filename) ->
            m ∈ summary_lines env l s <-> m = coastline_line env l s filename) as Hiff.
  { intros m Hm. rewrite summary_lines_elem. split.
    - intros [?|[?|[Hf|[?|[?|[(d & _ & ?)|[?|(cf & _ & Hcf)]]]]]]];
        try (destruct Hm; unfold directory_line in *; congruence).
      + apply failed_lines_elem in Hf. by destruct Hm as [-> | ->].
      + assert (cf = filename) as ->; [|done].
        destruct (coastline_line_cases env l s cf), Hm; congruence.
    - intros ->. do 7 right. by exists filename. }
  split.
  - rewrite Hiff by auto. rewrite Hline.
    destruct (path_exists env (filepath_of config) s); split; congruence.
  - rewrite Hiff by auto. rewrite Hline.
    destruct (path_exists env (filepath_of config) s); split; congruence.
Qed.

Lemma summary_lines_success_count env l s k n :
  MsgSuccessCount k n ∈ summary_lines env l s <->
  k = success_count s /\ n = length l.
Proof.
  rewrite summary_lines_elem. split.
  - intros [?|[?|[Hf|[?|[?|[(d & _ & ?)|[?|(cf & _ & Hcf)]]]]]]];
      unfold directory_line in *; try congruence.
    + by simplify_eq.
    + by apply failed_lines_elem in Hf.
    + destruct (coastline_line_cases env l s cf); congruence.
  - intros [-> ->]. auto.
Qed.

Section Completed.

Variable env : Env.
Variable should_overwrite : bool.
Variable base_url : string.
Variable geojson_files : Catalog.

#[local] Abbreviation ftd := (files_to_download geojson_files).
#[local] Abbreviation download_loop :=
  (download_loop env should_overwrite base_url geojson_files).
#[local] Abbreviation dunder_main :=
  (dunder_main env should_overwrite base_url geojson_files).

(** A run that prints the closing banner went through the whole loop and
    the summary. *)
Lemma completed_run dirs files :
  MsgComplete ∈ stdout (dunder_main (initial_state dirs files)).2 ->
  exists lo s2,
    download_loop (loop_start env geojson_files (initial_state dirs files))
      = (Ok tt, s2) /\
    stdout s2 = [MsgStarting (length ftd); MsgBaseDirectory (cwd env);
                 MsgOrganizedByCategory] ++ lo /\
    Forall loop_message lo /\
    dunder_main (initial_state dirs files) =
      (Raise (SystemExit 0),
       with_stdout (stdout s2 ++ summary_lines env ftd s2 ++
                    [MsgComplete; MsgAllFinished]) s2).
Proof.
  unfold dunder_main, try_clauses. rewrite download_unfold.
  set (s1 := loop_start env geojson_files (initial_state dirs files)).
  pose proof (download_loop_emits env should_overwrite base_url geojson_files s1)
    as (lo & Elo & Flo).
  pose proof (download_loop_not_exit env should_overwrite base_url geojson_files s1)
    as Hne.
  destruct (download_loop s1) as [[[]|e] s2] eqn:Hloop; cbn [snd] in *.
  - intros _. exists lo, s2. split; [done|]. split; [exact Elo|]. split; [done|].
    rewrite (bind_Ok _ _ _ _ _ Hloop),
            (bind_Ok _ _ _ _ _ (summary_exact env geojson_files s2)).
    unfold bind, print, modify, sys_exit, raise. cbn [select_clause is_KeyboardInterrupt
      is_Exception fst snd]. f_equal.
    unfold with_stdout. cbn [stdout fs_dirs fs_files requests opened slept
      success_count failed_files created_dirs]. by rewrite <- !app_assoc.
  - specialize (Hne e eq_refl). rewrite (bind_Raise _ _ _ _ _ Hloop).
    intros Hin. exfalso.
    assert (forall out, Forall handler_line out ->
              MsgComplete ∈ stdout s2 ++ out -> False) as Hno.
    { intros out Fout [H|H]%elem_of_app.
      - rewrite Elo in H. apply elem_of_app in H as [H|H].
        + cbn in H. set_unfold in H. by destruct_or!.
        + rewrite Forall_forall in Flo. exact (Flo _ H).
      - rewrite Forall_forall in Fout. exact (Fout _ H). }
    destruct e; cbn in Hin; try done.
    + apply (Hno [MsgUnexpectedError msg; MsgExiting]); [by repeat constructor|].
      by rewrite <- app_assoc in Hin.
    + apply (Hno [MsgUnexpectedError msg; MsgExiting]); [by repeat constructor|].
      by rewrite <- app_assoc in Hin.
    + apply (Hno [MsgUnexpectedError msg; MsgExiting]); [by repeat constructor|].
      by rewrite <- app_assoc in Hin.
    + apply (Hno [MsgProcessInterrupted; MsgExiting]); [by repeat constructor|].
      by rewrite <- app_assoc in Hin.
Qed.

Lemma run_counted dirs files :
  counted (loop_start env geojson_files (initial_state dirs files))
    (dunder_main (initial_state dirs files)).2.
Proof.
  set (s1 := loop_start env geojson_files (initial_state dirs files)).
  transitivity (download_loop s1).2.
  - unfold download_loop. apply preserves_for_each; [typeclasses eauto|].
    intros item _. apply process_entry_counted.
  - apply (main_after_loop env should_overwrite base_url geojson_files counted).
    + intros m Hm. apply print_counted. by destruct m.
    + intros p. prim_counted.
Qed.

End Completed.

(** X9.  At the end of any run the success count equals the number of
    per-file success lines on the console; and when the run printed its
    closing banner, the console holds a line with the totals, and every such
    line shows that count and the number of enabled entries. *)
Theorem success_total_matches_success_lines env should_overwrite base_url
    geojson_files dirs files :
  let s' := (dunder_main env should_overwrite base_url geojson_files
               (initial_state dirs files)).2 in
  success_count s' = length (omap success_size (stdout s')) /\
  (MsgComplete ∈ stdout s' ->
   forall k n, MsgSuccessCount k n ∈ stdout s' <->
               k = success_count s' /\ n = length (files_to_download geojson_files)).
Proof.
  intros s'. subst s'. split.
  - destruct (run_counted env should_overwrite base_url geojson_files dirs files)
      as (out & -> & ->). by rewrite omap_app.
  - intros Hc k n.
    destruct (completed_run env should_overwrite base_url geojson_files dirs files Hc)
      as (lo & s2 & _ & Elo & Flo & ->).
    cbn [snd stdout success_count with_stdout].
    rewrite <- (summary_lines_success_count env _ s2).
    rewrite Elo, !elem_of_app. split; [|by auto].
    intros [[H|H]|[H|H]]; [| |done|].
    + set_unfold in H. by destruct_or!.
    + rewrite Forall_forall in Flo. by destruct (Flo _ H).
    + set_unfold in H. by destruct_or!.
Qed.

(** X10.  In a run that printed its closing banner, the last section of
    the summary reports an enabled entry whose key contains [coastline] as
    SUCCESS exactly when its destination is on disk at the end of the run,
    and as MISSING exactly when it is not: whether this run fetched it,
    skipped it or failed to fetch it. *)
Theorem coastline_report_reflects_the_disk env should_overwrite base_url
    geojson_files dirs files filename config :
  NoDup (map fst geojson_files) ->
  (filename, config) ∈ files_to_download geojson_files ->
  PyStr.contains "coastline" filename = true ->
  let s' := (dunder_main env should_overwrite base_url geojson_files
               (initial_state dirs files)).2 in
  MsgComplete ∈ stdout s' ->
  (MsgCoastlineSuccess filename ∈ stdout s' <->
   path_exists env (filepath_of config) s' = true) /\
  (MsgCoastlineMissing filename ∈ stdout s' <->
   path_exists env (filepath_of config) s' = false).
Proof.
  intros Hnd Hin Hcoast s' Hc. subst s'.
  destruct (completed_run env should_overwrite base_url geojson_files dirs files Hc)
    as (lo & s2 & _ & Elo & Flo & ->).
  cbn [snd stdout with_stdout].
  change (path_exists env (filepath_of config) (with_stdout _ s2))
    with (path_exists env (filepath_of config) s2).
  destruct (summary_lines_coastline env (files_to_download geojson_files) s2
              filename config (filter_keys_NoDup _ Hnd) Hin Hcoast) as [H1 H2].
  rewrite <- H1, <- H2, Elo, !elem_of_app.
  split; (split; [|by auto]).
  - intros [[H|H]|[H|H]]; [| |done|].
    + set_unfold in H. by destruct_or!.
    + rewrite Forall_forall in Flo. by destruct (Flo _ H).
    + set_unfold in H. by destruct_or!.
  - intros [[H|H]|[H|H]]; [| |done|].
    + set_unfold in H. by destruct_or!.
    + rewrite Forall_forall in Flo. by destruct (Flo _ H).
    + set_unfold in H. by destruct_or!.
Qed.

Lemma coastline_report_reflects_the_disk_witness :
  let s' := (dunder_main env_both_fail true "http://host/" [coastline_entry]
               disk_with_coast).2 in
  NoDup (map fst [coastline_entry]) /\
  coastline_entry ∈ files_to_download [coastline_entry] /\
  PyStr.contains "coastline" coastline_entry.1 = true /\
  MsgComplete ∈ stdout s' /\
  (MsgCoastlineSuccess coastline_entry.1 ∈ stdout s' <->
   path_exists env_both_fail (filepath_of coastline_entry.2) s' = true) /\
  (MsgCoastlineMissing coastline_entry.1 ∈ stdout s' <->
   path_exists env_both_fail (filepath_of coastline_entry.2) s' = false).
Proof.
  intros s'.
  assert (NoDup (map fst [coastline_entry])) as H1
    by (apply (bool_decide_unpack _); vm_compute; exact I).
  assert (coastline_entry ∈ files_to_download [coastline_entry]) as H2
    by (vm_compute; left).
  assert (PyStr.contains "coastline" coastline_entry.1 = true) as H3 by reflexivity.
  assert (MsgComplete ∈ stdout s') as H4
    by (vm_compute; repeat constructor).
  split; [exact H1|]. split; [exact H2|]. split; [exact H3|]. split; [exact H4|].
  exact (coastline_report_reflects_the_disk env_both_fail true "http://host/"
           [coastline_entry] {["out"]} {["out/coast.geojson" := [Byte.x7b; Byte.x7d]]}
           coastline_entry.1 coastline_entry.2 H1 H2 H3 H4).
Defined.

(** X11.  In a run that printed its closing banner, the directory lines of
    the summary are those of the recorded directories, and the count on each
    is the number of enabled catalog entries configured for that directory,
    whatever was downloaded. *)
Theorem directory_report_counts_catalog_entries env should_overwrite base_url
    geojson_files dirs files :
  let s' := (dunder_main env should_overwrite base_url geojson_files
               (initial_state dirs files)).2 in
  MsgComplete ∈ stdout s' ->
  forall d n,
    MsgDirectoryLine d n ∈ stdout s' <->
    d ∈ created_dirs s' /\
    n = length (filter (fun kv : string * Config => String.eqb (directory kv.2) d)
                       (files_to_download geojson_files)).
Proof.
  intros s' Hc d n. subst s'.
  destruct (completed_run env should_overwrite base_url geojson_files dirs files Hc)
    as (lo & s2 & _ & Elo & Flo & ->).
  cbn [snd stdout created_dirs with_stdout].
  rewrite Elo, !elem_of_app, summary_lines_elem. split.
  - intros [[H|H]|[H|H]].
    + set_unfold in H. by destruct_or!.
    + rewrite Forall_forall in Flo. by destruct (Flo _ H).
    + destruct H as [?|[?|[Hf|[?|[?|[(d' & Hd' & Heq)|[?|(cf & _ & Hcf)]]]]]]];
        try congruence.
      * by apply failed_lines_elem in Hf.
      * unfold directory_line in Heq. injection Heq as -> ->.
        unfold sorted_strings in Hd'. rewrite sort_by_perm in Hd'.
        by apply elem_of_elements in Hd'.
      * destruct (coastline_line_cases env (files_to_download geojson_files) s2 cf);
          congruence.
    + set_unfold in H. by destruct_or!.
  - intros [Hd ->]. right. left. do 5 right. left. exists d. split; [|done].
    unfold sorted_strings. rewrite sort_by_perm. by apply elem_of_elements.
Qed.

Lemma directory_report_counts_catalog_entries_witness :
  let s' := (dunder_main env_serves_new true "http://host/" two_entries
               (initial_state ∅ ∅)).2 in
  MsgComplete ∈ stdout s' /\
  forall d n,
    MsgDirectoryLine d n ∈ stdout s' <->
    d ∈ created_dirs s' /\
    n = length (filter (fun kv : string * Config => String.eqb (directory kv.2) d)
                       (files_to_download two_entries)).
Proof.
  intros s'.
  assert (MsgComplete ∈ stdout s') as H by (vm_compute; repeat constructor).
  split; [exact H|].
  exact (directory_report_counts_catalog_entries env_serves_new true "http://host/"
           two_entries ∅ ∅ H).
Defined.

(** * A run over files that are kept *)

Section AllPresent.

Variable env : Env.
Variable should_overwrite : bool.
Variable base_url : string.
Variable geojson_files : Catalog.

#[local] Abbreviation ftd := (files_to_download geojson_files).
#[local] Abbreviation process_entry :=
  (process_entry env should_overwrite base_url geojson_files).

Lemma loop_all_skipped s1 :
  (forall kv, kv ∈ ftd ->
     path_exists env (filepath_of kv.2) s1 = true /\
     file_should_overwrite should_overwrite kv.2 = false) ->
  let s2 := (download_loop env should_overwrite base_url geojson_files s1).2 in
  no_transfer s1 s2 /\ fs_grows s1 s2.
Proof.
  intros Hall. cbv zeta. unfold download_loop.
  apply (for_each_invariant (fun s => no_transfer s1 s /\ fs_grows s1 s)).
  - intros [i [filename config]] Hin%enumerate_elem_of s [Hnt Hg].
    destruct (Hall _ Hin) as [Hex Hov]. cbn [snd] in Hex, Hov.
    destruct (skipped_entry env should_overwrite base_url geojson_files
                s i filename config (path_exists_mono _ _ _ _ Hg Hex) Hov)
      as (Hnt' & Hg' & _).
    split; by etransitivity.
  - split; reflexivity.
Qed.

End AllPresent.

(** X12.  When the destination of every enabled entry is on disk at the
    start and none may be overwritten, the run makes no request, opens no
    file, leaves every file as it was, counts no success and never pauses. *)
Theorem nothing_is_fetched_when_all_are_kept env should_overwrite base_url
    geojson_files dirs files :
  (forall kv, kv ∈ files_to_download geojson_files ->
     path_exists env (filepath_of kv.2) (initial_state dirs files) = true /\
     file_should_overwrite should_overwrite kv.2 = false) ->
  let s' := (dunder_main env should_overwrite base_url geojson_files
               (initial_state dirs files)).2 in
  requests s' = [] /\ opened s' = [] /\ fs_files s' = files /\
  success_count s' = 0 /\ slept s' = 0.
Proof.
  intros Hall s'. subst s'.
  set (s1 := loop_start env geojson_files (initial_state dirs files)).
  destruct (loop_all_skipped env should_overwrite base_url geojson_files s1)
    as [(Hr & Ho & Hf & Hsc & _) _]; [exact Hall|].
  destruct (main_after_loop env should_overwrite base_url geojson_files idle
              (initial_state dirs files)) as [(Hr' & Ho' & Hf' & Hsc' & _) Hsl'];
    [intros; prim_idle..|].
  fold s1 in Hr', Ho', Hf', Hsc', Hsl'.
  rewrite Hr', Ho', Hf', Hsc', Hr, Ho, Hf, Hsc. repeat split; try done.
  destruct (run_logs env should_overwrite base_url geojson_files dirs files)
    as (_ & _ & _ & _ & Hsl & _).
  rewrite Hsc', Hsc in Hsl. cbn in Hsl. lia.
Qed.

Lemma nothing_is_fetched_when_all_are_kept_witness :
  let s' := (dunder_main env_serves_new true "http://host/" two_kept
               disk_with_both).2 in
  (forall kv, kv ∈ files_to_download two_kept ->
     path_exists env_serves_new (filepath_of kv.2) disk_with_both = true /\
     file_should_overwrite true kv.2 = false) /\
  requests s' = [] /\ opened s' = [] /\ fs_files s' = fs_files disk_with_both /\
  success_count s' = 0 /\ slept s' = 0.
Proof.
  intros s'.
  assert (forall kv, kv ∈ files_to_download two_kept ->
            path_exists env_serves_new (filepath_of kv.2) disk_with_both = true /\
            file_should_overwrite true kv.2 = false) as H.
  { intros kv Hkv. apply list_elem_of_filter in Hkv as [_ Hkv].
    unfold two_kept in Hkv. rewrite !elem_of_cons in Hkv.
    destruct Hkv as [->|[->|?%elem_of_nil]]; [by vm_compute..|done]. }
  split; [exact H|].
  exact (nothing_is_fetched_when_all_are_kept env_serves_new true "http://host/"
           two_kept {["out"]}
           {["out/a.geojson" := [Byte.x7b; Byte.x7d];
             "out/b.geojson" := [Byte.x5b; Byte.x5d]]} H).
Defined.

(** * The console, entry by entry *)

Section Console.

Variable env : Env.
Variable should_overwrite : bool.
Variable base_url : string.
Variable geojson_files : Catalog.

#[local] Abbreviation ftd := (files_to_download geojson_files).
#[local] Abbreviation process_entry :=
  (process_entry env should_overwrite base_url geojson_files).

(** When it returns, [ensure_directory] has printed nothing, or the
    announcement of the directory. *)
Lemma ensure_directory_console config s s1 :
  ensure_directory env config s = (Ok tt, s1) ->
  exists pre, (pre = [] \/ pre = [MsgCreatedDirectory (directory config)]) /\
              stdout s1 = stdout s ++ pre.
Proof.
  unfold ensure_directory, bind, get_state.
  destruct (bool_decide (directory config ∈ created_dirs s)).
  - intros [= <-]. exists []. split; [by left|by rewrite app_nil_r].
  - destruct (makedirs_effect env (directory config) s) as (Ho & _).
    destruct (os_makedirs env (directory config) s) as [[[]|e] s2]; [|done].
    intros [= <-]. exists [MsgCreatedDirectory (directory config)].
    split; [by right|]. cbn in *. by rewrite Ho.
Qed.

(** One turn of the loop, as seen on the console: the entry is skipped; or
    its fetch fails and is reported; or it is saved, counted and reported
    with its category and the size of the body written; or the turn raises
    without counting a success. *)
Lemma process_entry_console i filename config s :
  let r := process_entry (i, (filename, config)) s in
  let u := base_url +:+ filename in
  let p := filepath_of config in
  (exists e, r.1 = Raise e /\ success_count r.2 = success_count s) \/
  exists pre,
    (pre = [] \/ pre = [MsgCreatedDirectory (directory config)]) /\
    ((r.1 = Ok tt /\ requests r.2 = requests s /\ fs_files r.2 = fs_files s /\
      success_count r.2 = success_count s /\
      stdout r.2 = stdout s ++ pre ++ [MsgSkip i (length ftd) filename]) \/
     (r.1 = Ok tt /\ fetch_rejected env u = true /\
      requests r.2 = requests s ++ [u] /\ fs_files r.2 = fs_files s /\
      success_count r.2 = success_count s /\
      exists e, stdout r.2 =
                stdout s ++ pre ++ [MsgDownloading i (length ftd) filename;
                                    MsgErrorDownload e]) \/
     (exists resp,
        http_get env u = Responded resp /\ http_error_msg u resp = None /\
        (r.1 = Ok tt \/ r.1 = Raise KeyboardInterrupt) /\
        requests r.2 = requests s ++ [u] /\
        fs_files r.2 = <[resolve env p := content resp]> (fs_files s) /\
        success_count r.2 = S (success_count s) /\
        stdout r.2 =
          stdout s ++ pre ++ [MsgDownloading i (length ftd) filename;
                              MsgSuccess (highlight filename)
                                         (length (content resp))])).
Proof.
  cbv zeta. simpl. unfold try_body. rewrite try_clauses_bind.
  pose proof (ensure_directory_idle env config s) as Hid.
  pose proof (ensure_directory_raises env config s) as Hr.
  pose proof (ensure_directory_console config s) as Hc.
  destruct (ensure_directory env config s) as [[[]|e] s1]; simpl in *.
  2:{ destruct (Hr e eq_refl) as [msg ->]. unfold try_clauses, raise. simpl.
      left. exists (OSError msg). split; [done|]. by destruct Hid as [(_&_&_&?&_) _]. }
  clear Hr. destruct Hid as [(Hq & Ho & Hf & Hsc & Hff) Hsl].
  destruct (Hc s1 eq_refl) as (pre & Hpre & Hout). clear Hc.
  unfold try_clauses, bind, os_path_exists.
  destruct (path_exists env (filepath_of config) s1 &&
            negb (file_should_overwrite should_overwrite config)); simpl.
  - right. exists pre. split; [done|]. left.
    rewrite Hout, <- app_assoc. by repeat split.
  - unfold fetch_and_save, bind, print, modify, requests_get. simpl.
    destruct (http_get env (base_url +:+ filename)) as [r|msg| |msg] eqn:Hget; simpl.
    + unfold raise_for_status.
      destruct (http_error_msg (base_url +:+ filename) r) as [m|] eqn:Hm; simpl.
      * right. exists pre. split; [done|]. right. left.
        split; [done|]. split.
        { unfold fetch_rejected. rewrite Hget. apply bool_decide_eq_true.
          rewrite Hm. by eexists. }
        cbn. rewrite Hq, Hf, Hsc, Hout. repeat split; try done.
        exists m. by rewrite <- !app_assoc.
      * unfold write_file. simpl.
        destruct (negb (walkable env (filepath_of config) _)); simpl.
        { left. eexists. split; [done|]. cbn. congruence. }
        destruct (dir_named env (resolve env (filepath_of config)) _); simpl.
        { left. eexists. split; [done|]. cbn. congruence. }
        destruct (write_fault env (filepath_of config)) as [[msg|n msg]|] eqn:Hw;
          simpl.
        { left. eexists. split; [done|]. cbn. congruence. }
        { left. eexists. split; [done|]. cbn. congruence. }
        right. exists pre. split; [done|]. right. right. exists r.
        split; [done|]. split; [done|].
        destruct (i <? length ftd); unfold time_sleep; simpl;
          [destruct (sleep_interrupted env (slept s1))|]; simpl;
          cbn; rewrite Hq, Hf, Hsc, Hout, <- !app_assoc; cbn;
          repeat split; auto.
    + right. exists pre. split; [done|]. right. left.
      split; [done|]. split; [unfold fetch_rejected; by rewrite Hget|].
      cbn. rewrite Hq, Hf, Hsc, Hout. repeat split; try done.
      exists msg. by rewrite <- !app_assoc.
    + left. eexists. split; [done|]. cbn. congruence.
    + left. eexists. split; [done|]. cbn. congruence.
Qed.

(** The console of a loop that ran to its end: one block of lines per entry,
    in order. *)
Lemma loop_console l : forall k s s',
  for_each process_entry (enumerate k l) s = (Ok tt, s') ->
  exists blocks,
    stdout s' = stdout s ++ concat blocks /\
    Forall2 (fun item out => entry_lines (length ftd) item.1 item.2.1 item.2.2 out)
            (enumerate k l) blocks.
Proof.
  induction l as [|[filename config] l IH]; intros k s s'; cbn [enumerate for_each].
  - intros [= <-]. exists []. split; [by rewrite app_nil_r|constructor].
  - unfold bind.
    pose proof (process_entry_console k filename config s) as Hc. cbv zeta in Hc.
    destruct (process_entry (k, (filename, config)) s) as [[[]|e] s1]; [|done].
    cbn [fst snd] in Hc. intros Hrest.
    destruct (IH _ _ _ Hrest) as (blocks & Hout & Hall).
    destruct Hc as [(e & ? & _)|(pre & Hpre & Hc)]; [done|].
    assert (exists out, stdout s1 = stdout s ++ out /\
                        entry_lines (length ftd) k filename config out)
      as (out & Hs1 & Hlines).
    { destruct Hc as [(_ & _ & _ & _ & E)|[(_ & _ & _ & _ & _ & e & E)
                                          |(r & _ & _ & _ & _ & _ & _ & E)]];
        (eexists; split; [exact E|]); exists pre; (split; [done|]); eauto. }
    exists (out :: blocks). split.
    + cbn [concat]. by rewrite Hout, Hs1, <- app_assoc.
    + by constructor.
Qed.

End Console.

(** X13.  A turn of the loop changes the success count only by saving a
    file: the count goes up by one, the destination holds the whole body of
    the response, whose status [raise_for_status] accepted, and the turn has
    printed, after the announcement of the directory if there was one, the
    DOWNLOADING line of the entry and a SUCCESS line with the category of the
    file name and the size of that body. *)
Theorem success_line_reports_the_saved_file env should_overwrite base_url
    geojson_files i filename config s :
  let r := process_entry env should_overwrite base_url geojson_files
             (i, (filename, config)) s in
  success_count r.2 <> success_count s ->
  exists resp pre,
    http_get env (base_url +:+ filename) = Responded resp /\
    ~ (400 <= status_code resp < 600)%Z /\
    fs_files r.2 !! resolve env (filepath_of config) = Some (content resp) /\
    success_count r.2 = S (success_count s) /\
    stdout r.2 =
      stdout s ++ pre ++
      [MsgDownloading i (length (files_to_download geojson_files)) filename;
       MsgSuccess (highlight filename) (length (content resp))] /\
    (pre = [] \/ pre = [MsgCreatedDirectory (directory config)]).
Proof.
  intros r Hsc. subst r.
  destruct (process_entry_console env should_overwrite base_url geojson_files
              i filename config s)
    as [(e & _ & ?)|(pre & Hpre & [(_ & _ & _ & ? & _)|[(_ & _ & _ & _ & ? & _)
                                  |(resp & Hget & Hok & _ & _ & Hf & Hs & Hout)]])];
    try done.
  exists resp, pre. split; [done|]. split.
  { intros Hr. apply (http_error_msg_range (base_url +:+ filename)) in Hr as [m Hm].
    congruence. }
  split; [by rewrite Hf, lookup_insert_eq|]. by repeat split.
Qed.

Lemma success_line_reports_the_saved_file_witness :
  let r := process_entry env_serves_new true "http://host/" two_entries
             (1, entry_a) (initial_state ∅ ∅) in
  success_count r.2 <> success_count (initial_state ∅ ∅) /\
  exists resp pre,
    http_get env_serves_new ("http://host/" +:+ "a.geojson") = Responded resp /\
    ~ (400 <= status_code resp < 600)%Z /\
    fs_files r.2 !! resolve env_serves_new (filepath_of entry_a.2)
    = Some (content resp) /\
    success_count r.2 = S (success_count (initial_state ∅ ∅)) /\
    stdout r.2 =
      stdout (initial_state ∅ ∅) ++ pre ++
      [MsgDownloading 1 (length (files_to_download two_entries)) "a.geojson";
       MsgSuccess (highlight "a.geojson") (length (content resp))] /\
    (pre = [] \/ pre = [MsgCreatedDirectory (directory entry_a.2)]).
Proof.
  intros r.
  assert (success_count r.2 <> success_count (initial_state ∅ ∅)) as H
    by (vm_compute; discriminate).
  split; [exact H|].
  exact (success_line_reports_the_saved_file env_serves_new true "http://host/"
           two_entries 1 "a.geojson" entry_a.2 (initial_state ∅ ∅) H).
Defined.

(** X14.  The console of a run that printed its closing banner is made of
    the three opening lines, one block of lines per enabled entry in catalog
    order, numbered from 1, the summary and the banner; the block of an entry
    is its SKIP line, or its DOWNLOADING line followed by an ERROR or a
    SUCCESS line, after the announcement of its directory if there is one. *)
Theorem completed_console_has_a_block_per_entry env should_overwrite base_url
    geojson_files dirs files :
  let r := dunder_main env should_overwrite base_url geojson_files
             (initial_state dirs files) in
  let N := length (files_to_download geojson_files) in
  MsgComplete ∈ stdout r.2 ->
  exists blocks,
    stdout r.2 =
      [MsgStarting N; MsgBaseDirectory (cwd env); MsgOrganizedByCategory] ++
      concat blocks ++
      summary_lines env (files_to_download geojson_files) r.2 ++
      [MsgComplete; MsgAllFinished] /\
    Forall2 (fun item out => entry_lines N item.1 item.2.1 item.2.2 out)
            (enumerate 1 (files_to_download geojson_files)) blocks.
Proof.
  intros r N Hc. subst r N.
  destruct (completed_run env should_overwrite base_url geojson_files dirs files Hc)
    as (lo & s2 & Hloop & _ & _ & ->).
  apply loop_console in Hloop as (blocks & Hout & Hall).
  exists blocks. split; [|exact Hall].
  cbn [snd stdout with_stdout]. rewrite Hout. cbn [loop_start stdout with_stdout
    with_locals initial_state]. rewrite <- !app_assoc. reflexivity.
Qed.

Lemma completed_console_has_a_block_per_entry_witness :
  let r := dunder_main env_b_unavailable true "http://host/" three_entries
             (initial_state ∅ ∅) in
  let N := length (files_to_download three_entries) in
  MsgComplete ∈ stdout r.2 /\
  exists blocks,
    stdout r.2 =
      [MsgStarting N; MsgBaseDirectory (cwd env_b_unavailable);
       MsgOrganizedByCategory] ++
      concat blocks ++
      summary_lines env_b_unavailable (files_to_download three_entries) r.2 ++
      [MsgComplete; MsgAllFinished] /\
    Forall2 (fun item out => entry_lines N item.1 item.2.1 item.2.2 out)
            (enumerate 1 (files_to_download three_entries)) blocks.
Proof.
  intros r N.
  assert (MsgComplete ∈ stdout r.2) as H by (vm_compute; repeat constructor).
  split; [exact H|].
  exact (completed_console_has_a_block_per_entry env_b_unavailable true
           "http://host/" three_entries ∅ ∅ H).
Defined.

(** * Exceptions that leave the loop *)

Section Escapes.

Variable env : Env.
Variable should_overwrite : bool.
Variable base_url : string.
Variable geojson_files : Catalog.

(** The handler of the loop catches every request error, and raises
    nothing itself. *)
Lemma process_entry_catches item :
  raises_only not_request_error
    (process_entry env should_overwrite base_url geojson_files item).
Proof.
  destruct item as [i [filename config]]. simpl.
  apply raises_only_try_clauses with (Q := fun _ => True).
  - by intros s e _.
  - intros e h _ (msg & -> & ->)%select_request_clause. by intros s e.
  - intros e _. unfold not_request_error. simpl. by destruct (is_RequestException e).
Qed.

Lemma download_raises_no_request_error :
  raises_only not_request_error
    (download_geojson_files env should_overwrite base_url geojson_files).
Proof.
  intros s e. rewrite download_unfold. revert e.
  generalize (loop_start env geojson_files s). clear s.
  change (raises_only not_request_error
    (bind (download_loop env should_overwrite base_url geojson_files) (fun _ =>
       bind (summary env geojson_files) (fun _ =>
         bind (print MsgComplete) (fun _ =>
           bind (print MsgAllFinished) (fun _ => @sys_exit unit 0)))))).
  apply raises_only_bind.
  - apply raises_only_for_each. apply process_entry_catches.
  - intros _. apply raises_only_bind.
    + intros s e. by rewrite summary_exact.
    + intros _. apply raises_only_bind; [by intros s e|intros _].
      apply raises_only_bind; [by intros s e|intros _].
      intros s e [= <-]. reflexivity.
Qed.

End Escapes.

(** X15.  [download_geojson_files] never returns normally, and the
    exception that ends it is never a [requests.RequestException]: whatever
    the host answers, a failed fetch is handled inside the loop. *)
Theorem request_errors_never_escape env should_overwrite base_url geojson_files s :
  match (download_geojson_files env should_overwrite base_url geojson_files s).1 with
  | Ok _ => False
  | Raise e => is_RequestException e = false
  end.
Proof.
  pose proof (download_outcome env should_overwrite base_url geojson_files s) as Hout.
  pose proof (download_raises_no_request_error env should_overwrite base_url
                geojson_files s) as Hr.
  destruct (download_geojson_files env should_overwrite base_url geojson_files s)
    as [[[]|e] s']; [done|].
  exact (Hr e eq_refl).
Qed.

(** * More on the index generator *)

Section Stability.

Context {A : Type} (key : A -> string).

Lemma leb_same (a : string) : String.leb a a = true.
Proof. by destruct (String.leb_total a a). Qed.

Lemma insert_by_filter k x l :
  filter (fun y => key y = k) (insert_by key x l) =
  filter (fun y => key y = k) (x :: l).
Proof.
  induction l as [|y l IH]; [done|]. cbn [insert_by].
  destruct (String.leb (key x) (key y)) eqn:E; [done|].
  rewrite filter_cons, IH, !filter_cons.
  destruct (decide (key y = k)) as [Hy|Hy], (decide (key x = k)) as [Hx|Hx]; try done.
  rewrite Hx, <- Hy, leb_same in E. done.
Qed.

(** The sort is stable: records with the same key keep their order. *)
Lemma sort_by_stable k l :
  filter (fun y => key y = k) (sort_by key l) = filter (fun y => key y = k) l.
Proof.
  induction l as [|x l IH]; [done|]. cbn [sort_by].
  by rewrite insert_by_filter, !filter_cons, IH.
Qed.

End Stability.

Module IndexPageFacts.

Import IndexGenerator IndexSpec IndexPage.

Lemma filter_link_of sep name l :
  filter (fun link : string * string => link.1 = name) (map (link_of sep) l) =
  map (link_of sep) (filter (fun entry : string * string => entry.2 = name) l).
Proof.
  induction l as [|e l IH]; [done|]. cbn [map]. rewrite !filter_cons.
  change (link_of sep e).1 with e.2.
  destruct (decide (e.2 = name)); cbn [map]; by rewrite IH.
Qed.

(** X17.  The sort at line 38 is stable: whenever the generator returns
    normally, the links of the files that share a name appear in the page in
    the order in which the walk found the files. *)
Theorem same_name_files_keep_walk_order env s t name :
  features env = Directory t ->
  (generate_index_html env s).1 = Ok tt ->
  exists links,
    index_html (generate_index_html env s).2 = Some (page (now env) links) /\
    filter (fun link => link.1 = name) links =
    map (link_of (os_sep env))
        (filter (fun entry => entry.2 = name) (listed (os_sep env) t)).
Proof.
  intros Ht Hok. exists (links_of (os_sep env) t).
  rewrite (IndexFacts.generated_page env s t Ht Hok).
  split; [reflexivity|]. unfold links_of.
  by rewrite (sort_by_stable fst), filter_link_of.
Qed.

Lemma same_name_files_keep_walk_order_witness :
  features env_windows = Directory same_name_twice /\
  (generate_index_html env_windows (mkGenState [] None)).1 = Ok tt /\
  exists links,
    index_html (generate_index_html env_windows (mkGenState [] None)).2 =
      Some (page (now env_windows) links) /\
    filter (fun link => link.1 = "a.geojson") links =
    map (link_of (os_sep env_windows))
        (filter (fun entry => entry.2 = "a.geojson")
                (listed (os_sep env_windows) same_name_twice)).
Proof.
  split; [reflexivity|]. split; [reflexivity|].
  exact (same_name_files_keep_walk_order env_windows (mkGenState [] None)
           same_name_twice "a.geojson" eq_refl eq_refl).
Defined.

(** X18.  Whenever the generator returns normally, a link is behind a line
    of the page exactly when it is the link of a file of the tree whose name
    is some string, possibly empty, followed by [.geojson] in this letter
    case. *)
Theorem listed_iff_name_ends_with_geojson env s t :
  features env = Directory t ->
  (generate_index_html env s).1 = Ok tt ->
  exists links,
    index_html (generate_index_html env s).2 = Some (page (now env) links) /\
    forall link,
      link ∈ links <->
      exists root stem,
        (root, stem +:+ ".geojson") ∈ tree_files (os_sep env) "features" t /\
        link = link_of (os_sep env) (root, stem +:+ ".geojson").
Proof.
  intros Ht Hok. exists (links_of (os_sep env) t).
  rewrite (IndexFacts.generated_page env s t Ht Hok).
  split; [reflexivity|]. intros link.
  rewrite IndexFacts.links_of_perm, list_elem_of_fmap. split.
  - intros ([root file] & -> & [Hgeo Hin]%list_elem_of_filter).
    apply IndexFacts.has_extension_spec in Hgeo as [stem Hs].
    cbn [snd] in Hs. subst file. by exists root, stem.
  - intros (root & stem & Hin & ->). exists (root, stem +:+ ".geojson").
    split; [done|]. apply list_elem_of_filter. split; [|done].
    apply IndexFacts.has_extension_spec. by exists stem.
Qed.

Lemma listed_iff_name_ends_with_geojson_witness :
  features env_windows = Directory same_name_twice /\
  (generate_index_html env_windows (mkGenState [] None)).1 = Ok tt /\
  exists links,
    index_html (generate_index_html env_windows (mkGenState [] None)).2 =
      Some (page (now env_windows) links) /\
    forall link,
      link ∈ links <->
      exists root stem,
        (root, stem +:+ ".geojson")
          ∈ tree_files (os_sep env_windows) "features" same_name_twice /\
        link = link_of (os_sep env_windows) (root, stem +:+ ".geojson").
Proof.
  split; [reflexivity|]. split; [reflexivity|].
  exact (listed_iff_name_ends_with_geojson env_windows (mkGenState [] None)
           same_name_twice eq_refl eq_refl).
Defined.

Lemma occurs_app c a b : occurs c (a +:+ b) = occurs c a || occurs c b.
Proof.
  induction a as [|x a IH]; [done|].
  change (occurs c (String x (a +:+ b)) = occurs c (String x a) || occurs c b).
  cbn [occurs]. by rewrite IH, orb_assoc.
Qed.

Lemma slashed_app a b : slashed (a +:+ b) = slashed a +:+ slashed b.
Proof.
  unfold slashed.
  by rewrite IndexFacts.list_ascii_app, map_app, IndexFacts.string_of_list_app.
Qed.

Lemma slashed_no_backslash path : occurs "092" (slashed path) = false.
Proof.
  unfold slashed. induction path as [|x path IH]; [done|].
  cbn [list_ascii_of_string map string_of_list_ascii occurs]. rewrite IH.
  destruct (Ascii.eqb x "092") eqn:E; [done|]. by rewrite E.
Qed.

(** Every directory the walk visits lies below the top it started from. *)
Lemma tree_files_root sep : forall t top root file,
  (root, file) ∈ tree_files sep top t -> exists below, root = top +:+ below.
Proof.
  fix IH 1. intros [files subdirs] top root file. cbn [tree_files].
  intros [Hin|Hin]%elem_of_app.
  - apply list_elem_of_fmap in Hin as (f & [= -> _] & _). exists "".
    by rewrite IndexFacts.string_app_nil_r.
  - induction subdirs as [|[name sub] l IHl]; [by apply elem_of_nil in Hin|].
    apply elem_of_app in Hin as [Hin|Hin]; [|by apply IHl].
    apply IH in Hin as [below ->]. exists (sep +:+ name +:+ below).
    by rewrite !IndexFacts.string_app_assoc.
Qed.

(** X19.  Whenever the generator returns normally, the address of every
    link of the page starts with the site prefix followed by [/features], and
    holds no backslash, whatever the path separator of the system and the
    names of the files. *)
Theorem links_stay_under_the_site env s t :
  features env = Directory t ->
  (generate_index_html env s).1 = Ok tt ->
  exists links,
    index_html (generate_index_html env s).2 = Some (page (now env) links) /\
    forall link, link ∈ links ->
      (exists rest, link.2 = "https://dvanauken.github.io/data/features" +:+ rest) /\
      occurs "092" link.2 = false.
Proof.
  intros Ht Hok. exists (links_of (os_sep env) t).
  rewrite (IndexFacts.generated_page env s t Ht Hok).
  split; [reflexivity|]. intros link.
  rewrite IndexFacts.links_of_perm, list_elem_of_fmap.
  intros ([root file] & -> & [_ Hin]%list_elem_of_filter).
  unfold link_of. cbn [fst snd]. split.
  - apply tree_files_root in Hin as [below ->].
    exists (slashed (below +:+ os_sep env +:+ file)).
    rewrite (IndexFacts.string_app_assoc "features"), slashed_app. reflexivity.
  - rewrite occurs_app, slashed_no_backslash. reflexivity.
Qed.

Lemma links_stay_under_the_site_witness :
  features env_windows = Directory same_name_twice /\
  (generate_index_html env_windows (mkGenState [] None)).1 = Ok tt /\
  exists links,
    index_html (generate_index_html env_windows (mkGenState [] None)).2 =
      Some (page (now env_windows) links) /\
    forall link, link ∈ links ->
      (exists rest, link.2 = "https://dvanauken.github.io/data/features" +:+ rest) /\
      occurs "092" link.2 = false.
Proof.
  split; [reflexivity|]. split; [reflexivity|].
  exact (links_stay_under_the_site env_windows (mkGenState [] None)
           same_name_twice eq_refl eq_refl).
Defined.

(** X20.  Whenever the generator returns normally, the number in the line
    [Total files] of the page and in the line printed on the console is the
    number of files of the tree whose name ends with [.geojson], two files of
    the same name counting twice, and the page has that many list items,
    between the line that opens the list and the one that closes it. *)
Theorem total_counts_the_matching_files env s t :
  features env = Directory t ->
  (generate_index_html env s).1 = Ok tt ->
  let n := length (listed (os_sep env) t) in
  exists links,
    length links = n /\
    generate_index_html env s =
      (Ok tt,
       mkGenState
         (console s ++ ["Generated index.html with " +:+ pretty n +:+ " files"])
         (Some ("<html>" +:+ lf +:+
                "<head>" +:+ lf +:+
                "<title>Natural Earth GeoJSON Files</title>" +:+ lf +:+
                "</head>" +:+ lf +:+
                "<body>" +:+ lf +:+
                "<h1>Natural Earth GeoJSON Files</h1>" +:+ lf +:+
                "<p>Generated: " +:+ now env +:+ "</p>" +:+ lf +:+
                "<p>Total files: " +:+ pretty n +:+ "</p>" +:+ lf +:+
                "<hr>" +:+ lf +:+
                "<ul>" +:+ lf +:+
                String.concat "" (map list_item links) +:+
                "</ul>" +:+ lf +:+ "</body>" +:+ lf +:+ "</html>"))).
Proof.
  intros Ht Hok n. exists (links_of (os_sep env) t).
  assert (length (links_of (os_sep env) t) = n) as Hlen
    by (unfold links_of; by rewrite sort_by_length, length_map).
  split; [exact Hlen|].
  rewrite (IndexFacts.generated_page env s t Ht Hok). unfold page.
  by rewrite Hlen.
Qed.

Lemma total_counts_the_matching_files_witness :
  features env_windows = Directory same_name_twice /\
  (generate_index_html env_windows (mkGenState [] None)).1 = Ok tt /\
  let n := length (listed (os_sep env_windows) same_name_twice) in
  exists links,
    length links = n /\
    generate_index_html env_windows (mkGenState [] None) =
      (Ok tt,
       mkGenState
         ([] ++ ["Generated index.html with " +:+ pretty n +:+ " files"])
         (Some ("<html>" +:+ lf +:+
                "<head>" +:+ lf +:+
                "<title>Natural Earth GeoJSON Files</title>" +:+ lf +:+
                "</head>" +:+ lf +:+
                "<body>" +:+ lf +:+
                "<h1>Natural Earth GeoJSON Files</h1>" +:+ lf +:+
                "<p>Generated: " +:+ now env_windows +:+ "</p>" +:+ lf +:+
                "<p>Total files: " +:+ pretty n +:+ "</p>" +:+ lf +:+
                "<hr>" +:+ lf +:+
                "<ul>" +:+ lf +:+
                String.concat "" (map list_item links) +:+
                "</ul>" +:+ lf +:+ "</body>" +:+ lf +:+ "</html>"))).
Proof.
  split; [reflexivity|]. split; [reflexivity|].
  exact (total_counts_the_matching_files env_windows (mkGenState [] None)
           same_name_twice eq_refl eq_refl).
Defined.

End IndexPageFacts.
